(** * Financial statement analysis: ratio calculator, charts and report

    A shallow embedding of [main.py] (class [FinancialAnalysis] and [main]).

    - Numbers are IEEE 754 binary64 values, as in the float64 tables that
      pandas holds: [spec_float] with precision 53 and maximal exponent 1024.
      Arithmetic on a table row is numpy arithmetic, which never raises: a
      zero divisor gives an infinity or NaN.
    - A reporting period is represented by the text pandas prints for its
      timestamp (["2024-09-30 00:00:00"]).
    - The two dictionaries of the class are insertion-ordered association
      lists, as Python dictionaries are.
    - [print], the calls to the plotting backend and the file writes are
      recorded in an effect trace; exceptions are values of [result].
    - The labels of a table are distinct, as in the provider's tables: a
      lookup by label yields one row.
    - The directories of the output are taken as existing ([os.makedirs]
      is not modelled). *)

From Stdlib Require Import ZArith List String Ascii Bool Lia.
From Stdlib Require Import DecimalString.
From Stdlib Require Import Floats.SpecFloat.
Import ListNotations.

Local Open Scope string_scope.
Local Open Scope list_scope.

Infix "+++" := String.append (right associativity, at level 60).

(* ================================================================== *)
(** ** Binary64 arithmetic *)

Module Float64.

Definition prec : Z := 53.
Definition emax : Z := 1024.

Definition float := spec_float.

Definition nan : float := S754_nan.
Definition zero : float := S754_zero false.

Definition fadd : float -> float -> float := SFadd prec emax.
Definition fsub : float -> float -> float := SFsub prec emax.
Definition fmul : float -> float -> float := SFmul prec emax.
Definition fdiv : float -> float -> float := SFdiv prec emax.

(** Python's [x < y], [x > y] and [x == y] on floats: false as soon as
    one side is NaN. *)
Definition flt (x y : float) : bool := SFltb x y.
Definition fgt (x y : float) : bool := SFltb y x.
Definition feq (x y : float) : bool := SFeqb x y.

Definition is_nan (x : float) : bool :=
  match x with S754_nan => true | _ => false end.

(** The float nearest to an integer (conversion of an [int] operand). *)
Definition of_Z (n : Z) : float := binary_normalize prec emax n 0 false.

(** The literals of the program. *)
Definition one : float := S754_finite false 4503599627370496 (-52).
Definition two : float := S754_finite false 4503599627370496 (-51).
Definition hundred : float := S754_finite false 7036874417766400 (-46).
(** [0.7] is the double 0x3FE6666666666666. *)
Definition seven_tenths : float := S754_finite false 6305039478318694 (-53).

(** *** Fixed-point formatting, [format(x, '.2f')] and [format(x, '.2%')]

    CPython rounds the exact binary value to the requested number of
    decimals, ties to even. *)

Definition round_half_even_div (n d : Z) : Z :=
  let q := (n / d)%Z in
  let r := (n mod d)%Z in
  match (2 * r ?= d)%Z with
  | Lt => q
  | Gt => (q + 1)%Z
  | Eq => if Z.even q then q else (q + 1)%Z
  end.

(** [m * 2^e * 100] rounded to an integer. *)
Definition hundredths (m : positive) (e : Z) : Z :=
  let n := (Zpos m * 100)%Z in
  if (0 <=? e)%Z then (n * 2 ^ e)%Z
  else round_half_even_div n (2 ^ (- e)).

Definition decimal (n : Z) : string :=
  NilZero.string_of_uint (N.to_uint (Z.to_N n)).

Definition two_digits (n : Z) : string :=
  decimal (n / 10) +++ decimal (n mod 10).

Definition sign_text (s : bool) : string := if s then "-" else "".

Definition format_2f (x : float) : string :=
  match x with
  | S754_nan => "nan"
  | S754_infinity s => sign_text s +++ "inf"
  | S754_zero s => sign_text s +++ "0.00"
  | S754_finite s m e =>
      let h := hundredths m e in
      sign_text s +++ decimal (h / 100) +++ "." +++ two_digits (h mod 100)
  end.

(** The ['%'] presentation type multiplies by 100 in double arithmetic
    and then formats as ['f']. *)
Definition format_2pct (x : float) : string :=
  format_2f (fmul x hundred) +++ "%".

End Float64.

Import Float64.

(* ================================================================== *)
(** ** Exceptions, effects and the trace monad *)

(** The exceptions the program can meet.  [KeyError] and [IndexError]
    come from table lookups; [Exception] stands for anything raised by an
    external library (the data provider, the plotting backend). *)
Inductive exn :=
| KeyError (key : string)
| IndexError (msg : string)
| Exception (msg : string).

(** [str(e)] *)
Definition str_exn (e : exn) : string :=
  match e with
  | KeyError k => k
  | IndexError m => m
  | Exception m => m
  end.

Definition exn_name (e : exn) : string :=
  match e with
  | KeyError _ => "KeyError"
  | IndexError _ => "IndexError"
  | Exception _ => "Exception"
  end.

(** [traceback.format_exc()], without the stack frames. *)
Definition format_exc (e : exn) : string :=
  "Traceback (most recent call last):" +++ String "010" "" +++
  exn_name e +++ ": " +++ str_exn e.

Inductive result (A : Type) :=
| Ok (a : A)
| Raise (e : exn).
Arguments Ok {A} a.
Arguments Raise {A} e.

Definition period := string.

(** What is drawn on a figure. *)
Inductive artist :=
| Line (label : string) (dates : list period) (values : list float)
| Polygon (label : string) (colour : nat * nat) (values : list float)
| Pie (title : string) (wedges : list (string * float))
| Suptitle (text : string).

Definition figure := list artist.

(** Observable effects, in program order. *)
Inductive effect :=
| Print (line : string)
| OpenFigure
| Draw (a : artist)
| SaveFig (path : string) (fig : figure)
| WriteText (path : string) (text : string).

(** The calls made to the plotting backend.  A backend is an oracle that
    says, for each call, whether it raises (and with which message).  The
    decoration of a figure (titles of the axes, legend, grid, layout) is
    part of the call that saves it. *)
Inductive call :=
| CallFigure
| CallDraw (a : artist)
| CallSave (path : string).

Definition Backend := call -> option string.

(** A computation yields the effects it performed and either a value or
    the exception that stopped it. *)
Definition M (A : Type) : Type := list effect * result A.

Definition ret {A} (a : A) : M A := ([], Ok a).

Definition raise {A} (e : exn) : M A := ([], Raise e).

Definition bind {A B} (m : M A) (k : A -> M B) : M B :=
  match m with
  | (t, Ok a) => let (t', r) := k a in (t ++ t', r)
  | (t, Raise e) => (t, Raise e)
  end.

(** [try: m  except Exception as e: h e] *)
Definition try_except {A} (m : M A) (h : exn -> M A) : M A :=
  match m with
  | (t, Ok a) => (t, Ok a)
  | (t, Raise e) => let (t', r) := h e in (t ++ t', r)
  end.

Definition lift {A} (r : result A) : M A := ([], r).

Definition print (s : string) : M unit := ([Print s], Ok tt).

Declare Scope m_scope.
Delimit Scope m_scope with M.
Notation "x <- m ;; k" := (bind m (fun x => k))
  (at level 61, m at next level, right associativity) : m_scope.
Notation "m ;; k" := (bind m (fun _ => k))
  (at level 61, right associativity) : m_scope.

Definition trace {A} (m : M A) : list effect := fst m.
Definition outcome {A} (m : M A) : result A := snd m.

(** Pure lookups that may raise. *)
Definition rbind {A B} (r : result A) (k : A -> result B) : result B :=
  match r with
  | Ok a => k a
  | Raise e => Raise e
  end.

Declare Scope r_scope.
Delimit Scope r_scope with R.
Notation "x <- m ;; k" := (rbind m (fun x => k))
  (at level 61, m at next level, right associativity) : r_scope.

(* ================================================================== *)
(** ** Python strings, lists and dictionaries *)

Definition nl : string := String "010" "".

(** [repr] of a string (no character of a line-item name or ticker needs
    escaping). *)
Definition repr_str (s : string) : string := "'" +++ s +++ "'".

(** [repr] of a pandas timestamp. *)
Definition repr_timestamp (p : period) : string := "Timestamp('" +++ p +++ "')".

(** [str] of a list of strings. *)
Definition str_list (l : list string) : string :=
  "[" +++ String.concat ", " (map repr_str l) +++ "]".

(** [s * n] *)
Fixpoint repeat_string (s : string) (n : nat) : string :=
  match n with
  | O => ""
  | S n' => s +++ repeat_string s n'
  end.

(** [os.path.join(a, b)] on POSIX. *)
Definition ends_with_slash (a : string) : bool :=
  match String.get (String.length a - 1) a with
  | Some c => Ascii.eqb c "/"
  | None => false
  end.

Definition path_join (a b : string) : string :=
  if String.prefix "/" b then b
  else if orb (String.eqb a "") (ends_with_slash a) then a +++ b
  else a +++ "/" +++ b.

(** An insertion-ordered dictionary with string keys. *)
Module Dict.

Definition t (V : Type) : Type := list (string * V).

Definition empty {V} : t V := [].

Fixpoint get {V} (k : string) (d : t V) : option V :=
  match d with
  | [] => None
  | (k', v) :: d' => if String.eqb k k' then Some v else get k d'
  end.

(** [k in d] *)
Definition mem {V} (k : string) (d : t V) : bool :=
  match get k d with Some _ => true | None => false end.

(** [d[k] = v]: an existing key keeps its place. *)
Fixpoint set {V} (k : string) (v : V) (d : t V) : t V :=
  match d with
  | [] => [(k, v)]
  | (k', v') :: d' =>
      if String.eqb k k' then (k, v) :: d' else (k', v') :: set k v d'
  end.

Definition keys {V} (d : t V) : list string := map fst d.

End Dict.

(* ================================================================== *)
(** ** Tables *)

(** A balance sheet as the provider returns it: rows are named line
    items, columns are reporting periods, most recent first. *)
Record DataFrame := mkDataFrame {
  df_columns : list period;
  df_rows : list (string * list float)
}.

(** [bs.index.tolist()] *)
Definition df_index (bs : DataFrame) : list string := map fst (df_rows bs).

(** [bs.empty]: some axis has length zero. *)
Definition df_empty (bs : DataFrame) : bool :=
  match df_columns bs, df_rows bs with
  | [], _ => true
  | _, [] => true
  | _, _ => false
  end.

(** [label in bs.index] *)
Definition index_contains (bs : DataFrame) (label : string) : bool :=
  existsb (String.eqb label) (df_index bs).

(** [bs.loc[label]]: the row of that line item, or [KeyError]. *)
Definition df_loc (bs : DataFrame) (label : string) : result (list float) :=
  match Dict.get label (df_rows bs) with
  | Some row => Ok row
  | None => Raise (KeyError (repr_str label))
  end.

(** Every row has one value per reporting period. *)
Definition df_wf (bs : DataFrame) : Prop :=
  Forall (fun r => List.length (snd r) = List.length (df_columns bs)) (df_rows bs).

(** Arithmetic of two rows of one table: the indexes coincide, so the
    operation is element by element. *)
Fixpoint map2 {A B C} (f : A -> B -> C) (l1 : list A) (l2 : list B) : list C :=
  match l1, l2 with
  | a :: l1', b :: l2' => f a b :: map2 f l1' l2'
  | _, _ => []
  end.

Definition series_div (a b : list float) : list float := map2 fdiv a b.

(** The right operand of [current_assets - inventory]: a row, or the
    integer [0] broadcast over the row. *)
Inductive operand :=
| Row (values : list float)
| Scalar (c : float).

Definition series_sub (a : list float) (b : operand) : list float :=
  match b with
  | Row v => map2 fsub a v
  | Scalar c => map (fun x => fsub x c) a
  end.

(** The ratio table of one company: periods as rows, the four ratios as
    columns. *)
Record RatioTable := mkRatioTable {
  rt_index : list period;
  Current_Ratio : list float;
  Quick_Ratio : list float;
  Debt_to_Assets : list float;
  Equity_Multiplier : list float
}.

Definition rt_wf (rt : RatioTable) : Prop :=
  List.length (Current_Ratio rt) = List.length (rt_index rt) /\
  List.length (Quick_Ratio rt) = List.length (rt_index rt) /\
  List.length (Debt_to_Assets rt) = List.length (rt_index rt) /\
  List.length (Equity_Multiplier rt) = List.length (rt_index rt).

(** [series[label]] on a column of a ratio table: the value in the row
    of that period, or [KeyError]. *)
Fixpoint series_at (index : list period) (values : list float) (label : period)
  : result float :=
  match index, values with
  | p :: index', v :: values' =>
      if String.eqb label p then Ok v else series_at index' values' label
  | _, _ => Raise (KeyError (repr_timestamp label))
  end.

(** [index[0]] *)
Definition first_period (index : list period) : result period :=
  match index with
  | p :: _ => Ok p
  | [] => Raise (IndexError "index 0 is out of bounds for axis 0 with size 0")
  end.

(* ================================================================== *)
(** ** The analysis object *)

Record FinancialAnalysis := mkFinancialAnalysis {
  companies : list string;
  balance_sheets : Dict.t DataFrame;
  ratios : Dict.t RatioTable;
  output_dir : string;
  plots_dir : string
}.

(** [__init__]; [base_path] is the directory of the script. *)
Definition init (companies : list string) (base_path : string) : FinancialAnalysis :=
  let output_dir := path_join base_path "output" in
  {| companies := companies;
     balance_sheets := Dict.empty;
     ratios := Dict.empty;
     output_dir := output_dir;
     plots_dir := path_join output_dir "plots" |}.

Definition get_output_path (self : FinancialAnalysis) (filename : string) : string :=
  path_join (output_dir self) filename.

Definition get_plot_path (self : FinancialAnalysis) (filename : string) : string :=
  path_join (plots_dir self) filename.

Definition set_balance_sheet (self : FinancialAnalysis) (c : string) (bs : DataFrame) :=
  {| companies := companies self;
     balance_sheets := Dict.set c bs (balance_sheets self);
     ratios := ratios self;
     output_dir := output_dir self;
     plots_dir := plots_dir self |}.

Definition set_ratios (self : FinancialAnalysis) (c : string) (rt : RatioTable) :=
  {| companies := companies self;
     balance_sheets := balance_sheets self;
     ratios := Dict.set c rt (ratios self);
     output_dir := output_dir self;
     plots_dir := plots_dir self |}.

(* ================================================================== *)
(** ** Data fetcher *)

(** The provider: [yf.Ticker(company).quarterly_balance_sheet] either
    returns a table (possibly empty) or raises. *)
Definition Provider := string -> result DataFrame.

(** One iteration of the loop of [fetch_data]. *)
Definition fetch_one (yf : Provider) (self : FinancialAnalysis) (company : string)
  : M FinancialAnalysis :=
  try_except
    (bs <- lift (yf company) ;;
     if df_empty bs then
       print ("Warning: Unable to fetch data for " +++ company) ;;
       ret self
     else
       print (nl +++ company +++ " Balance Sheet Available Items:") ;;
       print (str_list (df_index bs)) ;;
       ret (set_balance_sheet self company bs))%M
    (fun e =>
       print ("Error fetching data for " +++ company +++ ": " +++ str_exn e) ;;
       ret self)%M.

Fixpoint fetch_loop (yf : Provider) (cs : list string) (self : FinancialAnalysis)
  : M FinancialAnalysis :=
  match cs with
  | [] => ret self
  | company :: cs' =>
      (self' <- fetch_one yf self company ;; fetch_loop yf cs' self')%M
  end.

Definition fetch_data (yf : Provider) (self : FinancialAnalysis) : M FinancialAnalysis :=
  fetch_loop yf (companies self) self.

(* ================================================================== *)
(** ** Ratio calculator *)

(** The body of the [try] block of [calculate_financial_ratios], up to
    the assignment to [self.ratios]. *)
Definition compute_ratios (bs : DataFrame) : result RatioTable :=
  (current_assets <- df_loc bs "Current Assets" ;;
   current_liabilities <- df_loc bs "Current Liabilities" ;;
   let current_ratio := series_div current_assets current_liabilities in
   inventory <- (if index_contains bs "Inventory"
                 then (row <- df_loc bs "Inventory" ;; Ok (Row row))
                 else Ok (Scalar (of_Z 0))) ;;
   let quick_ratio :=
     series_div (series_sub current_assets inventory) current_liabilities in
   total_assets <- df_loc bs "Total Assets" ;;
   total_liabilities <- df_loc bs "Total Liabilities Net Minority Interest" ;;
   let debt_to_assets := series_div total_liabilities total_assets in
   stockholders_equity <- df_loc bs "Stockholders Equity" ;;
   let equity_multiplier := series_div total_assets stockholders_equity in
   Ok {| rt_index := df_columns bs;
         Current_Ratio := current_ratio;
         Quick_Ratio := quick_ratio;
         Debt_to_Assets := debt_to_assets;
         Equity_Multiplier := equity_multiplier |})%R.

Definition calculate_one (self : FinancialAnalysis) (company : string) (bs : DataFrame)
  : M FinancialAnalysis :=
  try_except
    (rt <- lift (compute_ratios bs) ;;
     print ("Financial ratios calculation completed for " +++ company) ;;
     ret (set_ratios self company rt))%M
    (fun e =>
       print ("Error calculating ratios for " +++ company +++ ": " +++ str_exn e) ;;
       print "Available balance sheet items:" ;;
       print (str_list (df_index bs)) ;;
       ret self)%M.

Fixpoint calculate_loop (items : list (string * DataFrame)) (self : FinancialAnalysis)
  : M FinancialAnalysis :=
  match items with
  | [] => ret self
  | (company, bs) :: items' =>
      (self' <- calculate_one self company bs ;; calculate_loop items' self')%M
  end.

Definition calculate_financial_ratios (self : FinancialAnalysis) : M FinancialAnalysis :=
  calculate_loop (balance_sheets self) self.

(* ================================================================== *)
(** ** Chart renderer *)

(** A call to the backend: it raises, or it happens and is recorded. *)
Definition backend_call (plt : Backend) (c : call) (done : effect) : M unit :=
  match plt c with
  | Some msg => raise (Exception msg)
  | None => ([done], Ok tt)
  end.

Definition draw (plt : Backend) (a : artist) : M unit :=
  backend_call plt (CallDraw a) (Draw a).

Definition savefig (plt : Backend) (path : string) (fig : figure) : M unit :=
  backend_call plt (CallSave path) (SaveFig path fig).

(** [self.ratios[company]] *)
Definition ratios_of (self : FinancialAnalysis) (company : string) : result RatioTable :=
  match Dict.get company (ratios self) with
  | Some rt => Ok rt
  | None => Raise (KeyError (repr_str company))
  end.

(** The loop of [plot_current_ratio_comparison]; it returns what has been
    drawn. *)
Fixpoint line_loop (plt : Backend) (self : FinancialAnalysis) (cs : list string)
  : M figure :=
  match cs with
  | [] => ret []
  | company :: cs' =>
      if Dict.mem company (ratios self) then
        (rt <- lift (ratios_of self company) ;;
         let dates := rt_index rt in
         let values := Current_Ratio rt in
         let a := Line company dates values in
         draw plt a ;;
         fig <- line_loop plt self cs' ;;
         ret (a :: fig))%M
      else line_loop plt self cs'
  end.

Definition plot_current_ratio_comparison (plt : Backend) (self : FinancialAnalysis)
  : M string :=
  (backend_call plt CallFigure OpenFigure ;;
   fig <- line_loop plt self (companies self) ;;
   let plot_path := get_plot_path self "current_ratio_comparison.png" in
   savefig plt plot_path fig ;;
   ret plot_path)%M.

(** [available_companies] of [plot_debt_ratio_radar]. *)
Definition available_companies (self : FinancialAnalysis) : list string :=
  filter (fun company => Dict.mem company (ratios self)) (companies self).

(** The four values of one polygon, closed by repeating the first. *)
Definition radar_values (rt : RatioTable) (latest_date : period) : result (list float) :=
  (d <- series_at (rt_index rt) (Debt_to_Assets rt) latest_date ;;
   c <- series_at (rt_index rt) (Current_Ratio rt) latest_date ;;
   q <- series_at (rt_index rt) (Quick_Ratio rt) latest_date ;;
   e <- series_at (rt_index rt) (Equity_Multiplier rt) latest_date ;;
   Ok ([d; c; q; e] ++ [d]))%R.

(** The loop over [zip(available_companies, colors)]; [i] is the rank of
    the colour among the [n] sampled ones. *)
Fixpoint radar_loop (plt : Backend) (self : FinancialAnalysis) (latest_date : period)
  (n i : nat) (cs : list string) : M figure :=
  match cs with
  | [] => ret []
  | company :: cs' =>
      (rt <- lift (ratios_of self company) ;;
       values <- lift (radar_values rt latest_date) ;;
       let a := Polygon company (i, n) values in
       draw plt a ;;
       fig <- radar_loop plt self latest_date n (S i) cs' ;;
       ret (a :: fig))%M
  end.

Definition plot_debt_ratio_radar (plt : Backend) (self : FinancialAnalysis)
  : M (option string) :=
  match available_companies self with
  | [] =>
      (print "No data available for radar chart" ;;
       ret None)%M
  | (first :: _) as available =>
      (rt0 <- lift (ratios_of self first) ;;
       latest_date <- lift (first_period (rt_index rt0)) ;;
       backend_call plt CallFigure OpenFigure ;;
       fig <- radar_loop plt self latest_date (List.length available) 0 available ;;
       let plot_path := get_plot_path self "debt_ratio_radar.png" in
       savefig plt plot_path fig ;;
       ret (Some plot_path))%M
  end.

(** [bs.loc[label][latest_date]] *)
Definition cell (bs : DataFrame) (label : string) (latest_date : period) : result float :=
  (row <- df_loc bs label ;; series_at (df_columns bs) row latest_date)%R.

(** [latest_date.strftime("%Y-%m-%d")] *)
Definition strftime_ymd (p : period) : string := String.substring 0 10 p.

(** The [try] block of [plot_balance_sheet_composition]. *)
Definition composition_body (plt : Backend) (self : FinancialAnalysis)
  (company : string) (bs : DataFrame) (latest_date : period) : M (option string) :=
  (backend_call plt CallFigure OpenFigure ;;
   total_assets <- lift (cell bs "Total Assets" latest_date) ;;
   current_assets <- lift (cell bs "Current Assets" latest_date) ;;
   non_current_assets <- lift (cell bs "Total Non Current Assets" latest_date) ;;
   let assets :=
     Pie (company +++ " Assets Composition")
         [("Current Assets", current_assets);
          ("Non-current Assets", non_current_assets)] in
   draw plt assets ;;
   total_liabilities <-
     lift (cell bs "Total Liabilities Net Minority Interest" latest_date) ;;
   current_liabilities <- lift (cell bs "Current Liabilities" latest_date) ;;
   non_current_liabilities <-
     lift (cell bs "Total Non Current Liabilities Net Minority Interest" latest_date) ;;
   equity <- lift (cell bs "Stockholders Equity" latest_date) ;;
   let liabilities_equity :=
     Pie (company +++ " Liabilities and Equity Composition")
         [("Current Liabilities", current_liabilities);
          ("Non-current Liabilities", non_current_liabilities);
          ("Shareholders' Equity", equity)] in
   draw plt liabilities_equity ;;
   let title :=
     Suptitle (company +++ " Balance Sheet Analysis (" +++
               strftime_ymd latest_date +++ ")") in
   draw plt title ;;
   let plot_path :=
     get_plot_path self (company +++ "_balance_sheet_composition.png") in
   savefig plt plot_path [assets; liabilities_equity; title] ;;
   ret (Some plot_path))%M.

(** The [except] block of [plot_balance_sheet_composition]. *)
Definition composition_failure (company : string) (bs : DataFrame) (e : exn)
  : M (option string) :=
  (print ("Error plotting balance sheet composition for " +++ company
          +++ ": " +++ str_exn e) ;;
   print "Available balance sheet items:" ;;
   print (str_list (df_index bs)) ;;
   ret None)%M.

Definition plot_balance_sheet_composition (plt : Backend) (self : FinancialAnalysis)
  (company : string) : M (option string) :=
  match Dict.get company (balance_sheets self) with
  | None =>
      (print ("No data available for " +++ company) ;;
       ret None)%M
  | Some bs =>
      (latest_date <- lift (first_period (df_columns bs)) ;;
       try_except
         (composition_body plt self company bs latest_date)
         (composition_failure company bs))%M
  end.

(* ================================================================== *)
(** ** Report generator *)

(** [series.pct_change()]: the first entry has no predecessor; the others
    are [x / previous - 1].  (No forward fill of missing values.) *)
Definition pct_change (values : list float) : list float :=
  match values with
  | [] => []
  | _ :: rest => nan :: map2 (fun x previous => fsub (fdiv x previous) one) rest values
  end.

(** [series.mean()]: missing values are skipped; the mean of no value is
    NaN.  The sum is accumulated from left to right, missing values
    counting for zero (the order numpy follows for columns of fewer
    than eight values; longer columns are summed pairwise). *)
Definition series_mean (values : list float) : float :=
  let count := List.length (filter (fun x => negb (is_nan x)) values) in
  let total :=
    fold_left (fun acc x => fadd acc (if is_nan x then zero else x)) values zero in
  match count with
  | O => nan
  | _ => fdiv total (of_Z (Z.of_nat count))
  end.

(** [self.ratios[company][ratio].pct_change().mean()]; nothing in it
    raises on a float64 column. *)
Definition trend_of (column : list float) : result float :=
  Ok (series_mean (pct_change column)).

Definition trend_line (ratio : string) (trend : float) : string :=
  ratio +++ " Average Change Rate: " +++ format_2pct trend +++ nl.

Definition trend_failure (e : exn) : string :=
  "Unable to calculate trends: " +++ str_exn e +++ nl.

(** The [try] block of the trend analysis: what has been appended before
    an exception stays in the report. *)
Definition trend_section (rt : RatioTable) : list string :=
  match trend_of (Current_Ratio rt) with
  | Raise e => [trend_failure e]
  | Ok t1 =>
      trend_line "Current_Ratio" t1 ::
      match trend_of (Debt_to_Assets rt) with
      | Raise e => [trend_failure e]
      | Ok t2 => [trend_line "Debt_to_Assets" t2]
      end
  end.

Definition liquidity_warning : string :=
  "- Monitor short-term liquidity position" +++ nl.

Definition debt_warning : string :=
  "- High debt ratio, monitor long-term solvency risk" +++ nl.

Definition recommendations (current_ratio debt_to_assets : float) : list string :=
  (if flt current_ratio two then [liquidity_warning] else []) ++
  (if fgt debt_to_assets seven_tenths then [debt_warning] else []).

(** The four values of [latest_ratios]. *)
Record LatestRatios := mkLatest {
  latest_current : float;
  latest_quick : float;
  latest_debt : float;
  latest_equity : float
}.

(** [self.ratios[company].loc[latest_date]] *)
Definition latest_ratios_of (rt : RatioTable) (latest_date : period) : result LatestRatios :=
  (c <- series_at (rt_index rt) (Current_Ratio rt) latest_date ;;
   q <- series_at (rt_index rt) (Quick_Ratio rt) latest_date ;;
   d <- series_at (rt_index rt) (Debt_to_Assets rt) latest_date ;;
   e <- series_at (rt_index rt) (Equity_Multiplier rt) latest_date ;;
   Ok (mkLatest c q d e))%R.

(** The strings appended to the report for one company before the trend
    analysis. *)
Definition section_head (company : string) (latest_date : period)
  (latest : LatestRatios) : list string :=
  [ company +++ " Company Analysis" +++ nl;
    repeat_string "-" 30 +++ nl;
    "Analysis Date: " +++ latest_date +++ nl +++ nl;
    "Key Financial Ratios:" +++ nl;
    "1. Current Ratio: " +++ format_2f (latest_current latest) +++ nl;
    "   - Measures short-term liquidity, 2:1 is generally considered reasonable" +++ nl;
    "2. Quick Ratio: " +++ format_2f (latest_quick latest) +++ nl;
    "   - Measures immediate liquidity, 1:1 is generally considered reasonable" +++ nl;
    "3. Debt to Assets Ratio: " +++ format_2pct (latest_debt latest) +++ nl;
    "   - Measures long-term solvency, below 70% is generally considered safe" +++ nl;
    "4. Equity Multiplier: " +++ format_2f (latest_equity latest) +++ nl;
    "   - Measures financial leverage, higher values indicate higher leverage" +++ nl +++ nl;
    "Trend Analysis:" +++ nl ].

(** The strings appended to the report for one company, in order. *)
Definition company_section (company : string) (rt : RatioTable) : result (list string) :=
  (latest_date <- first_period (rt_index rt) ;;
   latest <- latest_ratios_of rt latest_date ;;
   Ok (section_head company latest_date latest
       ++ trend_section rt
       ++ [ nl; "Recommendations:" +++ nl ]
       ++ recommendations (latest_current latest) (latest_debt latest)
       ++ [ nl +++ repeat_string "=" 50 +++ nl +++ nl ]))%R.

(** The loop of [generate_analysis_report]: one section per company of
    the list that has a ratio table. *)
Fixpoint report_sections (self : FinancialAnalysis) (cs : list string)
  : result (list (string * list string)) :=
  match cs with
  | [] => Ok []
  | company :: cs' =>
      match Dict.get company (ratios self) with
      | None => report_sections self cs'
      | Some rt =>
          (section <- company_section company rt ;;
           rest <- report_sections self cs' ;;
           Ok ((company, section) :: rest))%R
      end
  end.

Definition report_header (now : string) : list string :=
  [ "Financial Analysis Report" +++ nl;
    repeat_string "=" 50 +++ nl +++ nl;
    "Report Generated: " +++ now +++ nl +++ nl ].

(** [now] is [datetime.now().strftime('%Y-%m-%d %H:%M:%S')]. *)
Definition generate_analysis_report (now : string) (self : FinancialAnalysis)
  : result string :=
  (sections <- report_sections self (companies self) ;;
   Ok (String.concat "" (report_header now ++ flat_map snd sections)))%R.

(* ================================================================== *)
(** ** Orchestrator *)

(** [if path: print(...)] *)
Definition print_saved (label : string) (path : option string) : M unit :=
  match path with
  | Some p => if String.eqb p "" then ret tt else print (label +++ p)
  | None => ret tt
  end.

Fixpoint composition_loop (plt : Backend) (self : FinancialAnalysis) (cs : list string)
  : M unit :=
  match cs with
  | [] => ret tt
  | company :: cs' =>
      (composition_path <- plot_balance_sheet_composition plt self company ;;
       print_saved ("  Saved " +++ company +++ " balance sheet composition: ")
                   composition_path ;;
       composition_loop plt self cs')%M
  end.

(** The second half of the [try] block of [main]: the charts, then the
    report. *)
Definition visualize_and_report (plt : Backend) (now : string)
  (analysis : FinancialAnalysis) (companies : list string) : M unit :=
  (print (nl +++ "Generating visualizations...") ;;
   print "- Generating current ratio comparison..." ;;
   current_ratio_path <- plot_current_ratio_comparison plt analysis ;;
   print_saved "  Saved: " (Some current_ratio_path) ;;
   print "- Generating financial ratios radar chart..." ;;
   radar_path <- plot_debt_ratio_radar plt analysis ;;
   print_saved "  Saved: " radar_path ;;
   print "- Generating balance sheet composition charts..." ;;
   composition_loop plt analysis companies ;;
   print (nl +++ "Generating analysis report...") ;;
   report <- lift (generate_analysis_report now analysis) ;;
   let report_path := get_output_path analysis "financial_analysis_report.txt" in
   ([WriteText report_path report], Ok tt) ;;
   print ("Saved analysis report: " +++ report_path) ;;
   print (nl +++ "Analysis complete! All files have been saved in the output directory."))%M.

(** The [try] block of [main], for a given list of companies. *)
Definition pipeline (yf : Provider) (plt : Backend) (now base_path : string)
  (companies : list string) : M unit :=
  (print "Initializing analyzer..." ;;
   let analysis := init companies base_path in
   print (nl +++ "Fetching financial data...") ;;
   analysis <- fetch_data yf analysis ;;
   print (nl +++ "Calculating financial ratios...") ;;
   analysis <- calculate_financial_ratios analysis ;;
   visualize_and_report plt now analysis companies)%M.

(** The [except] block of [main]. *)
Definition program_error (e : exn) : M unit :=
  (print (nl +++ "Program error: " +++ str_exn e) ;;
   print (format_exc e))%M.

Definition run (yf : Provider) (plt : Backend) (now base_path : string)
  (companies : list string) : M unit :=
  try_except (pipeline yf plt now base_path companies) program_error.

Definition main (yf : Provider) (plt : Backend) (now base_path : string) : M unit :=
  run yf plt now base_path ["AAPL"; "MSFT"; "GOOGL"].

(* ================================================================== *)
(** ** Auxiliary definitions used in the statements *)

(** The line items [compute_ratios] cannot do without. *)
Definition required_items : list string :=
  [ "Current Assets"; "Current Liabilities"; "Total Assets";
    "Total Liabilities Net Minority Interest"; "Stockholders Equity" ].

Definition with_ratios (self : FinancialAnalysis) (r : Dict.t RatioTable) :=
  {| companies := companies self;
     balance_sheets := balance_sheets self;
     ratios := r;
     output_dir := output_dir self;
     plots_dir := plots_dir self |}.

(** The dictionary of ratio tables after the loop of
    [calculate_financial_ratios]. *)
Fixpoint computed_ratios (items : list (string * DataFrame)) (r : Dict.t RatioTable)
  : Dict.t RatioTable :=
  match items with
  | [] => r
  | (company, bs) :: items' =>
      computed_ratios items'
        (match compute_ratios bs with
         | Ok rt => Dict.set company rt r
         | Raise _ => r
         end)
  end.

(** Two computed values agree: they are the same value (NaN included), or
    they are equal under [==], which identifies the two zeros. *)
Definition same_value (x y : float) : Prop := x = y \/ feq x y = true.

(** [x] is not a finite number. *)
Definition not_finite (x : float) : Prop :=
  x = nan \/ exists s, x = S754_infinity s.

(* ================================================================== *)
(** ** Sample data *)

Definition floats (l : list Z) : list float := map of_Z l.

Local Open Scope Z_scope.

Definition Q3 : period := "2024-09-30 00:00:00".
Definition Q2 : period := "2024-06-30 00:00:00".
Definition Q1 : period := "2024-03-31 00:00:00".

(** A balance sheet with every line item the program reads, except
    Inventory. *)
Definition sample_sheet (periods : list period)
  (ca cl ta tl se nca ncl : list Z) : DataFrame :=
  {| df_columns := periods;
     df_rows :=
       [ ("Current Assets", floats ca);
         ("Current Liabilities", floats cl);
         ("Total Assets", floats ta);
         ("Total Liabilities Net Minority Interest", floats tl);
         ("Stockholders Equity", floats se);
         ("Total Non Current Assets", floats nca);
         ("Total Non Current Liabilities Net Minority Interest", floats ncl) ] |}.

Definition acme : DataFrame :=
  sample_sheet [Q3; Q2] [200; 300] [100; 120] [1000; 1000] [750; 700]
               [250; 300] [800; 700] [650; 580].

(** Current liabilities are zero in the most recent period. *)
Definition frozen : DataFrame :=
  sample_sheet [Q3; Q2] [200; 300] [0; 120] [1000; 1000] [750; 700]
               [250; 300] [800; 700] [750; 580].

(** A company whose quarters end one quarter earlier. *)
Definition borealis : DataFrame :=
  sample_sheet [Q2; Q1] [500; 450] [250; 300] [2000; 1900] [900; 950]
               [1100; 950] [1500; 1450] [650; 650].

(** No Stockholders Equity line. *)
Definition partial_sheet : DataFrame :=
  {| df_columns := [Q3];
     df_rows := [ ("Current Assets", floats [200]);
                  ("Current Liabilities", floats [100]);
                  ("Inventory", floats [0]);
                  ("Total Assets", floats [1000]);
                  ("Total Liabilities Net Minority Interest", floats [750]) ] |}.

Definition empty_sheet : DataFrame := {| df_columns := []; df_rows := [] |}.

Local Close Scope Z_scope.

(** An analysis object holding the given fetched sheets. *)
Definition analysis_of (names : list string) (sheets : Dict.t DataFrame)
  (tables : Dict.t RatioTable) : FinancialAnalysis :=
  {| companies := names;
     balance_sheets := sheets;
     ratios := tables;
     output_dir := "/app/output";
     plots_dir := "/app/output/plots" |}.

(** A backend on which every call succeeds. *)
Definition plt_ok : Backend := fun _ => None.

(** The ratio table computed from a sheet (an empty table when the
    computation raises). *)
Definition table_of (bs : DataFrame) : RatioTable :=
  match compute_ratios bs with
  | Ok rt => rt
  | Raise _ => mkRatioTable [] [] [] [] []
  end.

(** [p in table.index] *)
Definition has_period (rt : RatioTable) (p : period) : bool :=
  existsb (String.eqb p) (rt_index rt).

(** The ratio tables of the companies the radar chart plots, in order. *)
Definition plotted_tables (self : FinancialAnalysis) : list RatioTable :=
  flat_map (fun company =>
              match Dict.get company (ratios self) with
              | Some rt => [rt]
              | None => []
              end)
           (available_companies self).

(** Following the specification's words: the single most recent period
    that is common to all plotted companies.  Periods are listed most
    recent first, so it is the first period of the first table that every
    plotted table has. *)
Definition most_recent_common_period (tables : list RatioTable) : option period :=
  match tables with
  | [] => None
  | rt0 :: _ =>
      find (fun p => forallb (fun rt => has_period rt p) tables) (rt_index rt0)
  end.

(** The polygon the radar chart draws for [company] from the values of
    period [p]. *)
Definition polygon_at (self : FinancialAnalysis) (p : period)
  (company : string) (a : artist) : Prop :=
  exists rt values colour,
    Dict.get company (ratios self) = Some rt /\
    radar_values rt p = Ok values /\
    a = Polygon company colour values.

Definition is_draw (eff : effect) : Prop := exists a, eff = Draw a.

(** Two companies whose most recent periods differ: they share [Q2]
    only. *)
Definition staggered : FinancialAnalysis :=
  analysis_of ["ACME"; "BORE"]
              [("ACME", acme); ("BORE", borealis)]
              [("ACME", table_of acme); ("BORE", table_of borealis)].

(** The balance sheets held after the loop of [fetch_data]. *)
Fixpoint fetched_sheets (yf : Provider) (cs : list string) (d : Dict.t DataFrame)
  : Dict.t DataFrame :=
  match cs with
  | [] => d
  | company :: cs' =>
      fetched_sheets yf cs'
        (match yf company with
         | Ok bs => if df_empty bs then d else Dict.set company bs d
         | Raise _ => d
         end)
  end.

Definition with_sheets (self : FinancialAnalysis) (d : Dict.t DataFrame) :=
  {| companies := companies self;
     balance_sheets := d;
     ratios := ratios self;
     output_dir := output_dir self;
     plots_dir := plots_dir self |}.

(** The analysis object when the charts are drawn: after [fetch_data] and
    [calculate_financial_ratios]. *)
Definition analysis_after (yf : Provider) (base_path : string) (cs : list string)
  : FinancialAnalysis :=
  let fetched := with_sheets (init cs base_path)
                             (fetched_sheets yf cs Dict.empty) in
  with_ratios fetched (computed_ratios (balance_sheets fetched) Dict.empty).

Definition is_print (eff : effect) : bool :=
  match eff with Print _ => true | _ => false end.

(** Writing a file: an image or the report. *)
Definition is_write (eff : effect) : bool :=
  match eff with SaveFig _ _ | WriteText _ _ => true | _ => false end.

(** The files a trace writes, in order. *)
Definition writes (t : list effect) : list effect := filter is_write t.

(** Everything a trace does besides printing messages. *)
Definition artifacts (t : list effect) : list effect :=
  filter (fun eff => negb (is_print eff)) t.

(** A provider that knows the sample companies; ["VOID"] has an empty
    table and any other ticker fails. *)
Definition sample_provider : Provider :=
  fun company =>
    if String.eqb company "ACME" then Ok acme
    else if String.eqb company "BORE" then Ok borealis
    else if String.eqb company "PART" then Ok partial_sheet
    else if String.eqb company "VOID" then Ok empty_sheet
    else Raise (Exception "No data found, symbol may be delisted").

(** A backend that fails to draw lines. *)
Definition plt_no_lines : Backend :=
  fun c =>
    match c with
    | CallDraw (Line _ _ _) => Some "render failure"
    | _ => None
    end.

(** A backend that fails to draw pies. *)
Definition plt_no_pies : Backend :=
  fun c =>
    match c with
    | CallDraw (Pie _ _) => Some "Wedge sizes 'x' must be non negative values"
    | _ => None
    end.

(** The first of the given line items that the sheet lacks. *)
Definition first_missing (bs : DataFrame) (items : list string) : option string :=
  find (fun label => negb (index_contains bs label)) items.

(** The line items [plot_balance_sheet_composition] reads, in the order
    in which it reads them. *)
Definition composition_items : list string :=
  [ "Total Assets"; "Current Assets"; "Total Non Current Assets";
    "Total Liabilities Net Minority Interest"; "Current Liabilities";
    "Total Non Current Liabilities Net Minority Interest";
    "Stockholders Equity" ].

(** The value of a line item in the period of rank [i]. *)
Definition value_at (bs : DataFrame) (label : string) (i : nat) : option float :=
  match df_loc bs label with
  | Ok row => nth_error row i
  | Raise _ => None
  end.

(** The lines of the comparison chart: one per company of the list that
    has a ratio table, in list order. *)
Definition chart_lines (self : FinancialAnalysis) (cs : list string) : figure :=
  flat_map (fun company =>
              match Dict.get company (ratios self) with
              | Some rt => [Line company (rt_index rt) (Current_Ratio rt)]
              | None => []
              end)
           cs.

(** The path of a written file. *)
Definition written_path (eff : effect) : string :=
  match eff with
  | SaveFig path _ => path
  | WriteText path _ => path
  | _ => ""
  end.
(** The heading that opens the section of a company in the report. *)
Definition section_heading (company : string) : string :=
  company +++ " Company Analysis" +++ nl.

(** The strings of the report section of the sample company [acme]. *)
Definition acme_section : list string :=
  [ "ACME Company Analysis" +++ nl;
    repeat_string "-" 30 +++ nl;
    "Analysis Date: 2024-09-30 00:00:00" +++ nl +++ nl;
    "Key Financial Ratios:" +++ nl;
    "1. Current Ratio: 2.00" +++ nl;
    "   - Measures short-term liquidity, 2:1 is generally considered reasonable" +++ nl;
    "2. Quick Ratio: 2.00" +++ nl;
    "   - Measures immediate liquidity, 1:1 is generally considered reasonable" +++ nl;
    "3. Debt to Assets Ratio: 75.00%" +++ nl;
    "   - Measures long-term solvency, below 70% is generally considered safe" +++ nl;
    "4. Equity Multiplier: 4.00" +++ nl;
    "   - Measures financial leverage, higher values indicate higher leverage" +++ nl +++ nl;
    "Trend Analysis:" +++ nl;
    "Current_Ratio Average Change Rate: 25.00%" +++ nl;
    "Debt_to_Assets Average Change Rate: -6.67%" +++ nl;
    nl;
    "Recommendations:" +++ nl;
    "- High debt ratio, monitor long-term solvency risk" +++ nl;
    nl +++ repeat_string "=" 50 +++ nl +++ nl ].


(** The strings of the report section of the sample company
    [borealis]. *)
Definition bore_section : list string :=
  [ "BORE Company Analysis" +++ nl;
    repeat_string "-" 30 +++ nl;
    "Analysis Date: 2024-06-30 00:00:00" +++ nl +++ nl;
    "Key Financial Ratios:" +++ nl;
    "1. Current Ratio: 2.00" +++ nl;
    "   - Measures short-term liquidity, 2:1 is generally considered reasonable" +++ nl;
    "2. Quick Ratio: 2.00" +++ nl;
    "   - Measures immediate liquidity, 1:1 is generally considered reasonable" +++ nl;
    "3. Debt to Assets Ratio: 45.00%" +++ nl;
    "   - Measures long-term solvency, below 70% is generally considered safe" +++ nl;
    "4. Equity Multiplier: 1.82" +++ nl;
    "   - Measures financial leverage, higher values indicate higher leverage" +++ nl +++ nl;
    "Trend Analysis:" +++ nl;
    "Current_Ratio Average Change Rate: -25.00%" +++ nl;
    "Debt_to_Assets Average Change Rate: 11.11%" +++ nl;
    nl;
    "Recommendations:" +++ nl;
    nl +++ repeat_string "=" 50 +++ nl +++ nl ].

(* ================================================================== *)
(** * Properties *)

(** ** Dictionaries *)

Section DictFacts.

Context {V : Type}.
Implicit Types (d : Dict.t V) (k : string) (v : V).

Lemma dict_get_set_same k v d : Dict.get k (Dict.set k v d) = Some v.
Proof.
  induction d as [|[k' v'] d IH]; simpl.
  - now rewrite String.eqb_refl.
  - destruct (String.eqb k k') eqn:E; simpl.
    + now rewrite String.eqb_refl.
    + now rewrite E.
Qed.

Lemma dict_get_set_other k k' v d :
  k' <> k -> Dict.get k' (Dict.set k v d) = Dict.get k' d.
Proof.
  intros Hne. induction d as [|[k0 v0] d IH]; simpl.
  - apply String.eqb_neq in Hne. now rewrite Hne.
  - destruct (String.eqb k k0) eqn:E; simpl.
    + apply String.eqb_eq in E. subst k0.
      apply String.eqb_neq in Hne. now rewrite Hne.
    + destruct (String.eqb k' k0); [reflexivity | exact IH].
Qed.

Lemma dict_get_absent k d : ~ In k (Dict.keys d) -> Dict.get k d = None.
Proof.
  induction d as [|[k' v'] d IH]; simpl; intros Hn; [reflexivity|].
  destruct (String.eqb k k') eqn:E.
  - apply String.eqb_eq in E. subst. tauto.
  - apply IH. tauto.
Qed.

Lemma dict_get_in_keys k v d : Dict.get k d = Some v -> In k (Dict.keys d).
Proof.
  induction d as [|[k' v'] d IH]; simpl; [discriminate|].
  destruct (String.eqb k k') eqn:E; intros H.
  - apply String.eqb_eq in E. now left.
  - right. now apply IH.
Qed.

Lemma dict_keys_set k v d :
  Dict.keys (Dict.set k v d) =
  if Dict.mem k d then Dict.keys d else Dict.keys d ++ [k].
Proof.
  unfold Dict.mem. induction d as [|[k' v'] d IH]; simpl; [reflexivity|].
  destruct (String.eqb k k') eqn:E; simpl.
  - apply String.eqb_eq in E. now subst.
  - rewrite IH. now destruct (Dict.get k d).
Qed.

Lemma dict_set_nodup k v d : NoDup (Dict.keys d) -> NoDup (Dict.keys (Dict.set k v d)).
Proof.
  intros Hd. rewrite dict_keys_set. unfold Dict.mem.
  destruct (Dict.get k d) eqn:E; [exact Hd|].
  apply NoDup_app; [exact Hd | repeat constructor; simpl; tauto |].
  intros x Hx [<-|[]]. clear Hd.
  induction d as [|[k' v'] d IH]; simpl in *; [tauto|].
  destruct (String.eqb k k') eqn:E'; [discriminate|].
  destruct Hx as [->|Hx]; [now rewrite String.eqb_refl in E'|]. tauto.
Qed.

Lemma dict_mem_true k d : Dict.mem k d = true <-> exists v, Dict.get k d = Some v.
Proof.
  unfold Dict.mem. destruct (Dict.get k d); split; intros H; eauto.
  - discriminate.
  - now destruct H.
Qed.

Lemma dict_mem_false k d : Dict.mem k d = false <-> Dict.get k d = None.
Proof.
  unfold Dict.mem. destruct (Dict.get k d); split; congruence.
Qed.

End DictFacts.

(** ** The trace monad *)

Section MonadFacts.

Context {A B : Type}.

Lemma bind_ok (m : M A) (k : A -> M B) a :
  outcome m = Ok a ->
  bind m k = (trace m ++ trace (k a), outcome (k a)).
Proof.
  destruct m as [t r]. simpl. intros ->. simpl. now destruct (k a).
Qed.

Lemma bind_raise (m : M A) (k : A -> M B) e :
  outcome m = Raise e -> bind m k = (trace m, Raise e).
Proof.
  destruct m as [t r]. simpl. now intros ->.
Qed.

Lemma bind_ret (a : A) (k : A -> M B) : bind (ret a) k = k a.
Proof. unfold ret, bind. now destruct (k a). Qed.

Lemma bind_print (s : string) (k : unit -> M B) :
  bind (print s) k = (Print s :: trace (k tt), outcome (k tt)).
Proof. unfold print, bind. now destruct (k tt). Qed.

Lemma bind_lift_ok (a : A) (k : A -> M B) : bind (lift (Ok a)) k = k a.
Proof. unfold lift, bind. now destruct (k a). Qed.

Lemma bind_lift_raise e (k : A -> M B) : bind (lift (Raise e)) k = ([], Raise e).
Proof. reflexivity. Qed.

End MonadFacts.

Lemma Ok_inj {A} (a b : A) : Ok a = Ok b -> a = b.
Proof. now intros [= ->]. Qed.

Lemma M_eta {A} (m : M A) : m = (trace m, outcome m).
Proof. now destruct m. Qed.

(** ** Rows *)

Lemma map2_length {A B C} (f : A -> B -> C) l1 l2 :
  List.length (map2 f l1 l2) = Nat.min (List.length l1) (List.length l2).
Proof.
  revert l2. induction l1 as [|a l1 IH]; intros [|b l2]; simpl; auto.
Qed.

Lemma map2_nth_error {A B C} (f : A -> B -> C) l1 l2 i a b :
  nth_error l1 i = Some a -> nth_error l2 i = Some b ->
  nth_error (map2 f l1 l2) i = Some (f a b).
Proof.
  revert l2 i. induction l1 as [|x l1 IH]; intros [|y l2] [|i]; simpl;
    try discriminate.
  - intros [= ->] [= ->]. reflexivity.
  - apply IH.
Qed.

Lemma nth_error_same_length {A B} (l1 : list A) (l2 : list B) i a :
  List.length l2 = List.length l1 -> nth_error l1 i = Some a ->
  exists b, nth_error l2 i = Some b.
Proof.
  intros Hlen Hi.
  destruct (nth_error l2 i) eqn:E; [eauto|].
  apply nth_error_None in E.
  assert (i < List.length l1) by (apply nth_error_Some; congruence). lia.
Qed.

Lemma df_loc_wf bs label row :
  df_wf bs -> df_loc bs label = Ok row ->
  List.length row = List.length (df_columns bs).
Proof.
  unfold df_wf, df_loc. intros Hwf.
  induction Hwf as [|[k r] rows Hr _ IH]; simpl; [discriminate|].
  destruct (String.eqb label k).
  - intros [= <-]. exact Hr.
  - exact IH.
Qed.

Lemma index_contains_loc bs label :
  index_contains bs label = true <-> exists row, df_loc bs label = Ok row.
Proof.
  unfold index_contains, df_loc, df_index.
  induction (df_rows bs) as [|[k r] rows IH]; simpl.
  - split; [discriminate | intros [? ?]; discriminate].
  - destruct (String.eqb label k); simpl; [split; eauto | exact IH].
Qed.

(** ** Ratio calculator *)


(** What [compute_ratios] returns when it returns. *)
Lemma compute_ratios_inv bs rt :
  compute_ratios bs = Ok rt ->
  exists ca cl inv ta tl se,
    df_loc bs "Current Assets" = Ok ca /\
    df_loc bs "Current Liabilities" = Ok cl /\
    ((index_contains bs "Inventory" = false /\ inv = Scalar (of_Z 0)) \/
     (exists row, df_loc bs "Inventory" = Ok row /\ inv = Row row)) /\
    df_loc bs "Total Assets" = Ok ta /\
    df_loc bs "Total Liabilities Net Minority Interest" = Ok tl /\
    df_loc bs "Stockholders Equity" = Ok se /\
    rt = {| rt_index := df_columns bs;
            Current_Ratio := series_div ca cl;
            Quick_Ratio := series_div (series_sub ca inv) cl;
            Debt_to_Assets := series_div tl ta;
            Equity_Multiplier := series_div ta se |}.
Proof.
  unfold compute_ratios.
  destruct (df_loc bs "Current Assets") as [ca|] eqn:Eca; [|discriminate].
  destruct (df_loc bs "Current Liabilities") as [cl|] eqn:Ecl; [|discriminate].
  cbn [rbind].
  destruct (index_contains bs "Inventory") eqn:Einv.
  - destruct (df_loc bs "Inventory") as [row|] eqn:Erow; [|discriminate].
    cbn [rbind].
    destruct (df_loc bs "Total Assets") as [ta|]; [|discriminate].
    destruct (df_loc bs "Total Liabilities Net Minority Interest") as [tl|];
      [|discriminate].
    destruct (df_loc bs "Stockholders Equity") as [se|]; [|discriminate].
    cbn [rbind]. intros [= <-].
    exists ca, cl, (Row row), ta, tl, se. repeat split; eauto.
  - cbn [rbind].
    destruct (df_loc bs "Total Assets") as [ta|]; [|discriminate].
    destruct (df_loc bs "Total Liabilities Net Minority Interest") as [tl|];
      [|discriminate].
    destruct (df_loc bs "Stockholders Equity") as [se|]; [|discriminate].
    cbn [rbind]. intros [= <-].
    exists ca, cl, (Scalar (of_Z 0)), ta, tl, se. repeat split; auto.
Qed.

(** [compute_ratios] returns exactly when the five required line items
    are present, whatever their values. *)
Lemma compute_ratios_ok_iff bs :
  (exists rt, compute_ratios bs = Ok rt) <->
  forallb (index_contains bs) required_items = true.
Proof.
  split.
  - intros [rt H]. apply compute_ratios_inv in H.
    destruct H as (ca & cl & inv & ta & tl & se & H1 & H2 & _ & H3 & H4 & H5 & _).
    simpl. rewrite !andb_true_iff.
    repeat split; apply index_contains_loc; eauto.
  - simpl. rewrite !andb_true_iff.
    intros (H1 & H2 & H3 & H4 & H5 & _).
    apply index_contains_loc in H1, H2, H3, H4, H5.
    destruct H1 as [ca H1], H2 as [cl H2], H3 as [ta H3], H4 as [tl H4],
      H5 as [se H5].
    unfold compute_ratios. rewrite H1, H2. cbn [rbind].
    destruct (index_contains bs "Inventory") eqn:Einv.
    + apply index_contains_loc in Einv. destruct Einv as [row ->].
      cbn [rbind]. rewrite H3, H4, H5. cbn [rbind]. eauto.
    + cbn [rbind]. rewrite H3, H4, H5. cbn [rbind]. eauto.
Qed.



Lemma with_ratios_same self : with_ratios self (ratios self) = self.
Proof. now destruct self. Qed.

Lemma calculate_one_outcome self company bs :
  outcome (calculate_one self company bs) =
  Ok (with_ratios self (match compute_ratios bs with
                        | Ok rt => Dict.set company rt (ratios self)
                        | Raise _ => ratios self
                        end)).
Proof.
  unfold calculate_one. destruct (compute_ratios bs) as [rt|e]; simpl.
  - reflexivity.
  - now rewrite with_ratios_same.
Qed.

Lemma calculate_loop_outcome items self :
  outcome (calculate_loop items self) =
  Ok (with_ratios self (computed_ratios items (ratios self))).
Proof.
  revert self. induction items as [|[company bs] items IH]; intros self; simpl.
  - now rewrite with_ratios_same.
  - rewrite (bind_ok _ _ _ (calculate_one_outcome self company bs)).
    cbn [outcome snd]. change (snd ?m) with (outcome m). rewrite IH.
    reflexivity.
Qed.

(** [calculate_financial_ratios] never raises. *)
Lemma calculate_outcome self :
  outcome (calculate_financial_ratios self) =
  Ok (with_ratios self (computed_ratios (balance_sheets self) (ratios self))).
Proof. apply calculate_loop_outcome. Qed.

Lemma computed_ratios_get items r company :
  NoDup (Dict.keys items) ->
  Dict.get company (computed_ratios items r) =
  match Dict.get company items with
  | Some bs =>
      match compute_ratios bs with
      | Ok rt => Some rt
      | Raise _ => Dict.get company r
      end
  | None => Dict.get company r
  end.
Proof.
  revert r. induction items as [|[k bs] items IH]; intros r Hnd; simpl.
  - reflexivity.
  - inversion Hnd as [|? ? Hk Hnd']; subst.
    rewrite (IH _ Hnd'). clear IH.
    destruct (String.eqb company k) eqn:E.
    + apply String.eqb_eq in E. subst k.
      rewrite (dict_get_absent _ _ Hk).
      destruct (compute_ratios bs); [apply dict_get_set_same | reflexivity].
    + apply String.eqb_neq in E.
      assert (Dict.get company
                (match compute_ratios bs with
                 | Ok rt => Dict.set k rt r
                 | Raise _ => r
                 end) = Dict.get company r) as ->
        by (destruct (compute_ratios bs); [now apply dict_get_set_other | reflexivity]).
      reflexivity.
Qed.

(** The entry of a company after the calculation, on a fresh analysis. *)
Lemma calculated_entry self company :
  NoDup (Dict.keys (balance_sheets self)) ->
  ratios self = Dict.empty ->
  exists self',
    outcome (calculate_financial_ratios self) = Ok self' /\
    balance_sheets self' = balance_sheets self /\
    companies self' = companies self /\
    Dict.get company (ratios self') =
    match Dict.get company (balance_sheets self) with
    | Some bs =>
        match compute_ratios bs with
        | Ok rt => Some rt
        | Raise _ => None
        end
    | None => None
    end.
Proof.
  intros Hnd Hfresh. eexists. split; [apply calculate_outcome|].
  cbn [with_ratios balance_sheets companies ratios]. repeat split.
  rewrite computed_ratios_get by exact Hnd. rewrite Hfresh. simpl.
  destruct (Dict.get company (balance_sheets self)); [|reflexivity].
  now destruct (compute_ratios d).
Qed.

(** ** Binary64 facts *)

Lemma of_Z_0 : of_Z 0 = zero.
Proof. reflexivity. Qed.

Lemma feq_zero_inv z : feq z zero = true -> exists s, z = S754_zero s.
Proof.
  destruct z as [s|s| |s m e]; try (destruct s); simpl; try discriminate; eauto.
Qed.

Lemma fsub_zero x : fsub x zero = x.
Proof. destruct x as [[]|[]| |s m e]; reflexivity. Qed.

Lemma same_value_refl x : same_value x x.
Proof. now left. Qed.

(** Subtracting a zero of either sign does not change the quotient. *)
Lemma fdiv_fsub_zero a z l :
  feq z zero = true -> same_value (fdiv (fsub a z) l) (fdiv a l).
Proof.
  intros Hz. apply feq_zero_inv in Hz. destruct Hz as [[|] ->].
  - destruct a as [[|]|sa| |sa ma ea]; try apply same_value_refl.
    destruct l as [sl|sl| |sl ml el]; try apply same_value_refl;
      right; reflexivity.
  - change (S754_zero false) with zero. rewrite fsub_zero. apply same_value_refl.
Qed.

Lemma fdiv_by_zero a z : feq z zero = true -> not_finite (fdiv a z).
Proof.
  intros Hz. apply feq_zero_inv in Hz. destruct Hz as [s ->].
  destruct a as [sa|sa| |sa ma ea]; simpl; unfold not_finite; eauto.
Qed.

(** The literals are the doubles nearest to the decimal constants. *)
Lemma literals :
  of_Z 1 = one /\ of_Z 2 = two /\ of_Z 100 = hundred /\
  fdiv (of_Z 7) (of_Z 10) = seven_tenths.
Proof. repeat split; reflexivity. Qed.

(** Formatting rounds the exact binary value, ties to even. *)
Lemma format_samples :
  format_2f (fdiv (of_Z 1) (of_Z 8)) = "0.12" /\
  format_2f (fdiv (of_Z 3) (of_Z 8)) = "0.38" /\
  format_2f (fdiv (of_Z 2675) (of_Z 1000)) = "2.67" /\
  format_2f (fdiv (of_Z (-1)) (of_Z 1000)) = "-0.00" /\
  format_2f (fdiv (of_Z 1) (of_Z 0)) = "inf" /\
  format_2f (of_Z 123456789) = "123456789.00" /\
  format_2pct (fdiv (of_Z 1) (of_Z 3)) = "33.33%" /\
  format_2pct nan = "nan%".
Proof. repeat split; vm_compute; reflexivity. Qed.

(** ** C1 *)

(** C1.  For a company whose balance sheet has the 'Current Assets' and
    'Current Liabilities' line items, with a non-zero 'Current
    Liabilities' in every period, the ratio table that
    [calculate_financial_ratios] stores has the periods of the balance
    sheet as rows and, in each period, [Current_Ratio] is the binary64
    quotient of that period's Current Assets by its Current Liabilities.
    The table is stored as soon as the three other required line items
    are present too.  (The non-zero assumption is the claim's; the
    equation does not depend on it.) *)
Theorem current_ratio_is_quotient
  (self : FinancialAnalysis) (company : string) (bs : DataFrame)
  (ca cl : list float) :
  NoDup (Dict.keys (balance_sheets self)) ->
  ratios self = Dict.empty ->
  Dict.get company (balance_sheets self) = Some bs ->
  df_wf bs ->
  df_loc bs "Current Assets" = Ok ca ->
  df_loc bs "Current Liabilities" = Ok cl ->
  (forall l, In l cl -> feq l zero = false) ->
  exists self',
    outcome (calculate_financial_ratios self) = Ok self' /\
    (forallb (index_contains bs) required_items = true ->
     exists rt, Dict.get company (ratios self') = Some rt) /\
    forall rt,
      Dict.get company (ratios self') = Some rt ->
      rt_index rt = df_columns bs /\
      forall i p,
        nth_error (df_columns bs) i = Some p ->
        exists a l,
          nth_error ca i = Some a /\
          nth_error cl i = Some l /\
          nth_error (Current_Ratio rt) i = Some (fdiv a l).
Proof.
  intros Hnd Hfresh Hbs Hwf Hca Hcl _.
  destruct (calculated_entry self company Hnd Hfresh)
    as (self' & Hout & _ & _ & Hget).
  rewrite Hbs in Hget.
  exists self'. split; [exact Hout|]. split.
  - intros Hreq. apply compute_ratios_ok_iff in Hreq.
    destruct Hreq as [rt Hrt]. rewrite Hrt in Hget. eauto.
  - intros rt Hrt. rewrite Hrt in Hget.
    destruct (compute_ratios bs) as [rt'|] eqn:Ecomp; [|discriminate].
    injection Hget as ->.
    apply compute_ratios_inv in Ecomp.
    destruct Ecomp as (ca' & cl' & inv & ta & tl & se & Hca' & Hcl' & _ & _ & _ & _ & ->).
    rewrite Hca in Hca'. rewrite Hcl in Hcl'.
    injection Hca' as <-. injection Hcl' as <-.
    split; [reflexivity|].
    intros i p Hp. cbn [Current_Ratio].
    destruct (nth_error_same_length (df_columns bs) ca i p) as [a Ha];
      [now apply df_loc_wf with (label := "Current Assets") | exact Hp |].
    destruct (nth_error_same_length (df_columns bs) cl i p) as [l Hl];
      [now apply df_loc_wf with (label := "Current Liabilities") | exact Hp |].
    exists a, l. repeat split; try assumption.
    now apply map2_nth_error.
Qed.

Lemma acme_wf : df_wf acme.
Proof. repeat constructor. Qed.

Lemma current_ratio_is_quotient_witness :
  exists self',
    outcome (calculate_financial_ratios
               (analysis_of ["ACME"] [("ACME", acme)] Dict.empty)) = Ok self' /\
    (forallb (index_contains acme) required_items = true ->
     exists rt, Dict.get "ACME" (ratios self') = Some rt) /\
    forall rt,
      Dict.get "ACME" (ratios self') = Some rt ->
      rt_index rt = df_columns acme /\
      forall i p,
        nth_error (df_columns acme) i = Some p ->
        exists a l,
          nth_error (floats [200; 300]%Z) i = Some a /\
          nth_error (floats [100; 120]%Z) i = Some l /\
          nth_error (Current_Ratio rt) i = Some (fdiv a l).
Proof.
  apply (current_ratio_is_quotient
           (analysis_of ["ACME"] [("ACME", acme)] Dict.empty) "ACME" acme).
  - repeat constructor. simpl. tauto.
  - reflexivity.
  - reflexivity.
  - exact acme_wf.
  - reflexivity.
  - reflexivity.
  - simpl. intros l [<-|[<-|[]]]; reflexivity.
Defined.

(** ** C2 *)

(** C2, as stated, fails: a company with every required line item and a
    zero 'Current Liabilities' in a period is not skipped; its ratio
    table is stored. *)
Lemma zero_denominator_not_skipped :
  (exists cl l,
      df_loc frozen "Current Liabilities" = Ok cl /\ In l cl /\ feq l zero = true) /\
  exists self' rt,
    outcome (calculate_financial_ratios
               (analysis_of ["FRZN"] [("FRZN", frozen)] Dict.empty)) = Ok self' /\
    Dict.get "FRZN" (ratios self') = Some rt /\
    nth_error (Current_Ratio rt) 0 = Some (S754_infinity false).
Proof.
  split.
  - eexists. exists zero. split; [reflexivity|]. split; [now left | reflexivity].
  - eexists. eexists. split; [reflexivity|]. split; reflexivity.
Qed.

(** C2, amended.  On a freshly fetched analysis,
    [calculate_financial_ratios] stores a ratio table for a company
    exactly when its balance sheet was fetched and has the five required
    line items, whatever their values; a zero denominator does not skip
    the company, the quotient of that period is then an infinity or
    NaN. *)
Theorem ratio_entry_iff_required_items
  (self : FinancialAnalysis) (company : string) :
  NoDup (Dict.keys (balance_sheets self)) ->
  ratios self = Dict.empty ->
  exists self',
    outcome (calculate_financial_ratios self) = Ok self' /\
    (Dict.mem company (ratios self') = true <->
     exists bs,
       Dict.get company (balance_sheets self) = Some bs /\
       forallb (index_contains bs) required_items = true) /\
    (forall a z, feq z zero = true -> not_finite (fdiv a z)).
Proof.
  intros Hnd Hfresh.
  destruct (calculated_entry self company Hnd Hfresh)
    as (self' & Hout & _ & _ & Hget).
  exists self'. split; [exact Hout|]. split; [|exact fdiv_by_zero].
  rewrite dict_mem_true, Hget. split.
  - intros [rt Hrt].
    destruct (Dict.get company (balance_sheets self)) as [bs|]; [|discriminate].
    exists bs. split; [reflexivity|].
    apply compute_ratios_ok_iff.
    destruct (compute_ratios bs) as [rt'|]; [eauto | discriminate].
  - intros (bs & -> & Hreq).
    apply compute_ratios_ok_iff in Hreq. destruct Hreq as [rt ->]. eauto.
Qed.

Lemma ratio_entry_iff_required_items_witness :
  exists self',
    outcome (calculate_financial_ratios
               (analysis_of ["FRZN"; "PART"]
                  [("FRZN", frozen); ("PART", partial_sheet)] Dict.empty)) = Ok self' /\
    (Dict.mem "PART" (ratios self') = true <->
     exists bs,
       Dict.get "PART" [("FRZN", frozen); ("PART", partial_sheet)] = Some bs /\
       forallb (index_contains bs) required_items = true) /\
    (forall a z, feq z zero = true -> not_finite (fdiv a z)).
Proof.
  apply (ratio_entry_iff_required_items
           (analysis_of ["FRZN"; "PART"]
              [("FRZN", frozen); ("PART", partial_sheet)] Dict.empty) "PART").
  - repeat constructor; simpl; intuition discriminate.
  - reflexivity.
Defined.

(** ** C3 *)

(** Without an Inventory line the two columns are identical. *)
Lemma quick_ratio_without_inventory bs rt :
  compute_ratios bs = Ok rt ->
  index_contains bs "Inventory" = false ->
  Quick_Ratio rt = Current_Ratio rt.
Proof.
  intros Hrt Hinv. apply compute_ratios_inv in Hrt.
  destruct Hrt as (ca & cl & inv & ta & tl & se & _ & _ & Hi & _ & _ & _ & ->).
  destruct Hi as [[_ ->]|(row & Hrow & _)].
  - cbn [Quick_Ratio Current_Ratio series_sub]. rewrite of_Z_0.
    f_equal. rewrite <- (map_id ca) at 2. apply map_ext, fsub_zero.
  - assert (H : index_contains bs "Inventory" = true)
      by (apply index_contains_loc; eauto).
    congruence.
Qed.

(** C3.  For every company and every period: when the balance sheet has
    no 'Inventory' line, or its Inventory in that period is zero, the
    computed [Quick_Ratio] of the period equals the computed
    [Current_Ratio]: the two are the same binary64 value, or (for an
    Inventory of negative zero) equal under [==]. *)
Theorem quick_ratio_equals_current_ratio
  (bs : DataFrame) (rt : RatioTable) (i : nat) (p : period) :
  df_wf bs ->
  compute_ratios bs = Ok rt ->
  nth_error (df_columns bs) i = Some p ->
  (index_contains bs "Inventory" = false \/
   exists inv z,
     df_loc bs "Inventory" = Ok inv /\ nth_error inv i = Some z /\
     feq z zero = true) ->
  exists q c,
    nth_error (Quick_Ratio rt) i = Some q /\
    nth_error (Current_Ratio rt) i = Some c /\
    same_value q c.
Proof.
  intros Hwf Hrt Hp Hinv.
  pose proof (compute_ratios_inv _ _ Hrt)
    as (ca & cl & inv & ta & tl & se & Hca & Hcl & Hi & _ & _ & _ & Heq).
  destruct (nth_error_same_length (df_columns bs) ca i p) as [a Ha];
    [now apply df_loc_wf with (label := "Current Assets") | exact Hp |].
  destruct (nth_error_same_length (df_columns bs) cl i p) as [l Hl];
    [now apply df_loc_wf with (label := "Current Liabilities") | exact Hp |].
  assert (Hc : nth_error (Current_Ratio rt) i = Some (fdiv a l))
    by (subst rt; now apply map2_nth_error).
  destruct Hinv as [Habsent|(row & z & Hrow & Hz & Hzero)].
  - exists (fdiv a l), (fdiv a l).
    rewrite (quick_ratio_without_inventory bs rt Hrt Habsent).
    repeat split; try assumption. apply same_value_refl.
  - destruct Hi as [[Habsent _]|(row' & Hrow' & ->)].
    + assert (H : index_contains bs "Inventory" = true)
        by (apply index_contains_loc; eauto).
      congruence.
    + rewrite Hrow in Hrow'. injection Hrow' as <-.
      exists (fdiv (fsub a z) l), (fdiv a l).
      split; [|split; [exact Hc | now apply fdiv_fsub_zero]].
      subst rt. cbn [Quick_Ratio series_sub].
      apply map2_nth_error; [|exact Hl]. now apply map2_nth_error.
Qed.

Lemma partial_sheet_quick_ratio :
  compute_ratios
    {| df_columns := df_columns partial_sheet;
       df_rows := df_rows partial_sheet ++ [("Stockholders Equity", floats [250%Z])] |}
  = Ok {| rt_index := [Q3];
          Current_Ratio := [two];
          Quick_Ratio := [two];
          Debt_to_Assets := [fdiv (of_Z 750) (of_Z 1000)];
          Equity_Multiplier := [of_Z 4] |}.
Proof. reflexivity. Qed.

Lemma quick_ratio_equals_current_ratio_witness :
  exists q c,
    nth_error [two] 0 = Some q /\ nth_error [two] 0 = Some c /\ same_value q c.
Proof.
  apply (quick_ratio_equals_current_ratio
           {| df_columns := df_columns partial_sheet;
              df_rows := df_rows partial_sheet
                         ++ [("Stockholders Equity", floats [250%Z])] |}
           {| rt_index := [Q3];
              Current_Ratio := [two];
              Quick_Ratio := [two];
              Debt_to_Assets := [fdiv (of_Z 750) (of_Z 1000)];
              Equity_Multiplier := [of_Z 4] |}
           0 Q3).
  - repeat constructor.
  - reflexivity.
  - reflexivity.
  - right. exists (floats [0%Z]), zero. repeat split; reflexivity.
Defined.

(** ** Strings *)

Lemma string_length_app (s t : string) :
  String.length (s +++ t) = String.length s + String.length t.
Proof. induction s as [|c s IH]; simpl; [reflexivity | now rewrite IH]. Qed.

(** The characters of a suffix sit at the end of the whole string. *)
Lemma suffix_char (s t w : string) (k : nat) :
  s +++ t = w ->
  String.get (String.length w - String.length t + k) w = String.get k t.
Proof.
  intros <-. rewrite string_length_app.
  replace (String.length s + String.length t - String.length t + k)
    with (k + String.length s) by lia.
  symmetry. apply String.append_correct2.
Qed.

Lemma string_app_inj_r (s s' t : string) : s +++ t = s' +++ t -> s = s'.
Proof.
  revert s'. induction s as [|c s IH]; intros [|c' s'] H; simpl in H.
  - reflexivity.
  - apply (f_equal String.length) in H. simpl in H.
    rewrite string_length_app in H. lia.
  - apply (f_equal String.length) in H. simpl in H.
    rewrite string_length_app in H. lia.
  - injection H as -> H. f_equal. now apply IH.
Qed.

(** ** Report generator *)

(** Two strings that differ in their literal beginnings. *)
Ltac clash H :=
  cbv [liquidity_warning debt_warning trend_line trend_failure nl] in H;
  cbn [String.append repeat_string] in H;
  discriminate H.

(** No company name turns the heading of a section into a warning. *)
Lemma heading_not_liquidity_warning company :
  company +++ " Company Analysis" +++ nl <> liquidity_warning.
Proof.
  intros H. apply (suffix_char _ _ _ 15) in H. vm_compute in H. discriminate.
Qed.

Lemma heading_not_debt_warning company :
  company +++ " Company Analysis" +++ nl <> debt_warning.
Proof.
  intros H. apply (suffix_char _ _ _ 15) in H. vm_compute in H. discriminate.
Qed.

Lemma trend_section_no_warning rt w :
  w = liquidity_warning \/ w = debt_warning -> ~ In w (trend_section rt).
Proof.
  unfold trend_section, trend_of.
  intros [-> | ->] [H|[H|[]]]; clash H.
Qed.

Lemma recommendations_liquidity c d :
  In liquidity_warning (recommendations c d) <-> flt c two = true.
Proof.
  unfold recommendations.
  destruct (flt c two), (fgt d seven_tenths); simpl; split; intros H;
    try tauto; try discriminate.
  - destruct H as [H|[]]. clash H.
Qed.

Lemma recommendations_debt c d :
  In debt_warning (recommendations c d) <-> fgt d seven_tenths = true.
Proof.
  unfold recommendations.
  destruct (flt c two), (fgt d seven_tenths); simpl; split; intros H;
    try tauto; try discriminate.
  - destruct H as [H|[]]. clash H.
Qed.

(** The section of a company, when it is produced, carries each warning
    exactly under its condition on the most recent ratios. *)
Lemma company_section_warnings company rt section :
  company_section company rt = Ok section ->
  exists latest_date latest,
    first_period (rt_index rt) = Ok latest_date /\
    latest_ratios_of rt latest_date = Ok latest /\
    (In liquidity_warning section <-> flt (latest_current latest) two = true) /\
    (In debt_warning section <-> fgt (latest_debt latest) seven_tenths = true).
Proof.
  unfold company_section.
  destruct (first_period (rt_index rt)) as [d|] eqn:Ed; [|discriminate].
  cbn [rbind].
  destruct (latest_ratios_of rt d) as [latest|] eqn:El; [|discriminate].
  cbn [rbind]. intros H. apply Ok_inj in H. subst section.
  exists d, latest. split; [reflexivity|]. split; [exact El|].
  split.
  - rewrite <- recommendations_liquidity with (d := latest_debt latest).
    rewrite !in_app_iff. split; [|tauto].
    intros [H|[H|[H|[H|H]]]]; [exfalso| exfalso | exfalso | exact H | exfalso].
    + unfold section_head in H. cbn [In] in H.
      destruct H as [H|H]; [now apply heading_not_liquidity_warning in H|].
      repeat (destruct H as [H|H]; [clash H|]).
      exact H.
    + eapply trend_section_no_warning; [|exact H]. now left.
    + destruct H as [H|[H|[]]]; clash H.
    + destruct H as [H|[]]; clash H.
  - rewrite <- recommendations_debt with (c := latest_current latest).
    rewrite !in_app_iff. split; [|tauto].
    intros [H|[H|[H|[H|H]]]]; [exfalso| exfalso | exfalso | exact H | exfalso].
    + unfold section_head in H. cbn [In] in H.
      destruct H as [H|H]; [now apply heading_not_debt_warning in H|].
      repeat (destruct H as [H|H]; [clash H|]).
      exact H.
    + eapply trend_section_no_warning; [|exact H]. now right.
    + destruct H as [H|[H|[]]]; clash H.
    + destruct H as [H|[]]; clash H.
Qed.

(** Every section of the report belongs to a company with a ratio table
    and is the section computed from that table. *)
Lemma report_sections_in self cs sections company section :
  report_sections self cs = Ok sections ->
  In (company, section) sections ->
  exists rt,
    Dict.get company (ratios self) = Some rt /\
    company_section company rt = Ok section.
Proof.
  revert sections. induction cs as [|c cs IH]; intros sections; simpl.
  - intros [= <-] [].
  - destruct (Dict.get c (ratios self)) as [rt|] eqn:Eget; [|apply IH].
    destruct (company_section c rt) as [sec|] eqn:Esec; [|discriminate].
    cbn [rbind].
    destruct (report_sections self cs) as [rest|]; [|discriminate].
    cbn [rbind]. intros [= <-] [H|H].
    + injection H as <- <-. eauto.
    + now apply (IH rest).
Qed.

(** The section of a company, when it is produced, is made of its
    heading block, the trend block, the recommendations and the closing
    rule, in this order. *)
Lemma company_section_shape company rt section :
  company_section company rt = Ok section ->
  exists latest_date latest,
    first_period (rt_index rt) = Ok latest_date /\
    latest_ratios_of rt latest_date = Ok latest /\
    section =
      section_head company latest_date latest
      ++ trend_section rt
      ++ [ nl; "Recommendations:" +++ nl ]
      ++ recommendations (latest_current latest) (latest_debt latest)
      ++ [ nl +++ repeat_string "=" 50 +++ nl +++ nl ].
Proof.
  unfold company_section.
  destruct (first_period (rt_index rt)) as [d|] eqn:Ed; [|discriminate].
  cbn [rbind].
  destruct (latest_ratios_of rt d) as [latest|] eqn:El; [|discriminate].
  cbn [rbind]. intros H. apply Ok_inj in H. subst section.
  exists d, latest. auto.
Qed.

(** A section begins with the heading of its company. *)
Lemma company_section_heading company rt section :
  company_section company rt = Ok section ->
  exists rest, section = section_heading company :: rest.
Proof.
  intros H. apply company_section_shape in H.
  destruct H as (d & latest & _ & _ & ->).
  unfold section_head. cbn [app]. eexists. reflexivity.
Qed.

(** Every company of the list that has a ratio table has its section in
    the report. *)
Lemma report_sections_covers self cs sections company rt :
  report_sections self cs = Ok sections ->
  In company cs ->
  Dict.get company (ratios self) = Some rt ->
  exists section,
    In (company, section) sections /\
    company_section company rt = Ok section.
Proof.
  revert sections. induction cs as [|c cs IH]; intros sections; simpl.
  - intros _ [].
  - destruct (Dict.get c (ratios self)) as [rt'|] eqn:Eget.
    + destruct (company_section c rt') as [sec|] eqn:Esec; [|discriminate].
      cbn [rbind].
      destruct (report_sections self cs) as [rest|]; [|discriminate].
      cbn [rbind]. intros H. apply Ok_inj in H. subst sections.
      intros [->|Hin] Hget.
      * rewrite Hget in Eget. injection Eget as <-.
        exists sec. split; [now left | exact Esec].
      * destruct (IH rest eq_refl Hin Hget) as (section & Hs & Hc).
        exists section. split; [now right | exact Hc].
    + intros Hsec [->|Hin] Hget; [congruence|].
      now apply IH.
Qed.

(** The sections of the report are those of the companies of the list
    that have a ratio table, in list order: each is what
    [company_section] returns for that company and begins with its
    heading. *)
Lemma report_sections_ordered self cs sections :
  report_sections self cs = Ok sections ->
  Forall2 (fun company entry =>
             fst entry = company /\
             exists rt rest,
               Dict.get company (ratios self) = Some rt /\
               company_section company rt = Ok (snd entry) /\
               snd entry = section_heading company :: rest)
          (filter (fun c => Dict.mem c (ratios self)) cs)
          sections.
Proof.
  revert sections. induction cs as [|c cs IH]; intros sections; simpl.
  - intros H. apply Ok_inj in H. subst sections. constructor.
  - unfold Dict.mem.
    destruct (Dict.get c (ratios self)) as [rt|] eqn:Eget; [|apply IH].
    destruct (company_section c rt) as [sec|] eqn:Esec; [|discriminate].
    cbn [rbind].
    destruct (report_sections self cs) as [rest|]; [|discriminate].
    cbn [rbind]. intros H. apply Ok_inj in H. subst sections.
    constructor; [|now apply IH].
    cbn [fst snd]. split; [reflexivity|].
    destruct (company_section_heading _ _ _ Esec) as [tl Htl].
    exists rt, tl. auto.
Qed.

(** ** C4 *)

(** C4.  In the generated report, every company of the list that has a
    ratio table has its section, and the text of the report is the
    header followed by the strings of the sections.  The section of each
    included company is its heading block, the trend block, the
    recommendations and the closing rule; it carries the line 'Monitor
    short-term liquidity position' if and only if the most recent
    period's [Current_Ratio] is strictly below 2, and the high-debt line
    if and only if the most recent period's [Debt_to_Assets] is strictly
    above 0.7.  With Current Assets 200 and Current Liabilities 100 the
    ratio is exactly 2 (printed 2.00) and is not below 2; with Total
    Liabilities 750 and Total Assets 1000 the ratio (printed 75.00%) is
    above 0.7. *)
Theorem report_warnings
  (now : string) (self : FinancialAnalysis)
  (sections : list (string * list string)) :
  report_sections self (companies self) = Ok sections ->
  generate_analysis_report now self =
    Ok (String.concat "" (report_header now ++ flat_map snd sections)) /\
  (forall company rt,
      In company (companies self) ->
      Dict.get company (ratios self) = Some rt ->
      exists section,
        In (company, section) sections /\
        company_section company rt = Ok section) /\
  (forall company section,
      In (company, section) sections ->
      exists rt latest_date latest,
        Dict.get company (ratios self) = Some rt /\
        first_period (rt_index rt) = Ok latest_date /\
        latest_ratios_of rt latest_date = Ok latest /\
        section =
          section_head company latest_date latest
          ++ trend_section rt
          ++ [ nl; "Recommendations:" +++ nl ]
          ++ recommendations (latest_current latest) (latest_debt latest)
          ++ [ nl +++ repeat_string "=" 50 +++ nl +++ nl ] /\
        (In liquidity_warning section <->
         flt (latest_current latest) two = true) /\
        (In debt_warning section <->
         fgt (latest_debt latest) seven_tenths = true)) /\
  (fdiv (of_Z 200) (of_Z 100) = two /\
   format_2f (fdiv (of_Z 200) (of_Z 100)) = "2.00" /\
   flt (fdiv (of_Z 200) (of_Z 100)) two = false) /\
  (format_2pct (fdiv (of_Z 750) (of_Z 1000)) = "75.00%" /\
   fgt (fdiv (of_Z 750) (of_Z 1000)) seven_tenths = true).
Proof.
  intros Hsec. split; [|split; [|split; [|split]]].
  - unfold generate_analysis_report. now rewrite Hsec.
  - intros company rt Hin Hget.
    exact (report_sections_covers _ _ _ _ _ Hsec Hin Hget).
  - intros company section Hin.
    destruct (report_sections_in _ _ _ _ _ Hsec Hin) as (rt & Hget & Hcs).
    destruct (company_section_shape _ _ _ Hcs) as (d & latest & H1 & H2 & Hshape).
    destruct (company_section_warnings _ _ _ Hcs)
      as (d' & latest' & H1' & H2' & H3 & H4).
    rewrite H1 in H1'. injection H1' as <-.
    rewrite H2 in H2'. injection H2' as <-.
    exists rt, d, latest. auto 7.
  - repeat split; reflexivity.
  - repeat split; reflexivity.
Qed.

(** The sample company has Current Assets 200, Current Liabilities 100,
    Total Liabilities 750 and Total Assets 1000 in its most recent
    period: its section is in the report, with the high-debt line and
    without the liquidity line. *)
Lemma report_warnings_witness :
  report_sections
    (analysis_of ["ACME"] [("ACME", acme)] [("ACME", table_of acme)])
    ["ACME"] = Ok [("ACME", acme_section)] /\
  generate_analysis_report "2024-11-01 09:00:00"
    (analysis_of ["ACME"] [("ACME", acme)] [("ACME", table_of acme)]) =
    Ok (String.concat ""
          (report_header "2024-11-01 09:00:00" ++ acme_section)) /\
  In ("ACME", acme_section) [("ACME", acme_section)] /\
  In debt_warning acme_section /\
  ~ In liquidity_warning acme_section.
Proof.
  assert (Hsec : report_sections
            (analysis_of ["ACME"] [("ACME", acme)] [("ACME", table_of acme)])
            (companies
               (analysis_of ["ACME"] [("ACME", acme)] [("ACME", table_of acme)]))
            = Ok [("ACME", acme_section)])
    by (vm_compute; reflexivity).
  destruct (report_warnings "2024-11-01 09:00:00"
              (analysis_of ["ACME"] [("ACME", acme)] [("ACME", table_of acme)])
              [("ACME", acme_section)] Hsec)
    as (Hreport & Hcover & Hwarn & _ & _).
  split; [exact Hsec|].
  split; [rewrite Hreport; cbn [flat_map snd]; now rewrite app_nil_r|].
  destruct (Hcover "ACME" (table_of acme) (or_introl eq_refl) eq_refl)
    as (section & Hin & Hcs).
  destruct Hin as [Hin|[]]. injection Hin as <-.
  split; [now left|].
  destruct (Hwarn "ACME" acme_section (or_introl eq_refl))
    as (rt & d & latest & Hget & Hd & Hl & _ & Hliq & Hdebt).
  injection Hget as <-.
  vm_compute in Hd. injection Hd as <-.
  vm_compute in Hl. injection Hl as <-.
  split.
  - apply Hdebt. reflexivity.
  - intros H. apply Hliq in H. discriminate H.
Defined.

(** ** C8 *)

(** C8, on the code.  For a ratio table with a single period the trend
    block appends two lines whose value is printed as [nan%]; the
    message 'Unable to calculate trends' is not appended, since nothing
    in the computation raises. *)
Theorem single_period_trend_prints_nan
  (p : period) (c q d e : float) :
  trend_section (mkRatioTable [p] [c] [q] [d] [e]) =
  [ "Current_Ratio Average Change Rate: nan%" +++ nl;
    "Debt_to_Assets Average Change Rate: nan%" +++ nl ] /\
  forall exc, ~ In (trend_failure exc) (trend_section (mkRatioTable [p] [c] [q] [d] [e])).
Proof.
  split; [reflexivity|].
  intros exc [H|[H|[]]]; clash H.
Qed.

(** ** More on the trace monad *)

Lemma bind_effect {A B} (x : effect) (a : A) (k : A -> M B) :
  bind ([x], Ok a) k = (x :: trace (k a), outcome (k a)).
Proof. unfold bind. now destruct (k a). Qed.

Lemma bind_ret_map {A B} (m : M A) (f : A -> B) :
  bind m (fun x => ret (f x)) =
  (trace m, match outcome m with Ok x => Ok (f x) | Raise e => Raise e end).
Proof.
  destruct m as [t [a|e]]; simpl; [now rewrite app_nil_r | reflexivity].
Qed.

Lemma bind_trace_outcome {A B} (m : M A) (k : A -> M B) :
  bind m k =
  match outcome m with
  | Ok a => (trace m ++ trace (k a), outcome (k a))
  | Raise e => (trace m, Raise e)
  end.
Proof.
  destruct m as [t [a|e]]; simpl; [now destruct (k a) | reflexivity].
Qed.

(** ** Radar chart *)

Lemma series_at_missing index values p :
  existsb (String.eqb p) index = false ->
  series_at index values p = Raise (KeyError (repr_timestamp p)).
Proof.
  revert values. induction index as [|x index IH]; intros [|v values]; simpl;
    intros H; try reflexivity.
  destruct (String.eqb p x); [discriminate | now apply IH].
Qed.

Lemma series_at_present index values p :
  List.length values = List.length index ->
  existsb (String.eqb p) index = true ->
  exists v, series_at index values p = Ok v.
Proof.
  revert values. induction index as [|x index IH]; intros [|v values]; simpl;
    try discriminate.
  intros [= Hlen]. destruct (String.eqb p x); [eauto | apply IH, Hlen].
Qed.

Lemma radar_values_missing rt p :
  has_period rt p = false ->
  radar_values rt p = Raise (KeyError (repr_timestamp p)).
Proof.
  intros H. unfold radar_values. now rewrite series_at_missing.
Qed.

Lemma radar_values_present rt p :
  rt_wf rt -> has_period rt p = true -> exists values, radar_values rt p = Ok values.
Proof.
  intros (Hc & Hq & Hd & He) Hp. unfold radar_values.
  destruct (series_at_present _ _ p Hd Hp) as [d ->].
  destruct (series_at_present _ _ p Hc Hp) as [c ->].
  destruct (series_at_present _ _ p Hq Hp) as [q ->].
  destruct (series_at_present _ _ p He Hp) as [e ->].
  cbn [rbind]. eauto.
Qed.

(** One step of the loop over the plotted companies. *)
Lemma radar_loop_step plt self p n i company cs :
  radar_loop plt self p n i (company :: cs) =
  match ratios_of self company with
  | Raise e => ([], Raise e)
  | Ok rt =>
      match radar_values rt p with
      | Raise e => ([], Raise e)
      | Ok values =>
          let a := Polygon company (i, n) values in
          match plt (CallDraw a) with
          | Some msg => ([], Raise (Exception msg))
          | None =>
              (Draw a :: trace (radar_loop plt self p n (S i) cs),
               match outcome (radar_loop plt self p n (S i) cs) with
               | Ok fig => Ok (a :: fig)
               | Raise e => Raise e
               end)
          end
      end
  end.
Proof.
  cbn [radar_loop].
  destruct (ratios_of self company) as [rt|e]; [|reflexivity].
  rewrite bind_lift_ok.
  destruct (radar_values rt p) as [values|e]; [|reflexivity].
  rewrite bind_lift_ok. unfold draw, backend_call.
  destruct (plt (CallDraw (Polygon company (i, n) values))); [reflexivity|].
  rewrite bind_effect, bind_ret_map. reflexivity.
Qed.

(** The loop only draws. *)
Lemma radar_loop_draws plt self p n cs :
  forall i, Forall is_draw (trace (radar_loop plt self p n i cs)).
Proof.
  induction cs as [|company cs IH]; intros i.
  - constructor.
  - rewrite radar_loop_step.
    destruct (ratios_of self company) as [rt|e]; [|constructor].
    destruct (radar_values rt p) as [values|e]; [|constructor].
    cbn zeta. destruct (plt _); [constructor|].
    constructor; [eexists; reflexivity | apply IH].
Qed.

(** When the loop ends normally, it has drawn one polygon per company,
    in order, from the values of period [p]. *)
Lemma radar_loop_ok plt self p n cs :
  forall i fig,
    outcome (radar_loop plt self p n i cs) = Ok fig ->
    trace (radar_loop plt self p n i cs) = map Draw fig /\
    Forall2 (polygon_at self p) cs fig.
Proof.
  induction cs as [|company cs IH]; intros i fig.
  - simpl. intros [= <-]. split; [reflexivity | constructor].
  - rewrite radar_loop_step. unfold ratios_of.
    destruct (Dict.get company (ratios self)) as [rt|] eqn:Eget; [|discriminate].
    destruct (radar_values rt p) as [values|e] eqn:Evals; [|discriminate].
    cbn zeta. destruct (plt _); [discriminate|].
    cbn [outcome trace fst snd].
    destruct (radar_loop plt self p n (S i) cs) as [t [fig'|e]] eqn:Eloop;
      [|discriminate].
    cbn [fst snd]. intros [= <-].
    destruct (IH (S i) fig') as [Ht Hall]; [now rewrite Eloop|].
    rewrite Eloop in Ht. cbn [trace fst] in Ht. subst t.
    split; [reflexivity|].
    constructor; [|exact Hall].
    exists rt, values, (i, n). auto.
Qed.

(** A plotted company without a row for period [p] stops the loop. *)
Lemma radar_loop_raises plt self p n cs company rt :
  In company cs ->
  Dict.get company (ratios self) = Some rt ->
  has_period rt p = false ->
  forall i, exists e, outcome (radar_loop plt self p n i cs) = Raise e.
Proof.
  intros Hin Hget Hmiss.
  induction cs as [|c cs IH]; [destruct Hin|]. intros i.
  rewrite radar_loop_step.
  destruct (ratios_of self c) as [rt'|e] eqn:Ert; [|eexists; reflexivity].
  destruct (radar_values rt' p) as [values|e] eqn:Evals; [|eexists; reflexivity].
  cbn zeta. destruct (plt _); [eexists; reflexivity|].
  destruct Hin as [->|Hin].
  - unfold ratios_of in Ert. rewrite Hget in Ert. injection Ert as <-.
    rewrite (radar_values_missing _ _ Hmiss) in Evals. discriminate.
  - destruct (IH Hin (S i)) as [e He]. rewrite He. eexists; reflexivity.
Qed.

(** With a backend that does not fail and tables that all have a row for
    period [p], the loop ends normally. *)
Lemma radar_loop_total plt self p n cs :
  (forall c, plt c = None) ->
  (forall company, In company cs ->
     exists rt, Dict.get company (ratios self) = Some rt /\
                rt_wf rt /\ has_period rt p = true) ->
  forall i, exists fig, outcome (radar_loop plt self p n i cs) = Ok fig.
Proof.
  intros Hplt. induction cs as [|c cs IH]; intros Hall i.
  - simpl. eauto.
  - rewrite radar_loop_step. unfold ratios_of.
    destruct (Hall c (or_introl eq_refl)) as (rt & -> & Hwf & Hp).
    destruct (radar_values_present rt p Hwf Hp) as [values ->].
    cbn zeta. rewrite Hplt.
    destruct (IH (fun x Hx => Hall x (or_intror Hx)) (S i)) as [fig Hfig].
    rewrite Hfig. eexists; reflexivity.
Qed.

Lemma available_companies_in self company :
  In company (available_companies self) ->
  In company (companies self) /\ exists rt, Dict.get company (ratios self) = Some rt.
Proof.
  unfold available_companies. rewrite filter_In, dict_mem_true. tauto.
Qed.

(** ** C6 *)

(** C6.  When no company of the list has a ratio table, the radar chart
    construction returns [None]; its only effect is the message 'No data
    available for radar chart': the backend is not called and no file is
    written. *)
Theorem radar_without_data (plt : Backend) (self : FinancialAnalysis) :
  (forall company,
      In company (companies self) -> Dict.get company (ratios self) = None) ->
  plot_debt_ratio_radar plt self =
  ([Print "No data available for radar chart"], Ok None).
Proof.
  intros Hnone. unfold plot_debt_ratio_radar.
  assert (Hav : available_companies self = []).
  { unfold available_companies.
    induction (companies self) as [|c cs IH]; [reflexivity|]. simpl.
    assert (Hc : Dict.mem c (ratios self) = false)
      by (apply dict_mem_false, Hnone; now left).
    rewrite Hc. apply IH. intros x Hx. apply Hnone. now right. }
  rewrite Hav. reflexivity.
Qed.

Lemma radar_without_data_witness :
  plot_debt_ratio_radar plt_ok
    (analysis_of ["PART"; "NONE"] [("PART", partial_sheet)] Dict.empty) =
  ([Print "No data available for radar chart"], Ok None).
Proof.
  apply (radar_without_data plt_ok
           (analysis_of ["PART"; "NONE"] [("PART", partial_sheet)] Dict.empty)).
  intros company _. reflexivity.
Defined.

(** ** C5 *)

(** The radar chart construction, once the first plotted company and its
    first period are known. *)
Lemma radar_unfold plt self first rest rt0 latest_date :
  available_companies self = first :: rest ->
  Dict.get first (ratios self) = Some rt0 ->
  first_period (rt_index rt0) = Ok latest_date ->
  plot_debt_ratio_radar plt self =
  match plt CallFigure with
  | Some msg => ([], Raise (Exception msg))
  | None =>
      let loop :=
        radar_loop plt self latest_date (List.length (first :: rest)) 0
                   (first :: rest) in
      let path := get_plot_path self "debt_ratio_radar.png" in
      match outcome loop with
      | Raise e => (OpenFigure :: trace loop, Raise e)
      | Ok fig =>
          match plt (CallSave path) with
          | Some msg => (OpenFigure :: trace loop, Raise (Exception msg))
          | None => (OpenFigure :: trace loop ++ [SaveFig path fig], Ok (Some path))
          end
      end
  end.
Proof.
  intros Hav Hget Hfirst. unfold plot_debt_ratio_radar. rewrite Hav.
  unfold ratios_of at 1. rewrite Hget, bind_lift_ok, Hfirst, bind_lift_ok.
  unfold backend_call at 1. destruct (plt CallFigure); [reflexivity|].
  rewrite bind_effect. cbn zeta.
  rewrite bind_trace_outcome.
  destruct (outcome (radar_loop _ _ _ _ _ _)) as [fig|e]; [|reflexivity].
  unfold savefig, backend_call.
  destruct (plt (CallSave _)); cbn [trace outcome fst snd bind raise ret].
  - now rewrite app_nil_r.
  - now rewrite app_nil_r.
Qed.

Lemma draws_no_savefig t path fig : Forall is_draw t -> ~ In (SaveFig path fig) t.
Proof.
  intros Hall Hin. rewrite Forall_forall in Hall.
  destruct (Hall _ Hin) as [a Ha]. discriminate.
Qed.

(** C5, as stated, fails: for two companies whose only common period is
    [Q2], the chart is not plotted at [Q2]; the first company's polygon is
    drawn from its own most recent period [Q3], the lookup of [Q3] in the
    second company's table raises, and no image is written. *)
Lemma radar_misses_common_period :
  most_recent_common_period (plotted_tables staggered) = Some Q2 /\
  plot_debt_ratio_radar plt_ok staggered =
    ([OpenFigure;
      Draw (Polygon "ACME" (0, 2)
                    [fdiv (of_Z 750) (of_Z 1000); two; two; of_Z 4;
                     fdiv (of_Z 750) (of_Z 1000)])],
     Raise (KeyError "Timestamp('2024-09-30 00:00:00')")) /\
  radar_values (table_of acme) Q2 <> radar_values (table_of acme) Q3.
Proof.
  split; [reflexivity|]. split; [reflexivity|].
  vm_compute. discriminate.
Qed.

(** C5, amended.  The radar chart takes its period from the first
    company of the list that has a ratio table: the first (most recent)
    period of that table.  A written chart holds, for each company with a
    ratio table and in list order, the polygon of its four ratios at that
    period.  If a plotted company has no row for that period, the
    construction raises and writes no image.  If every plotted table has
    a row for it and the backend does not fail, that period is the most
    recent common period and the chart is written. *)
Theorem radar_uses_first_company_latest_period
  (plt : Backend) (self : FinancialAnalysis)
  (first : string) (rest : list string) (rt0 : RatioTable)
  (latest_date : period) :
  available_companies self = first :: rest ->
  Dict.get first (ratios self) = Some rt0 ->
  first_period (rt_index rt0) = Ok latest_date ->
  (forall path fig,
      In (SaveFig path fig) (trace (plot_debt_ratio_radar plt self)) ->
      path = get_plot_path self "debt_ratio_radar.png" /\
      Forall2 (polygon_at self latest_date) (first :: rest) fig) /\
  ((exists company rt,
       In company (first :: rest) /\
       Dict.get company (ratios self) = Some rt /\
       has_period rt latest_date = false) ->
   (exists e, outcome (plot_debt_ratio_radar plt self) = Raise e) /\
   forall path fig,
     ~ In (SaveFig path fig) (trace (plot_debt_ratio_radar plt self))) /\
  ((forall c, plt c = None) ->
   (forall company rt,
       In company (first :: rest) ->
       Dict.get company (ratios self) = Some rt ->
       rt_wf rt /\ has_period rt latest_date = true) ->
   most_recent_common_period (plotted_tables self) = Some latest_date /\
   exists fig,
     plot_debt_ratio_radar plt self =
     (OpenFigure :: map Draw fig
        ++ [SaveFig (get_plot_path self "debt_ratio_radar.png") fig],
      Ok (Some (get_plot_path self "debt_ratio_radar.png")))).
Proof.
  intros Hav Hget Hfirst.
  rewrite (radar_unfold plt self first rest rt0 latest_date Hav Hget Hfirst).
  set (n := List.length (first :: rest)).
  pose proof (radar_loop_draws plt self latest_date n (first :: rest) 0) as Hdraws.
  split; [|split].
  - intros path fig.
    destruct (plt CallFigure); [intros []|]. cbn zeta.
    destruct (outcome (radar_loop plt self latest_date n 0 (first :: rest)))
      as [fig'|e] eqn:Eloop.
    + destruct (radar_loop_ok _ _ _ _ _ _ _ Eloop) as [Ht Hall].
      destruct (plt (CallSave _)); cbn [trace fst].
      * intros [H|H]; [discriminate|]. now apply draws_no_savefig in H.
      * intros [H|H]; [discriminate|]. apply in_app_iff in H.
        destruct H as [H|[H|[]]]; [now apply draws_no_savefig in H|].
        injection H as <- <-. auto.
    + cbn [trace fst].
      intros [H|H]; [discriminate|]. now apply draws_no_savefig in H.
  - intros (company & rt & Hin & Hrt & Hmiss).
    destruct (radar_loop_raises plt self latest_date n _ _ _ Hin Hrt Hmiss 0)
      as [e He].
    destruct (plt CallFigure).
    + split; [eexists; reflexivity | intros path fig []].
    + cbn zeta. rewrite He. cbn [outcome trace fst snd].
      split; [eexists; reflexivity|].
      intros path fig [H|H]; [discriminate|]. now apply draws_no_savefig in H.
  - intros Hplt Hall. split.
    + unfold plotted_tables. rewrite Hav. cbn [flat_map]. rewrite Hget.
      cbn [app most_recent_common_period].
      destruct (rt_index rt0) as [|p idx] eqn:Eidx; [discriminate|].
      injection Hfirst as ->. cbn [find].
      assert (Hp : forallb (fun rt => has_period rt latest_date)
                     (rt0 :: flat_map
                        (fun company =>
                           match Dict.get company (ratios self) with
                           | Some rt => [rt]
                           | None => []
                           end) rest) = true).
      { apply forallb_forall. intros rt [<-|Hin].
        - apply (Hall first rt0); [now left | exact Hget].
        - apply in_flat_map in Hin. destruct Hin as (c & Hc & Hin).
          destruct (Dict.get c (ratios self)) as [rt'|] eqn:Ec; [|destruct Hin].
          destruct Hin as [<-|[]]. apply (Hall c rt'); [now right | exact Ec]. }
      now rewrite Hp.
    + rewrite Hplt. cbn zeta.
      destruct (radar_loop_total plt self latest_date n (first :: rest) Hplt)
        with (i := 0) as [fig Hfig].
      { intros company Hin.
        assert (Hin' : In company (available_companies self))
          by (rewrite Hav; exact Hin).
        apply available_companies_in in Hin'. destruct Hin' as [_ [rt Hrt]].
        exists rt. split; [exact Hrt|]. now apply (Hall company rt). }
      rewrite Hfig, Hplt.
      destruct (radar_loop_ok _ _ _ _ _ _ _ Hfig) as [-> _].
      exists fig. reflexivity.
Qed.

Lemma radar_uses_first_company_latest_period_witness :
  (forall path fig,
      In (SaveFig path fig) (trace (plot_debt_ratio_radar plt_ok staggered)) ->
      path = get_plot_path staggered "debt_ratio_radar.png" /\
      Forall2 (polygon_at staggered Q3) ["ACME"; "BORE"] fig) /\
  ((exists company rt,
       In company ["ACME"; "BORE"] /\
       Dict.get company (ratios staggered) = Some rt /\
       has_period rt Q3 = false) ->
   (exists e, outcome (plot_debt_ratio_radar plt_ok staggered) = Raise e) /\
   forall path fig,
     ~ In (SaveFig path fig) (trace (plot_debt_ratio_radar plt_ok staggered))) /\
  ((forall c, plt_ok c = None) ->
   (forall company rt,
       In company ["ACME"; "BORE"] ->
       Dict.get company (ratios staggered) = Some rt ->
       rt_wf rt /\ has_period rt Q3 = true) ->
   most_recent_common_period (plotted_tables staggered) = Some Q3 /\
   exists fig,
     plot_debt_ratio_radar plt_ok staggered =
     (OpenFigure :: map Draw fig
        ++ [SaveFig (get_plot_path staggered "debt_ratio_radar.png") fig],
      Ok (Some (get_plot_path staggered "debt_ratio_radar.png")))).
Proof.
  apply (radar_uses_first_company_latest_period plt_ok staggered
           "ACME" ["BORE"] (table_of acme) Q3); reflexivity.
Defined.

(** ** Line chart *)

Lemma line_loop_step plt self company cs :
  line_loop plt self (company :: cs) =
  match Dict.get company (ratios self) with
  | None => line_loop plt self cs
  | Some rt =>
      let a := Line company (rt_index rt) (Current_Ratio rt) in
      match plt (CallDraw a) with
      | Some msg => ([], Raise (Exception msg))
      | None =>
          (Draw a :: trace (line_loop plt self cs),
           match outcome (line_loop plt self cs) with
           | Ok fig => Ok (a :: fig)
           | Raise e => Raise e
           end)
      end
  end.
Proof.
  cbn [line_loop]. unfold Dict.mem, ratios_of.
  destruct (Dict.get company (ratios self)) as [rt|]; [|reflexivity].
  rewrite bind_lift_ok. unfold draw, backend_call.
  destruct (plt (CallDraw _)); [reflexivity|].
  rewrite bind_effect, bind_ret_map. reflexivity.
Qed.

(** The loop draws lines only, each for a company of the list that has a
    ratio table. *)
Lemma line_loop_draws plt self cs :
  Forall (fun eff =>
            exists company rt,
              In company cs /\
              Dict.get company (ratios self) = Some rt /\
              eff = Draw (Line company (rt_index rt) (Current_Ratio rt)))
         (trace (line_loop plt self cs)).
Proof.
  induction cs as [|c cs IH].
  - constructor.
  - rewrite line_loop_step.
    assert (IH' : Forall (fun eff =>
              exists company rt,
                In company (c :: cs) /\
                Dict.get company (ratios self) = Some rt /\
                eff = Draw (Line company (rt_index rt) (Current_Ratio rt)))
             (trace (line_loop plt self cs))).
    { eapply Forall_impl; [|exact IH].
      intros eff (company & rt & Hin & Hget & ->).
      exists company, rt. repeat split; [now right | exact Hget]. }
    destruct (Dict.get c (ratios self)) as [rt|] eqn:Eget; [|exact IH'].
    cbn zeta. destruct (plt _); [constructor|].
    constructor; [|exact IH'].
    exists c, rt. repeat split; [now left | exact Eget].
Qed.

Lemma line_unfold plt self :
  plot_current_ratio_comparison plt self =
  match plt CallFigure with
  | Some msg => ([], Raise (Exception msg))
  | None =>
      let loop := line_loop plt self (companies self) in
      let path := get_plot_path self "current_ratio_comparison.png" in
      match outcome loop with
      | Raise e => (OpenFigure :: trace loop, Raise e)
      | Ok fig =>
          match plt (CallSave path) with
          | Some msg => (OpenFigure :: trace loop, Raise (Exception msg))
          | None => (OpenFigure :: trace loop ++ [SaveFig path fig], Ok path)
          end
      end
  end.
Proof.
  unfold plot_current_ratio_comparison.
  unfold backend_call at 1. destruct (plt CallFigure); [reflexivity|].
  rewrite bind_effect. cbn zeta. rewrite bind_trace_outcome.
  destruct (outcome (line_loop _ _ _)) as [fig|e]; [|reflexivity].
  unfold savefig, backend_call.
  destruct (plt (CallSave _)); cbn [trace outcome fst snd bind raise ret];
    now rewrite app_nil_r.
Qed.

(** Every line of the chart belongs to a company with a ratio table. *)
Lemma line_chart_labels plt self label dates values :
  In (Draw (Line label dates values)) (trace (plot_current_ratio_comparison plt self)) ->
  In label (companies self) /\
  exists rt, Dict.get label (ratios self) = Some rt.
Proof.
  rewrite line_unfold.
  pose proof (line_loop_draws plt self (companies self)) as Hdraws.
  rewrite Forall_forall in Hdraws.
  assert (Hloop : In (Draw (Line label dates values))
                     (trace (line_loop plt self (companies self))) ->
                  In label (companies self) /\
                  exists rt, Dict.get label (ratios self) = Some rt).
  { intros Hin. destruct (Hdraws _ Hin) as (c & rt & Hc & Hget & Heq).
    injection Heq as -> _ _. eauto. }
  destruct (plt CallFigure); [intros []|]. cbn zeta.
  destruct (outcome (line_loop plt self (companies self))) as [fig|e].
  - destruct (plt (CallSave _)); cbn [trace fst].
    + intros [H|H]; [discriminate | auto].
    + intros [H|H]; [discriminate|]. apply in_app_iff in H.
      destruct H as [H|[H|[]]]; [auto | discriminate].
  - cbn [trace fst]. intros [H|H]; [discriminate | auto].
Qed.

(** Every polygon of the radar chart belongs to a company with a ratio
    table. *)
Lemma radar_loop_labels plt self p n cs :
  forall i,
    Forall (fun eff =>
              exists company colour values,
                In company cs /\ eff = Draw (Polygon company colour values))
           (trace (radar_loop plt self p n i cs)).
Proof.
  induction cs as [|c cs IH]; intros i.
  - constructor.
  - rewrite radar_loop_step.
    destruct (ratios_of self c) as [rt|e]; [|constructor].
    destruct (radar_values rt p) as [values|e]; [|constructor].
    cbn zeta. destruct (plt _); [constructor|].
    constructor.
    + exists c, (i, n), values. split; [now left | reflexivity].
    + eapply Forall_impl; [|apply IH].
      intros eff (company & colour & vals & Hin & ->).
      exists company, colour, vals. split; [now right | reflexivity].
Qed.

Lemma radar_chart_labels plt self label colour values :
  In (Draw (Polygon label colour values)) (trace (plot_debt_ratio_radar plt self)) ->
  In label (companies self) /\
  exists rt, Dict.get label (ratios self) = Some rt.
Proof.
  destruct (available_companies self) as [|first rest] eqn:Hav.
  - unfold plot_debt_ratio_radar. rewrite Hav. cbn.
    intros [H|[]]. discriminate.
  - assert (Hfirst : In first (available_companies self))
      by (rewrite Hav; now left).
    apply available_companies_in in Hfirst. destruct Hfirst as [_ [rt0 Hrt0]].
    destruct (first_period (rt_index rt0)) as [d|e] eqn:Ed.
    + rewrite (radar_unfold plt self first rest rt0 d Hav Hrt0 Ed).
      pose proof (radar_loop_labels plt self d (List.length (first :: rest))
                    (first :: rest) 0) as Hlab.
      rewrite Forall_forall in Hlab.
      assert (Hloop : In (Draw (Polygon label colour values))
                (trace (radar_loop plt self d (List.length (first :: rest)) 0
                          (first :: rest))) ->
              In label (companies self) /\
              exists rt, Dict.get label (ratios self) = Some rt).
      { intros Hin. destruct (Hlab _ Hin) as (c & col & vals & Hc & Heq).
        injection Heq as -> _ _. apply available_companies_in.
        now rewrite Hav. }
      destruct (plt CallFigure); [intros []|]. cbn zeta.
      destruct (outcome (radar_loop _ _ _ _ _ _)) as [fig|e].
      * destruct (plt (CallSave _)); cbn [trace fst].
        -- intros [H|H]; [discriminate | auto].
        -- intros [H|H]; [discriminate|]. apply in_app_iff in H.
           destruct H as [H|[H|[]]]; [auto | discriminate].
      * cbn [trace fst]. intros [H|H]; [discriminate | auto].
    + unfold plot_debt_ratio_radar. rewrite Hav.
      unfold ratios_of. rewrite Hrt0, bind_lift_ok, Ed. intros [].
Qed.

(** The report has one section per company of the list that has a ratio
    table, in list order. *)
Lemma report_sections_names self cs sections :
  report_sections self cs = Ok sections ->
  map fst sections = filter (fun company => Dict.mem company (ratios self)) cs.
Proof.
  revert sections. induction cs as [|c cs IH]; intros sections; simpl.
  - now intros [= <-].
  - unfold Dict.mem.
    destruct (Dict.get c (ratios self)) as [rt|]; [|apply IH].
    destruct (company_section c rt) as [sec|]; [|discriminate].
    cbn [rbind].
    destruct (report_sections self cs) as [rest|]; [|discriminate].
    cbn [rbind]. intros H. apply Ok_inj in H. subst sections.
    simpl. f_equal. now apply IH.
Qed.

(** ** Composition charts *)

Lemma try_except_trace {A} (m : M A) (h : exn -> M A) :
  try_except m h =
  match outcome m with
  | Ok a => (trace m, Ok a)
  | Raise e => (trace m ++ trace (h e), outcome (h e))
  end.
Proof.
  destruct m as [t [a|e]]; simpl; [reflexivity | now destruct (h e)].
Qed.

Lemma composition_failure_eq company bs e :
  composition_failure company bs e =
  ([ Print ("Error plotting balance sheet composition for " +++ company
            +++ ": " +++ str_exn e);
     Print "Available balance sheet items:";
     Print (str_list (df_index bs)) ],
   Ok None).
Proof. reflexivity. Qed.

(** The chart of a company whose sheet is held never raises: what the
    [try] block raises is reported and [None] is returned. *)
Lemma composition_contained plt self company bs latest_date :
  Dict.get company (balance_sheets self) = Some bs ->
  first_period (df_columns bs) = Ok latest_date ->
  plot_balance_sheet_composition plt self company =
  match outcome (composition_body plt self company bs latest_date) with
  | Ok path => (trace (composition_body plt self company bs latest_date), Ok path)
  | Raise e =>
      (trace (composition_body plt self company bs latest_date)
         ++ [ Print ("Error plotting balance sheet composition for " +++ company
                     +++ ": " +++ str_exn e);
              Print "Available balance sheet items:";
              Print (str_list (df_index bs)) ],
       Ok None)
  end.
Proof.
  intros Hget Hfirst. unfold plot_balance_sheet_composition.
  rewrite Hget, Hfirst, bind_lift_ok, try_except_trace.
  destruct (outcome (composition_body _ _ _ _ _)); reflexivity.
Qed.

Lemma composition_body_opens plt self company bs latest_date :
  plt CallFigure = None ->
  exists t, trace (composition_body plt self company bs latest_date) = OpenFigure :: t.
Proof.
  intros Hplt. unfold composition_body, backend_call at 1.
  rewrite Hplt, bind_effect. eexists. reflexivity.
Qed.

(** The composition chart reads the analysis object through its sheets
    and its plot directory only. *)
Lemma composition_ext plt self other company :
  balance_sheets other = balance_sheets self ->
  plots_dir other = plots_dir self ->
  plot_balance_sheet_composition plt other company =
  plot_balance_sheet_composition plt self company.
Proof.
  intros Hbs Hdir. unfold plot_balance_sheet_composition.
  rewrite Hbs. destruct (Dict.get company (balance_sheets self)); [|reflexivity].
  unfold composition_body, get_plot_path. now rewrite Hdir.
Qed.

(** ** C10 *)

(** C10.  Whether [plot_balance_sheet_composition] attempts the paired
    pie charts of a company depends only on the balance-sheet table: the
    result is the same for any analysis object with the same sheets
    (whatever its ratio tables); without a sheet it only reports 'No data
    available'; with a sheet it runs the guarded drawing block, opening a
    figure.  A company without a ratio table has no line in the line
    chart, no polygon in the radar chart and no section in the report. *)
Theorem composition_chart_needs_only_balance_sheet
  (plt : Backend) (self : FinancialAnalysis) (company : string) :
  (forall other,
      balance_sheets other = balance_sheets self ->
      plots_dir other = plots_dir self ->
      plot_balance_sheet_composition plt other company =
      plot_balance_sheet_composition plt self company) /\
  (Dict.get company (balance_sheets self) = None ->
   plot_balance_sheet_composition plt self company =
   ([Print ("No data available for " +++ company)], Ok None)) /\
  (forall bs latest_date,
      Dict.get company (balance_sheets self) = Some bs ->
      first_period (df_columns bs) = Ok latest_date ->
      plot_balance_sheet_composition plt self company =
      try_except (composition_body plt self company bs latest_date)
                 (composition_failure company bs) /\
      (plt CallFigure = None ->
       exists t,
         trace (plot_balance_sheet_composition plt self company) = OpenFigure :: t)) /\
  (Dict.get company (ratios self) = None ->
   (forall dates values,
       ~ In (Draw (Line company dates values))
            (trace (plot_current_ratio_comparison plt self))) /\
   (forall colour values,
       ~ In (Draw (Polygon company colour values))
            (trace (plot_debt_ratio_radar plt self))) /\
   (forall sections,
       report_sections self (companies self) = Ok sections ->
       ~ In company (map fst sections))).
Proof.
  split; [|split; [|split]].
  - intros other. apply composition_ext.
  - intros Hnone. unfold plot_balance_sheet_composition. now rewrite Hnone.
  - intros bs latest_date Hget Hfirst. split.
    + unfold plot_balance_sheet_composition.
      now rewrite Hget, Hfirst, bind_lift_ok.
    + intros Hplt.
      rewrite (composition_contained plt self company bs latest_date Hget Hfirst).
      destruct (composition_body_opens plt self company bs latest_date Hplt)
        as [t Ht].
      destruct (outcome (composition_body _ _ _ _ _)); cbn [trace fst];
        rewrite Ht; eexists; reflexivity.
  - intros Hnone. split; [|split].
    + intros dates values Hin. apply line_chart_labels in Hin.
      destruct Hin as [_ [rt Hrt]]. congruence.
    + intros colour values Hin. apply radar_chart_labels in Hin.
      destruct Hin as [_ [rt Hrt]]. congruence.
    + intros sections Hsec Hin.
      rewrite (report_sections_names _ _ _ Hsec) in Hin.
      apply filter_In in Hin. destruct Hin as [_ Hmem].
      apply dict_mem_true in Hmem. destruct Hmem as [rt Hrt]. congruence.
Qed.

(** A company fetched without a 'Stockholders Equity' line: its ratio
    computation is skipped, and its composition chart is attempted (a
    figure is opened, then the missing line item is reported). *)
Lemma composition_chart_needs_only_balance_sheet_witness :
  Dict.get "PART" (ratios (analysis_after sample_provider "/app" ["PART"])) = None /\
  plot_balance_sheet_composition plt_ok
    (analysis_after sample_provider "/app" ["PART"]) "PART" =
  try_except
    (composition_body plt_ok (analysis_after sample_provider "/app" ["PART"])
                      "PART" partial_sheet Q3)
    (composition_failure "PART" partial_sheet) /\
  exists t,
    trace (plot_balance_sheet_composition plt_ok
             (analysis_after sample_provider "/app" ["PART"]) "PART")
    = OpenFigure :: t.
Proof.
  split; [reflexivity|].
  destruct (composition_chart_needs_only_balance_sheet plt_ok
              (analysis_after sample_provider "/app" ["PART"]) "PART")
    as (_ & _ & H & _).
  destruct (H partial_sheet Q3 eq_refl eq_refl) as [H1 H2].
  split; [exact H1 | exact (H2 eq_refl)].
Defined.

(** ** Traces of sequences *)

Lemma trace_bind {A B} (m : M A) (k : A -> M B) :
  trace (bind m k) =
  trace m ++ match outcome m with Ok a => trace (k a) | Raise _ => [] end.
Proof.
  rewrite bind_trace_outcome.
  destruct (outcome m); cbn [trace fst]; [reflexivity | now rewrite app_nil_r].
Qed.

Lemma outcome_bind {A B} (m : M A) (k : A -> M B) :
  outcome (bind m k) =
  match outcome m with Ok a => outcome (k a) | Raise e => Raise e end.
Proof. rewrite bind_trace_outcome. now destruct (outcome m). Qed.

Lemma trace_try_except {A} (m : M A) (h : exn -> M A) :
  trace (try_except m h) =
  trace m ++ match outcome m with Ok _ => [] | Raise e => trace (h e) end.
Proof.
  rewrite try_except_trace.
  destruct (outcome m); cbn [trace fst]; [now rewrite app_nil_r | reflexivity].
Qed.

Lemma outcome_try_except {A} (m : M A) (h : exn -> M A) :
  outcome (try_except m h) =
  match outcome m with Ok a => Ok a | Raise e => outcome (h e) end.
Proof. rewrite try_except_trace. now destruct (outcome m). Qed.

Lemma artifacts_app t1 t2 : artifacts (t1 ++ t2) = artifacts t1 ++ artifacts t2.
Proof. apply filter_app. Qed.

Lemma writes_app t1 t2 : writes (t1 ++ t2) = writes t1 ++ writes t2.
Proof. apply filter_app. Qed.

Lemma writes_of_artifacts t : writes (artifacts t) = writes t.
Proof.
  induction t as [|eff t IH]; [reflexivity|].
  destruct eff; simpl; now rewrite ?IH.
Qed.

Lemma no_artifacts_no_writes t : artifacts t = [] -> writes t = [].
Proof. intros H. now rewrite <- writes_of_artifacts, H. Qed.

Lemma print_saved_outcome label path : outcome (print_saved label path) = Ok tt.
Proof.
  destruct path as [p|]; [|reflexivity]. simpl. now destruct (String.eqb p "").
Qed.

Lemma print_saved_artifacts label path : artifacts (trace (print_saved label path)) = [].
Proof.
  destruct path as [p|]; [|reflexivity]. simpl. now destruct (String.eqb p "").
Qed.

(** ** Data fetcher *)

Lemma with_sheets_same self : with_sheets self (balance_sheets self) = self.
Proof. now destruct self. Qed.

Lemma fetch_one_spec yf self company :
  outcome (fetch_one yf self company) =
    Ok (with_sheets self
          (match yf company with
           | Ok bs => if df_empty bs then balance_sheets self
                      else Dict.set company bs (balance_sheets self)
           | Raise _ => balance_sheets self
           end)) /\
  artifacts (trace (fetch_one yf self company)) = [].
Proof.
  unfold fetch_one. destruct (yf company) as [bs|e]; simpl.
  - destruct (df_empty bs); simpl; rewrite ?with_sheets_same; auto.
  - rewrite with_sheets_same. auto.
Qed.

(** [fetch_data] never raises and only prints. *)
Lemma fetch_loop_spec yf cs :
  forall self,
    outcome (fetch_loop yf cs self) =
      Ok (with_sheets self (fetched_sheets yf cs (balance_sheets self))) /\
    artifacts (trace (fetch_loop yf cs self)) = [].
Proof.
  induction cs as [|c cs IH]; intros self; cbn [fetch_loop fetched_sheets].
  - rewrite with_sheets_same. auto.
  - destruct (fetch_one_spec yf self c) as [Hout Hart].
    destruct (IH (with_sheets self
                    (match yf c with
                     | Ok bs => if df_empty bs then balance_sheets self
                                else Dict.set c bs (balance_sheets self)
                     | Raise _ => balance_sheets self
                     end))) as [Hout' Hart'].
    rewrite outcome_bind, trace_bind, Hout, artifacts_app, Hart, Hart'.
    split; [|reflexivity]. rewrite Hout'. reflexivity.
Qed.

Lemma calculate_one_artifacts self company bs :
  artifacts (trace (calculate_one self company bs)) = [].
Proof. unfold calculate_one. now destruct (compute_ratios bs). Qed.

Lemma calculate_loop_artifacts items :
  forall self, artifacts (trace (calculate_loop items self)) = [].
Proof.
  induction items as [|[c bs] items IH]; intros self; [reflexivity|].
  cbn [calculate_loop].
  rewrite trace_bind, artifacts_app, calculate_one_artifacts,
    calculate_one_outcome.
  apply IH.
Qed.

(** A sheet held after fetching is not empty, or was held before. *)
Lemma fetched_sheets_get yf cs :
  forall d company bs,
    Dict.get company (fetched_sheets yf cs d) = Some bs ->
    (yf company = Ok bs /\ df_empty bs = false) \/ Dict.get company d = Some bs.
Proof.
  induction cs as [|c cs IH]; intros d company bs; cbn [fetched_sheets].
  - auto.
  - intros H. apply IH in H. destruct H as [H|H]; [now left|].
    destruct (yf c) as [bs'|e] eqn:Eyf; [|now right].
    destruct (df_empty bs') eqn:Eempty; [now right|].
    destruct (String.eqb company c) eqn:Ec.
    + apply String.eqb_eq in Ec. subst c.
      rewrite dict_get_set_same in H. injection H as <-. now left.
    + apply String.eqb_neq in Ec.
      rewrite dict_get_set_other in H by exact Ec. now right.
Qed.

Lemma fetched_sheets_nodup yf cs :
  forall d, NoDup (Dict.keys d) -> NoDup (Dict.keys (fetched_sheets yf cs d)).
Proof.
  induction cs as [|c cs IH]; intros d Hd; cbn [fetched_sheets]; [exact Hd|].
  apply IH. destruct (yf c) as [bs|]; [|exact Hd].
  destruct (df_empty bs); [exact Hd | now apply dict_set_nodup].
Qed.

(** A company whose table comes back empty, or whose fetch fails, is
    never held. *)
Lemma fetched_sheets_skip yf cs company :
  (forall bs, yf company = Ok bs -> df_empty bs = true) ->
  forall d, Dict.get company d = None ->
            Dict.get company (fetched_sheets yf cs d) = None.
Proof.
  intros Hempty d Hd.
  destruct (Dict.get company (fetched_sheets yf cs d)) as [bs|] eqn:E;
    [|reflexivity].
  apply fetched_sheets_get in E. destruct E as [[Hyf Hne]|E]; [|congruence].
  rewrite (Hempty _ Hyf) in Hne. discriminate.
Qed.

(** ** The analysis object of a run *)

Lemma analysis_after_fields yf base cs :
  companies (analysis_after yf base cs) = cs /\
  balance_sheets (analysis_after yf base cs) = fetched_sheets yf cs Dict.empty /\
  ratios (analysis_after yf base cs) =
    computed_ratios (fetched_sheets yf cs Dict.empty) Dict.empty /\
  output_dir (analysis_after yf base cs) = path_join base "output" /\
  plots_dir (analysis_after yf base cs) = path_join (path_join base "output") "plots".
Proof. repeat split. Qed.

Lemma analysis_after_sheet_nonempty yf base cs company bs :
  Dict.get company (balance_sheets (analysis_after yf base cs)) = Some bs ->
  yf company = Ok bs /\
  exists latest_date, first_period (df_columns bs) = Ok latest_date.
Proof.
  cbn [analysis_after with_ratios with_sheets balance_sheets].
  intros H. apply fetched_sheets_get in H.
  destruct H as [[Hyf Hne]|H]; [|discriminate].
  split; [exact Hyf|].
  unfold df_empty in Hne. destruct (df_columns bs) as [|p ps]; [discriminate|].
  eexists. reflexivity.
Qed.

Lemma analysis_after_ratio yf base cs company :
  Dict.get company (ratios (analysis_after yf base cs)) =
  match Dict.get company (balance_sheets (analysis_after yf base cs)) with
  | Some bs =>
      match compute_ratios bs with
      | Ok rt => Some rt
      | Raise _ => None
      end
  | None => None
  end.
Proof.
  cbn [analysis_after with_ratios with_sheets balance_sheets ratios].
  rewrite computed_ratios_get
    by (apply fetched_sheets_nodup; constructor).
  destruct (Dict.get company (fetched_sheets yf cs Dict.empty)); [|reflexivity].
  now destruct (compute_ratios d).
Qed.

(** The first half of the pipeline never raises, only prints, and hands
    [analysis_after] to the second half. *)
Lemma pipeline_unfold yf plt now base cs :
  exists pre,
    artifacts pre = [] /\
    pipeline yf plt now base cs =
    (pre ++ trace (visualize_and_report plt now (analysis_after yf base cs) cs),
     outcome (visualize_and_report plt now (analysis_after yf base cs) cs)).
Proof.
  unfold pipeline. cbn zeta.
  destruct (fetch_loop_spec yf cs (init cs base)) as [Hf Hfa].
  set (fetched := with_sheets (init cs base)
                    (fetched_sheets yf cs (balance_sheets (init cs base)))) in *.
  pose proof (calculate_outcome fetched) as Hc.
  pose proof (calculate_loop_artifacts (balance_sheets fetched) fetched) as Hca.
  exists (Print "Initializing analyzer..."
          :: Print (nl +++ "Fetching financial data...")
          :: trace (fetch_data yf (init cs base))
          ++ Print (nl +++ "Calculating financial ratios...")
          :: trace (calculate_financial_ratios fetched)).
  split.
  - cbn [artifacts filter is_print negb].
    change (filter (fun eff => negb (is_print eff))) with artifacts.
    rewrite artifacts_app. unfold fetch_data. cbn [companies init].
    rewrite Hfa. cbn [app artifacts filter is_print negb].
    exact Hca.
  - rewrite !bind_print. cbn [trace outcome fst snd].
    unfold fetch_data at 1 2. cbn [companies init].
    rewrite (bind_trace_outcome (fetch_loop yf cs (init cs base))), Hf.
    rewrite bind_print. cbn [trace outcome fst snd].
    rewrite (bind_trace_outcome (calculate_financial_ratios fetched)), Hc.
    cbn [trace outcome fst snd].
    change (with_ratios fetched
              (computed_ratios (balance_sheets fetched) (ratios fetched)))
      with (analysis_after yf base cs).
    unfold fetch_data. cbn [companies init].
    rewrite <- !app_comm_cons, <- app_assoc. reflexivity.
Qed.

(** ** Orchestrator *)

Lemma artifacts_bind {A B} (m : M A) (k : A -> M B) :
  artifacts (trace (bind m k)) =
  artifacts (trace m)
    ++ match outcome m with Ok a => artifacts (trace (k a)) | Raise _ => [] end.
Proof.
  rewrite trace_bind, artifacts_app. now destruct (outcome m).
Qed.

Lemma artifacts_bind_print {B} (s : string) (k : unit -> M B) :
  artifacts (trace (bind (print s) k)) = artifacts (trace (k tt)).
Proof. now rewrite bind_print. Qed.

Lemma outcome_bind_print {B} (s : string) (k : unit -> M B) :
  outcome (bind (print s) k) = outcome (k tt).
Proof. now rewrite bind_print. Qed.

Lemma artifacts_bind_saved {B} label path (k : unit -> M B) :
  artifacts (trace (bind (print_saved label path) k)) = artifacts (trace (k tt)).
Proof.
  now rewrite artifacts_bind, print_saved_artifacts, print_saved_outcome.
Qed.

Lemma outcome_bind_saved {B} label path (k : unit -> M B) :
  outcome (bind (print_saved label path) k) = outcome (k tt).
Proof. now rewrite outcome_bind, print_saved_outcome. Qed.

(** What the second half of the pipeline leaves besides messages, and
    how it ends: each stage runs only if the stages before it returned. *)
Lemma visualize_spec plt now analysis cs :
  artifacts (trace (visualize_and_report plt now analysis cs)) =
    artifacts (trace (plot_current_ratio_comparison plt analysis))
    ++ match outcome (plot_current_ratio_comparison plt analysis) with
       | Raise _ => []
       | Ok _ =>
           artifacts (trace (plot_debt_ratio_radar plt analysis))
           ++ match outcome (plot_debt_ratio_radar plt analysis) with
              | Raise _ => []
              | Ok _ =>
                  artifacts (trace (composition_loop plt analysis cs))
                  ++ match outcome (composition_loop plt analysis cs) with
                     | Raise _ => []
                     | Ok _ =>
                         match generate_analysis_report now analysis with
                         | Raise _ => []
                         | Ok report =>
                             [WriteText
                                (get_output_path analysis "financial_analysis_report.txt")
                                report]
                         end
                     end
              end
       end /\
  outcome (visualize_and_report plt now analysis cs) =
    match outcome (plot_current_ratio_comparison plt analysis) with
    | Raise e => Raise e
    | Ok _ =>
        match outcome (plot_debt_ratio_radar plt analysis) with
        | Raise e => Raise e
        | Ok _ =>
            match outcome (composition_loop plt analysis cs) with
            | Raise e => Raise e
            | Ok _ =>
                match generate_analysis_report now analysis with
                | Raise e => Raise e
                | Ok _ => Ok tt
                end
            end
        end
    end.
Proof.
  unfold visualize_and_report.
  rewrite !artifacts_bind_print, !outcome_bind_print.
  rewrite artifacts_bind, outcome_bind.
  destruct (outcome (plot_current_ratio_comparison plt analysis)) as [p|e];
    [|split; reflexivity].
  rewrite artifacts_bind_saved, outcome_bind_saved.
  rewrite artifacts_bind_print, outcome_bind_print.
  rewrite artifacts_bind, outcome_bind.
  destruct (outcome (plot_debt_ratio_radar plt analysis)) as [rp|e];
    [|split; reflexivity].
  rewrite artifacts_bind_saved, outcome_bind_saved.
  rewrite artifacts_bind_print, outcome_bind_print.
  rewrite artifacts_bind, outcome_bind.
  destruct (outcome (composition_loop plt analysis cs)) as [u|e];
    [|split; reflexivity].
  rewrite artifacts_bind_print, outcome_bind_print.
  destruct (generate_analysis_report now analysis) as [report|e];
    split; reflexivity.
Qed.

(** [run] ends normally whatever happens; an exception of the pipeline is
    reported in the last two messages. *)
Lemma run_spec yf plt now base cs :
  outcome (run yf plt now base cs) = Ok tt /\
  artifacts (trace (run yf plt now base cs)) =
    artifacts (trace (visualize_and_report plt now (analysis_after yf base cs) cs)) /\
  (forall e,
      outcome (visualize_and_report plt now (analysis_after yf base cs) cs) = Raise e ->
      exists t,
        trace (run yf plt now base cs) =
        t ++ [Print (nl +++ "Program error: " +++ str_exn e); Print (format_exc e)]).
Proof.
  destruct (pipeline_unfold yf plt now base cs) as (pre & Hpre & Hpipe).
  unfold run. rewrite outcome_try_except, trace_try_except, Hpipe.
  cbn [trace outcome fst snd].
  set (V := visualize_and_report plt now (analysis_after yf base cs) cs).
  destruct (visualize_spec plt now (analysis_after yf base cs) cs) as [_ Hout].
  fold V in Hout.
  split; [|split].
  - destruct (outcome V) as [[]|e]; reflexivity.
  - rewrite !artifacts_app, Hpre.
    destruct (outcome V); cbn; now rewrite app_nil_r.
  - intros e He. rewrite He. eexists. reflexivity.
Qed.

Lemma draws_no_writes t : Forall is_draw t -> writes t = [].
Proof.
  induction 1 as [|eff t [a ->] _ IH]; [reflexivity | exact IH].
Qed.

(** A line chart that raises has written nothing. *)
Lemma line_raise_no_writes plt self e :
  outcome (plot_current_ratio_comparison plt self) = Raise e ->
  writes (trace (plot_current_ratio_comparison plt self)) = [].
Proof.
  rewrite line_unfold.
  assert (Hd : writes (trace (line_loop plt self (companies self))) = []).
  { apply draws_no_writes. eapply Forall_impl; [|apply line_loop_draws].
    intros eff (c & rt & _ & _ & ->). eexists. reflexivity. }
  destruct (plt CallFigure); [reflexivity|]. cbn zeta.
  destruct (outcome (line_loop plt self (companies self))).
  - destruct (plt (CallSave _)); cbn [outcome trace fst snd]; [|discriminate].
    intros _. exact Hd.
  - intros _. exact Hd.
Qed.

(** A radar chart that raises has written nothing. *)
Lemma radar_raise_no_writes plt self e :
  outcome (plot_debt_ratio_radar plt self) = Raise e ->
  writes (trace (plot_debt_ratio_radar plt self)) = [].
Proof.
  destruct (available_companies self) as [|first rest] eqn:Hav.
  - unfold plot_debt_ratio_radar. rewrite Hav. discriminate.
  - assert (Hfirst : In first (available_companies self))
      by (rewrite Hav; now left).
    apply available_companies_in in Hfirst. destruct Hfirst as [_ [rt0 Hrt0]].
    destruct (first_period (rt_index rt0)) as [d|e'] eqn:Ed.
    + rewrite (radar_unfold plt self first rest rt0 d Hav Hrt0 Ed).
      pose proof (draws_no_writes _
                    (radar_loop_draws plt self d (List.length (first :: rest))
                       (first :: rest) 0)) as Hd.
      destruct (plt CallFigure); [reflexivity|]. cbn zeta.
      destruct (outcome (radar_loop _ _ _ _ _ _)).
      * destruct (plt (CallSave _)); cbn [outcome trace fst snd]; [|discriminate].
        intros _. exact Hd.
      * intros _. exact Hd.
    + unfold plot_debt_ratio_radar. rewrite Hav.
      unfold ratios_of. rewrite Hrt0, bind_lift_ok, Ed. reflexivity.
Qed.

(** The composition chart of a company never raises when the sheet held
    for it (if any) has a period. *)
Lemma composition_never_raises plt self company :
  (forall bs, Dict.get company (balance_sheets self) = Some bs ->
              exists d, first_period (df_columns bs) = Ok d) ->
  exists r, outcome (plot_balance_sheet_composition plt self company) = Ok r.
Proof.
  intros Hne.
  destruct (Dict.get company (balance_sheets self)) as [bs|] eqn:Eget.
  - destruct (Hne bs eq_refl) as [d Hd].
    rewrite (composition_contained plt self company bs d Eget Hd).
    destruct (outcome (composition_body _ _ _ _ _)); eexists; reflexivity.
  - unfold plot_balance_sheet_composition. rewrite Eget.
    eexists. reflexivity.
Qed.

(** The loop over the companies visits every company, whatever happened
    to the charts before it. *)
Lemma composition_loop_total plt self cs :
  (forall company bs,
      In company cs ->
      Dict.get company (balance_sheets self) = Some bs ->
      exists d, first_period (df_columns bs) = Ok d) ->
  outcome (composition_loop plt self cs) = Ok tt /\
  forall company,
    In company cs ->
    incl (trace (plot_balance_sheet_composition plt self company))
         (trace (composition_loop plt self cs)).
Proof.
  induction cs as [|c cs IH]; intros Hne.
  - split; [reflexivity | intros company []].
  - destruct (composition_never_raises plt self c) as [r Hr].
    { intros bs. apply Hne. now left. }
    destruct IH as [IHout IHincl].
    { intros company bs Hin. apply Hne. now right. }
    cbn [composition_loop].
    rewrite outcome_bind, trace_bind, Hr.
    rewrite outcome_bind, trace_bind, print_saved_outcome.
    split; [exact IHout|].
    intros company [<-|Hin].
    + apply incl_appl, incl_refl.
    + apply incl_appr, incl_appr, IHincl, Hin.
Qed.

(** ** The report is produced for well-formed data *)

Lemma compute_ratios_wf bs rt :
  df_wf bs -> compute_ratios bs = Ok rt ->
  rt_wf rt /\ rt_index rt = df_columns bs.
Proof.
  intros Hwf Hrt. apply compute_ratios_inv in Hrt.
  destruct Hrt as (ca & cl & inv & ta & tl & se & Hca & Hcl & Hinv & Hta & Htl
                   & Hse & ->).
  apply (df_loc_wf _ _ _ Hwf) in Hca, Hcl, Hta, Htl, Hse.
  split; [|reflexivity].
  unfold rt_wf, series_div.
  cbn [rt_index Current_Ratio Quick_Ratio Debt_to_Assets Equity_Multiplier].
  rewrite !map2_length, Hca, Hcl, Hta, Htl, Hse.
  repeat split; try apply Nat.min_id.
  destruct Hinv as [[_ ->]|(row & Hrow & ->)]; cbn [series_sub].
  - rewrite length_map, Hca. apply Nat.min_id.
  - apply (df_loc_wf _ _ _ Hwf) in Hrow.
    rewrite map2_length, Hca, Hrow, !Nat.min_id. reflexivity.
Qed.

Lemma company_section_total company rt p ps :
  rt_wf rt -> rt_index rt = p :: ps ->
  exists section, company_section company rt = Ok section.
Proof.
  intros (Hc & Hq & Hd & He) Hidx. unfold company_section, latest_ratios_of.
  rewrite Hidx. cbn [first_period rbind]. rewrite <- Hidx.
  assert (Hp : existsb (String.eqb p) (rt_index rt) = true)
    by (rewrite Hidx; simpl; now rewrite String.eqb_refl).
  destruct (series_at_present _ _ p Hc Hp) as [c ->].
  destruct (series_at_present _ _ p Hq Hp) as [q ->].
  destruct (series_at_present _ _ p Hd Hp) as [d ->].
  destruct (series_at_present _ _ p He Hp) as [e ->].
  cbn [rbind]. eexists. reflexivity.
Qed.

Lemma report_sections_total self cs :
  (forall company rt,
      Dict.get company (ratios self) = Some rt ->
      rt_wf rt /\ exists p ps, rt_index rt = p :: ps) ->
  exists sections, report_sections self cs = Ok sections.
Proof.
  intros Hwf. induction cs as [|c cs [rest IH]]; cbn [report_sections].
  - eexists. reflexivity.
  - destruct (Dict.get c (ratios self)) as [rt|] eqn:Eget; [|eauto].
    destruct (Hwf c rt Eget) as (Hrt & p & ps & Hidx).
    destruct (company_section_total c rt p ps Hrt Hidx) as [section ->].
    rewrite IH. cbn [rbind]. eexists. reflexivity.
Qed.

(** With well-formed tables from the provider, the report of a run is
    always produced. *)
Lemma report_total yf now base cs :
  (forall company bs, yf company = Ok bs -> df_wf bs) ->
  exists report,
    generate_analysis_report now (analysis_after yf base cs) = Ok report.
Proof.
  intros Hwf. unfold generate_analysis_report.
  destruct (report_sections_total (analysis_after yf base cs)
              (companies (analysis_after yf base cs))) as [sections ->].
  - intros company rt Hrt. rewrite analysis_after_ratio in Hrt.
    destruct (Dict.get company (balance_sheets (analysis_after yf base cs)))
      as [bs|] eqn:Ebs; [|discriminate].
    destruct (compute_ratios bs) as [rt'|] eqn:Ert; [|discriminate].
    injection Hrt as ->.
    destruct (analysis_after_sheet_nonempty _ _ _ _ _ Ebs) as (Hyf & d & Hd).
    destruct (compute_ratios_wf bs rt (Hwf _ _ Hyf) Ert) as [Hrt Hidx].
    split; [exact Hrt|]. rewrite Hidx.
    destruct (df_columns bs) as [|p ps]; [discriminate | eauto].
  - cbn [rbind]. eexists. reflexivity.
Qed.

(** ** C9 *)

(** C9, as stated, fails.  When the backend fails while the line chart
    is drawn, the run ends there: nothing is written, neither the other
    charts nor the report, although the same run with a working backend
    writes four files.  Likewise when the radar chart raises (here on two
    companies whose latest periods differ): only the line chart has been
    written. *)
Lemma chart_failure_stops_run :
  outcome (plot_current_ratio_comparison plt_no_lines
             (analysis_after sample_provider "/app" ["ACME"]))
    = Raise (Exception "render failure") /\
  writes (trace (run sample_provider plt_no_lines "2024-11-01 09:00:00" "/app"
                     ["ACME"])) = [] /\
  map (fun eff => match eff with
                  | SaveFig path _ | WriteText path _ => path
                  | _ => ""
                  end)
      (writes (trace (run sample_provider plt_ok "2024-11-01 09:00:00" "/app"
                          ["ACME"])))
    = [ "/app/output/plots/current_ratio_comparison.png";
        "/app/output/plots/debt_ratio_radar.png";
        "/app/output/plots/ACME_balance_sheet_composition.png";
        "/app/output/financial_analysis_report.txt" ] /\
  outcome (plot_debt_ratio_radar plt_ok
             (analysis_after sample_provider "/app" ["ACME"; "BORE"]))
    = Raise (KeyError "Timestamp('2024-09-30 00:00:00')") /\
  map (fun eff => match eff with
                  | SaveFig path _ | WriteText path _ => path
                  | _ => ""
                  end)
      (writes (trace (run sample_provider plt_ok "2024-11-01 09:00:00" "/app"
                          ["ACME"; "BORE"])))
    = [ "/app/output/plots/current_ratio_comparison.png" ].
Proof.
  repeat split; vm_compute; reflexivity.
Qed.

Lemma writes_run yf plt now base cs :
  writes (trace (run yf plt now base cs)) =
  writes (artifacts
            (trace (visualize_and_report plt now (analysis_after yf base cs) cs))).
Proof.
  destruct (run_spec yf plt now base cs) as (_ & Hart & _).
  now rewrite <- Hart, writes_of_artifacts.
Qed.

(** C9, amended.  Only the composition charts are guarded: an exception
    raised in the drawing block of one company's composition chart is
    caught and reported there, the chart returns [None], every other
    company is still visited, and (the line and radar charts having
    returned) the report is written.  An exception raised while the line
    chart or the radar chart is drawn is not caught by the chart: it
    reaches the handler of the run, which reports it in the last two
    messages, and nothing more is written (after a line chart failure no
    file at all, after a radar failure only the line chart). *)
Theorem chart_failure_containment
  (yf : Provider) (plt : Backend) (now base : string) (cs : list string)
  (analysis : FinancialAnalysis) :
  analysis = analysis_after yf base cs ->
  outcome (run yf plt now base cs) = Ok tt /\
  (outcome (composition_loop plt analysis cs) = Ok tt /\
   forall company,
     In company cs ->
     incl (trace (plot_balance_sheet_composition plt analysis company))
          (trace (composition_loop plt analysis cs)) /\
     forall bs latest_date e,
       Dict.get company (balance_sheets analysis) = Some bs ->
       first_period (df_columns bs) = Ok latest_date ->
       outcome (composition_body plt analysis company bs latest_date) = Raise e ->
       outcome (plot_balance_sheet_composition plt analysis company) = Ok None /\
       In (Print ("Error plotting balance sheet composition for " +++ company
                  +++ ": " +++ str_exn e))
          (trace (plot_balance_sheet_composition plt analysis company))) /\
  (forall p rp report,
      outcome (plot_current_ratio_comparison plt analysis) = Ok p ->
      outcome (plot_debt_ratio_radar plt analysis) = Ok rp ->
      generate_analysis_report now analysis = Ok report ->
      In (WriteText (get_output_path analysis "financial_analysis_report.txt") report)
         (trace (run yf plt now base cs))) /\
  (forall e,
      outcome (plot_current_ratio_comparison plt analysis) = Raise e ->
      writes (trace (run yf plt now base cs)) = [] /\
      exists t,
        trace (run yf plt now base cs) =
        t ++ [Print (nl +++ "Program error: " +++ str_exn e); Print (format_exc e)]) /\
  (forall p e,
      outcome (plot_current_ratio_comparison plt analysis) = Ok p ->
      outcome (plot_debt_ratio_radar plt analysis) = Raise e ->
      writes (trace (run yf plt now base cs)) =
        writes (trace (plot_current_ratio_comparison plt analysis)) /\
      exists t,
        trace (run yf plt now base cs) =
        t ++ [Print (nl +++ "Program error: " +++ str_exn e); Print (format_exc e)]).
Proof.
  intros ->.
  destruct (run_spec yf plt now base cs) as (Hout & Hart & Herr).
  destruct (visualize_spec plt now (analysis_after yf base cs) cs) as [Hva Hvo].
  destruct (composition_loop_total plt (analysis_after yf base cs) cs)
    as [Hloop Hincl].
  { intros company bs _ Hget.
    now destruct (analysis_after_sheet_nonempty _ _ _ _ _ Hget). }
  split; [exact Hout|]. split; [|split; [|split]].
  - split; [exact Hloop|]. intros company Hin. split; [now apply Hincl|].
    intros bs d e Hget Hd He.
    rewrite (composition_contained _ _ _ _ _ Hget Hd), He.
    split; [reflexivity|]. cbn [trace fst]. apply in_or_app. right. now left.
  - intros p rp report HL HR HG.
    assert (H : In (WriteText
                      (get_output_path (analysis_after yf base cs)
                         "financial_analysis_report.txt") report)
                   (artifacts (trace (run yf plt now base cs)))).
    { rewrite Hart, Hva, HL, HR, Hloop, HG.
      apply in_or_app. right. apply in_or_app. right. apply in_or_app. right.
      now left. }
    unfold artifacts in H. apply filter_In in H. exact (proj1 H).
  - intros e HL. split.
    + rewrite writes_run, Hva, HL, app_nil_r, writes_of_artifacts.
      exact (line_raise_no_writes _ _ _ HL).
    + apply Herr. now rewrite Hvo, HL.
  - intros p e HL HR. split.
    + rewrite writes_run, Hva, HL, HR, app_nil_r, writes_app, !writes_of_artifacts.
      rewrite (radar_raise_no_writes _ _ _ HR). apply app_nil_r.
    + apply Herr. now rewrite Hvo, HL, HR.
Qed.

Lemma chart_failure_containment_witness :
  outcome (run sample_provider plt_no_pies "2024-11-01 09:00:00" "/app"
               ["ACME"; "PART"]) = Ok tt /\
  forall p rp report,
    outcome (plot_current_ratio_comparison plt_no_pies
               (analysis_after sample_provider "/app" ["ACME"; "PART"])) = Ok p ->
    outcome (plot_debt_ratio_radar plt_no_pies
               (analysis_after sample_provider "/app" ["ACME"; "PART"])) = Ok rp ->
    generate_analysis_report "2024-11-01 09:00:00"
      (analysis_after sample_provider "/app" ["ACME"; "PART"]) = Ok report ->
    In (WriteText
          (get_output_path (analysis_after sample_provider "/app" ["ACME"; "PART"])
             "financial_analysis_report.txt") report)
       (trace (run sample_provider plt_no_pies "2024-11-01 09:00:00" "/app"
                   ["ACME"; "PART"])).
Proof.
  destruct (chart_failure_containment sample_provider plt_no_pies
              "2024-11-01 09:00:00" "/app" ["ACME"; "PART"]
              (analysis_after sample_provider "/app" ["ACME"; "PART"]) eq_refl)
    as (H1 & _ & H2 & _).
  split; [exact H1 | exact H2].
Defined.

(** ** Leaving a company without data out of the list *)

Lemma fetched_sheets_app yf l1 l2 :
  forall d,
    fetched_sheets yf (l1 ++ l2) d = fetched_sheets yf l2 (fetched_sheets yf l1 d).
Proof.
  induction l1 as [|c l1 IH]; intros d; [reflexivity|].
  cbn [app fetched_sheets]. apply IH.
Qed.

Lemma fetched_sheets_remove yf l1 company l2 bs d :
  yf company = Ok bs -> df_empty bs = true ->
  fetched_sheets yf (l1 ++ company :: l2) d = fetched_sheets yf (l1 ++ l2) d.
Proof.
  intros Hyf Hempty. rewrite !fetched_sheets_app.
  cbn [fetched_sheets]. now rewrite Hyf, Hempty.
Qed.

Lemma line_loop_ext plt s1 s2 cs :
  ratios s1 = ratios s2 -> line_loop plt s1 cs = line_loop plt s2 cs.
Proof.
  intros Hr. induction cs as [|c cs IH]; [reflexivity|].
  now rewrite !line_loop_step, Hr, IH.
Qed.

Lemma line_loop_skip plt self l1 company l2 :
  Dict.get company (ratios self) = None ->
  line_loop plt self (l1 ++ company :: l2) = line_loop plt self (l1 ++ l2).
Proof.
  intros Hnone. induction l1 as [|c l1 IH]; cbn [app].
  - now rewrite line_loop_step, Hnone.
  - now rewrite !line_loop_step, IH.
Qed.

Lemma radar_loop_ext plt s1 s2 p n cs :
  ratios s1 = ratios s2 ->
  forall i, radar_loop plt s1 p n i cs = radar_loop plt s2 p n i cs.
Proof.
  intros Hr. induction cs as [|c cs IH]; intros i; [reflexivity|].
  rewrite !radar_loop_step. unfold ratios_of. now rewrite Hr, IH.
Qed.

Lemma radar_ext plt s1 s2 :
  ratios s1 = ratios s2 ->
  plots_dir s1 = plots_dir s2 ->
  available_companies s1 = available_companies s2 ->
  plot_debt_ratio_radar plt s1 = plot_debt_ratio_radar plt s2.
Proof.
  intros Hr Hdir Hav. unfold plot_debt_ratio_radar, get_plot_path, ratios_of.
  rewrite Hav, Hr, Hdir.
  destruct (available_companies s2) as [|first rest]; [reflexivity|].
  destruct (Dict.get first (ratios s2)) as [rt0|]; [|reflexivity].
  rewrite !bind_lift_ok.
  destruct (first_period (rt_index rt0)) as [d|]; [|reflexivity].
  rewrite !bind_lift_ok.
  now rewrite (radar_loop_ext plt s1 s2 d _ _ Hr).
Qed.

Lemma filter_skip {A} (f : A -> bool) l1 x l2 :
  f x = false -> filter f (l1 ++ x :: l2) = filter f (l1 ++ l2).
Proof.
  intros Hx. rewrite !filter_app. cbn [filter]. now rewrite Hx.
Qed.

Lemma composition_loop_ext plt s1 s2 cs :
  balance_sheets s1 = balance_sheets s2 ->
  plots_dir s1 = plots_dir s2 ->
  composition_loop plt s1 cs = composition_loop plt s2 cs.
Proof.
  intros Hbs Hdir. induction cs as [|c cs IH]; [reflexivity|].
  cbn [composition_loop].
  now rewrite (composition_ext plt s2 s1 c Hbs Hdir), IH.
Qed.

Lemma composition_loop_skip plt self l1 company l2 :
  Dict.get company (balance_sheets self) = None ->
  artifacts (trace (composition_loop plt self (l1 ++ company :: l2))) =
    artifacts (trace (composition_loop plt self (l1 ++ l2))) /\
  outcome (composition_loop plt self (l1 ++ company :: l2)) =
    outcome (composition_loop plt self (l1 ++ l2)).
Proof.
  intros Hnone. induction l1 as [|c l1 [IHa IHo]]; cbn [app composition_loop].
  - assert (Hc : plot_balance_sheet_composition plt self company =
                 ([Print ("No data available for " +++ company)], Ok None))
      by (unfold plot_balance_sheet_composition; now rewrite Hnone).
    rewrite Hc, bind_effect. cbn [print_saved].
    rewrite bind_ret. auto.
  - rewrite !artifacts_bind, !outcome_bind.
    destruct (outcome (plot_balance_sheet_composition plt self c)) as [r|e];
      [|auto].
    rewrite !artifacts_bind_saved, !outcome_bind_saved, IHa, IHo. auto.
Qed.

Lemma report_sections_ext s1 s2 cs :
  ratios s1 = ratios s2 -> report_sections s1 cs = report_sections s2 cs.
Proof.
  intros Hr. induction cs as [|c cs IH]; [reflexivity|].
  cbn [report_sections]. now rewrite Hr, IH.
Qed.

Lemma report_sections_skip self l1 company l2 :
  Dict.get company (ratios self) = None ->
  report_sections self (l1 ++ company :: l2) = report_sections self (l1 ++ l2).
Proof.
  intros Hnone. induction l1 as [|c l1 IH]; cbn [app report_sections].
  - now rewrite Hnone.
  - now rewrite IH.
Qed.

(** A company whose table comes back empty is held nowhere after the
    first half of the run. *)
Lemma empty_company_not_held yf base cs company bs :
  yf company = Ok bs -> df_empty bs = true ->
  Dict.get company (balance_sheets (analysis_after yf base cs)) = None /\
  Dict.get company (ratios (analysis_after yf base cs)) = None.
Proof.
  intros Hyf Hempty.
  assert (H : Dict.get company (balance_sheets (analysis_after yf base cs)) = None).
  { cbn [analysis_after with_ratios with_sheets balance_sheets].
    apply fetched_sheets_skip; [|reflexivity].
    intros bs' Hbs'. congruence. }
  split; [exact H|]. now rewrite analysis_after_ratio, H.
Qed.

(** The run over a list with such a company leaves the same artifacts as
    the run over the list without it. *)
Lemma run_without_empty_company yf plt now base l1 company l2 bs :
  yf company = Ok bs -> df_empty bs = true ->
  artifacts (trace (run yf plt now base (l1 ++ company :: l2))) =
  artifacts (trace (run yf plt now base (l1 ++ l2))).
Proof.
  intros Hyf Hempty.
  destruct (run_spec yf plt now base (l1 ++ company :: l2)) as (_ & -> & _).
  destruct (run_spec yf plt now base (l1 ++ l2)) as (_ & -> & _).
  set (A1 := analysis_after yf base (l1 ++ company :: l2)).
  set (A2 := analysis_after yf base (l1 ++ l2)).
  destruct (empty_company_not_held yf base (l1 ++ company :: l2) company bs
              Hyf Hempty) as [Hsheet Hratio].
  fold A1 in Hsheet, Hratio.
  assert (Hbs : balance_sheets A1 = balance_sheets A2).
  { cbn [A1 A2 analysis_after with_ratios with_sheets balance_sheets].
    now apply fetched_sheets_remove with (bs := bs). }
  assert (Hr : ratios A1 = ratios A2).
  { cbn [A1 A2 analysis_after with_ratios with_sheets balance_sheets ratios].
    now rewrite (fetched_sheets_remove yf l1 company l2 bs _ Hyf Hempty). }
  assert (Hpd : plots_dir A1 = plots_dir A2) by reflexivity.
  assert (Hod : output_dir A1 = output_dir A2) by reflexivity.
  assert (Hmem : Dict.mem company (ratios A1) = false)
    by now apply dict_mem_false.
  assert (HL : plot_current_ratio_comparison plt A1 =
               plot_current_ratio_comparison plt A2).
  { rewrite !line_unfold. unfold get_plot_path. rewrite Hpd.
    change (companies A1) with (l1 ++ company :: l2).
    change (companies A2) with (l1 ++ l2).
    now rewrite (line_loop_skip plt A1 l1 company l2 Hratio),
      (line_loop_ext plt A1 A2 _ Hr). }
  assert (HR : plot_debt_ratio_radar plt A1 = plot_debt_ratio_radar plt A2).
  { apply radar_ext; [exact Hr | exact Hpd |].
    unfold available_companies.
    change (companies A1) with (l1 ++ company :: l2).
    change (companies A2) with (l1 ++ l2).
    rewrite filter_skip by exact Hmem. now rewrite Hr. }
  destruct (composition_loop_skip plt A1 l1 company l2 Hsheet) as [HCa HCo].
  rewrite (composition_loop_ext plt A1 A2 (l1 ++ l2) Hbs Hpd) in HCa, HCo.
  assert (HG : generate_analysis_report now A1 = generate_analysis_report now A2).
  { unfold generate_analysis_report.
    change (companies A1) with (l1 ++ company :: l2).
    change (companies A2) with (l1 ++ l2).
    now rewrite (report_sections_skip A1 l1 company l2 Hratio),
      (report_sections_ext A1 A2 _ Hr). }
  destruct (visualize_spec plt now A1 (l1 ++ company :: l2)) as [-> _].
  destruct (visualize_spec plt now A2 (l1 ++ l2)) as [-> _].
  unfold get_output_path. now rewrite HL, HR, HCa, HCo, HG, Hod.
Qed.

(** ** C7 *)

(** C7.  The report has one section per company of the input list that
    has an entry in the ratio table, in the order of the list: its text
    is the header followed by the strings of these sections, and each
    section is the one computed from the ratio table of its company and
    begins with the heading of that company.  A company whose fetched
    table is empty gets no balance-sheet entry and no ratio-table entry;
    it has no line in the line chart, no polygon in the radar chart, no
    composition chart (only the message 'No data available') and no
    section in the report; and the run leaves the same artifacts (backend
    calls, images, report) as the run over the list without that
    company.  With well-formed tables from the provider the report is
    produced. *)
Theorem empty_table_company_is_excluded
  (yf : Provider) (plt : Backend) (now base : string)
  (l1 l2 : list string) (company : string) (bs : DataFrame)
  (analysis : FinancialAnalysis) :
  yf company = Ok bs ->
  df_empty bs = true ->
  analysis = analysis_after yf base (l1 ++ company :: l2) ->
  (forall self sections,
      report_sections self (companies self) = Ok sections ->
      map fst sections =
        filter (fun c => Dict.mem c (ratios self)) (companies self) /\
      Forall2 (fun listed entry =>
                 fst entry = listed /\
                 exists rt rest,
                   Dict.get listed (ratios self) = Some rt /\
                   company_section listed rt = Ok (snd entry) /\
                   snd entry = section_heading listed :: rest)
              (filter (fun c => Dict.mem c (ratios self)) (companies self))
              sections /\
      generate_analysis_report now self =
        Ok (String.concat "" (report_header now ++ flat_map snd sections))) /\
  ((forall c b, yf c = Ok b -> df_wf b) ->
   exists sections,
     report_sections analysis (companies analysis) = Ok sections /\
     generate_analysis_report now analysis =
       Ok (String.concat "" (report_header now ++ flat_map snd sections)) /\
     forall listed rt,
       In listed (l1 ++ l2) ->
       Dict.get listed (ratios analysis) = Some rt ->
       exists section,
         In (listed, section) sections /\
         company_section listed rt = Ok section) /\
  Dict.get company (balance_sheets analysis) = None /\
  Dict.get company (ratios analysis) = None /\
  (forall dates values,
      ~ In (Draw (Line company dates values))
           (trace (plot_current_ratio_comparison plt analysis))) /\
  (forall colour values,
      ~ In (Draw (Polygon company colour values))
           (trace (plot_debt_ratio_radar plt analysis))) /\
  plot_balance_sheet_composition plt analysis company =
    ([Print ("No data available for " +++ company)], Ok None) /\
  (forall sections,
      report_sections analysis (companies analysis) = Ok sections ->
      ~ In company (map fst sections)) /\
  artifacts (trace (run yf plt now base (l1 ++ company :: l2))) =
  artifacts (trace (run yf plt now base (l1 ++ l2))).
Proof.
  intros Hyf Hempty ->.
  destruct (empty_company_not_held yf base (l1 ++ company :: l2) company bs
              Hyf Hempty) as [Hsheet Hratio].
  split.
  { intros self sections Hsec. split; [now apply report_sections_names|].
    split; [now apply report_sections_ordered|].
    unfold generate_analysis_report. now rewrite Hsec. }
  split.
  { intros Hwf.
    destruct (report_total yf now base (l1 ++ company :: l2) Hwf) as [report Hrep].
    unfold generate_analysis_report in *.
    destruct (report_sections (analysis_after yf base (l1 ++ company :: l2))
                (companies (analysis_after yf base (l1 ++ company :: l2))))
      as [sections|] eqn:Hsec; [|discriminate].
    exists sections. split; [reflexivity|]. split; [reflexivity|].
    intros listed rt Hin Hget.
    apply (report_sections_covers _ _ _ _ _ Hsec); [|exact Hget].
    change (In listed (l1 ++ company :: l2)).
    apply in_app_iff in Hin. apply in_app_iff.
    destruct Hin as [Hin|Hin]; [now left | right; now right]. }
  split; [exact Hsheet|]. split; [exact Hratio|].
  split; [|split; [|split; [|split]]].
  - intros dates values Hin. apply line_chart_labels in Hin.
    destruct Hin as [_ [rt Hrt]]. congruence.
  - intros colour values Hin. apply radar_chart_labels in Hin.
    destruct Hin as [_ [rt Hrt]]. congruence.
  - unfold plot_balance_sheet_composition. now rewrite Hsheet.
  - intros sections Hsec Hin.
    rewrite (report_sections_names _ _ _ Hsec) in Hin.
    apply filter_In in Hin. destruct Hin as [_ Hmem].
    apply dict_mem_true in Hmem. destruct Hmem as [rt Hrt]. congruence.
  - now apply run_without_empty_company with (bs := bs).
Qed.

(** Three companies, the second with an empty table: the report has the
    sections of the first and of the third, in this order. *)
Lemma empty_table_company_is_excluded_witness :
  Dict.get "VOID"
    (balance_sheets (analysis_after sample_provider "/app" ["BORE"; "VOID"; "ACME"]))
    = None /\
  Dict.get "VOID"
    (ratios (analysis_after sample_provider "/app" ["BORE"; "VOID"; "ACME"]))
    = None /\
  report_sections (analysis_after sample_provider "/app" ["BORE"; "VOID"; "ACME"])
                  ["BORE"; "VOID"; "ACME"] =
    Ok [("BORE", bore_section); ("ACME", acme_section)] /\
  generate_analysis_report "2024-11-01 09:00:00"
    (analysis_after sample_provider "/app" ["BORE"; "VOID"; "ACME"]) =
    Ok (String.concat ""
          (report_header "2024-11-01 09:00:00" ++ bore_section ++ acme_section)) /\
  artifacts (trace (run sample_provider plt_ok "2024-11-01 09:00:00" "/app"
                        (["BORE"] ++ "VOID" :: ["ACME"]))) =
  artifacts (trace (run sample_provider plt_ok "2024-11-01 09:00:00" "/app"
                        (["BORE"] ++ ["ACME"]))).
Proof.
  destruct (empty_table_company_is_excluded sample_provider plt_ok
              "2024-11-01 09:00:00" "/app" ["BORE"] ["ACME"] "VOID" empty_sheet
              (analysis_after sample_provider "/app" (["BORE"] ++ "VOID" :: ["ACME"]))
              eq_refl eq_refl eq_refl)
    as (Hreport & _ & H1 & H2 & _ & _ & _ & _ & H3).
  assert (Hsec : report_sections
            (analysis_after sample_provider "/app" ["BORE"; "VOID"; "ACME"])
            (companies
               (analysis_after sample_provider "/app" ["BORE"; "VOID"; "ACME"]))
            = Ok [("BORE", bore_section); ("ACME", acme_section)])
    by (vm_compute; reflexivity).
  destruct (Hreport _ _ Hsec) as (_ & _ & Htext).
  split; [exact H1|]. split; [exact H2|]. split; [exact Hsec|].
  split; [|exact H3].
  rewrite Htext. cbn [flat_map snd]. now rewrite app_nil_r.
Defined.

(* ================================================================== *)
(** * Further properties of the code *)

(** ** Data fetcher *)

Lemma fetched_sheets_origin yf cs :
  forall d company bs,
    Dict.get company (fetched_sheets yf cs d) = Some bs ->
    (In company cs /\ yf company = Ok bs /\ df_empty bs = false)
    \/ Dict.get company d = Some bs.
Proof.
  induction cs as [|c cs IH]; intros d company bs; cbn [fetched_sheets].
  - auto.
  - intros H. apply IH in H. destruct H as [(Hin & Hyf & Hne)|H].
    { left. repeat split; [now right | exact Hyf | exact Hne]. }
    destruct (yf c) as [bs'|e] eqn:Eyf; [|now right].
    destruct (df_empty bs') eqn:Eempty; [now right|].
    destruct (String.eqb company c) eqn:Ec.
    + apply String.eqb_eq in Ec. subst c.
      rewrite dict_get_set_same in H. injection H as <-.
      left. repeat split; [now left | exact Eyf | exact Eempty].
    + apply String.eqb_neq in Ec.
      rewrite dict_get_set_other in H by exact Ec. now right.
Qed.

Lemma fetched_sheets_keep yf cs company bs :
  yf company = Ok bs -> df_empty bs = false ->
  forall d, Dict.get company d = Some bs ->
            Dict.get company (fetched_sheets yf cs d) = Some bs.
Proof.
  intros Hyf Hne. induction cs as [|c cs IH]; intros d Hd; cbn [fetched_sheets].
  - exact Hd.
  - apply IH. destruct (yf c) as [bs'|e] eqn:Eyf; [|exact Hd].
    destruct (df_empty bs') eqn:Eempty; [exact Hd|].
    destruct (String.eqb company c) eqn:Ec.
    + apply String.eqb_eq in Ec. subst c.
      rewrite Hyf in Eyf. injection Eyf as <-. apply dict_get_set_same.
    + apply String.eqb_neq in Ec. now rewrite dict_get_set_other.
Qed.

Lemma fetched_sheets_hold yf cs company bs :
  In company cs -> yf company = Ok bs -> df_empty bs = false ->
  forall d, Dict.get company (fetched_sheets yf cs d) = Some bs.
Proof.
  intros Hin Hyf Hne. induction cs as [|c cs IH]; [destruct Hin|].
  intros d. cbn [fetched_sheets]. destruct Hin as [->|Hin].
  - rewrite Hyf, Hne. apply fetched_sheets_keep; [exact Hyf | exact Hne |].
    apply dict_get_set_same.
  - now apply IH.
Qed.

(** X1.  [fetch_data] on a fresh analysis object never raises and only
    prints.  Afterwards the object holds a sheet for a company exactly
    when the company is in the list and the provider returned a
    non-empty table for it, and the sheet held is that table; the keys
    are distinct, the list of companies and the (empty) ratio dictionary
    are untouched. *)
Theorem fetch_data_holds_nonempty_tables
  (yf : Provider) (cs : list string) (base : string) :
  exists self',
    outcome (fetch_data yf (init cs base)) = Ok self' /\
    artifacts (trace (fetch_data yf (init cs base))) = [] /\
    companies self' = cs /\
    ratios self' = Dict.empty /\
    NoDup (Dict.keys (balance_sheets self')) /\
    forall company bs,
      Dict.get company (balance_sheets self') = Some bs <->
      (In company cs /\ yf company = Ok bs /\ df_empty bs = false).
Proof.
  destruct (fetch_loop_spec yf cs (init cs base)) as [Hout Hart].
  eexists. split; [exact Hout|]. split; [exact Hart|].
  cbn [with_sheets companies ratios balance_sheets init].
  split; [reflexivity|]. split; [reflexivity|]. split.
  - apply fetched_sheets_nodup. constructor.
  - intros company bs. split.
    + intros H. apply fetched_sheets_origin in H.
      destruct H as [H|H]; [exact H | discriminate].
    + intros (Hin & Hyf & Hne). now apply fetched_sheets_hold.
Qed.

(** ** A company whose fetch fails *)

Lemma trace_fetch_one_failure yf self company e :
  yf company = Raise e ->
  fetch_one yf self company =
  ([Print ("Error fetching data for " +++ company +++ ": " +++ str_exn e)],
   Ok self).
Proof. intros H. unfold fetch_one. now rewrite H. Qed.

Lemma fetch_loop_visits yf cs company :
  In company cs ->
  forall self,
  exists self0,
    incl (trace (fetch_one yf self0 company)) (trace (fetch_loop yf cs self)).
Proof.
  induction cs as [|c cs IH]; [intros []|]. intros Hin self.
  cbn [fetch_loop]. rewrite trace_bind.
  destruct (fetch_one_spec yf self c) as [Hout _]. rewrite Hout.
  destruct Hin as [->|Hin].
  - exists self. apply incl_appl, incl_refl.
  - destruct (IH Hin (with_sheets self
                        (match yf c with
                         | Ok bs => if df_empty bs then balance_sheets self
                                    else Dict.set c bs (balance_sheets self)
                         | Raise _ => balance_sheets self
                         end))) as [self0 H0].
    exists self0. now apply incl_appr.
Qed.

Lemma run_includes_fetch yf plt now base cs :
  incl (trace (fetch_data yf (init cs base))) (trace (run yf plt now base cs)).
Proof.
  unfold run, pipeline. cbn zeta.
  rewrite trace_try_except. apply incl_appl.
  rewrite !bind_print. cbn [trace fst].
  apply incl_tl, incl_tl. rewrite trace_bind. apply incl_appl, incl_refl.
Qed.

Lemma fetched_sheets_drop yf l1 company l2 d :
  (forall bs, yf company = Ok bs -> df_empty bs = true) ->
  fetched_sheets yf (l1 ++ company :: l2) d = fetched_sheets yf (l1 ++ l2) d.
Proof.
  intros Hempty. rewrite !fetched_sheets_app. cbn [fetched_sheets].
  destruct (yf company) as [bs|e]; [|reflexivity].
  now rewrite (Hempty bs eq_refl).
Qed.

(** The run over a list with a company for which nothing is held leaves
    the artifacts of the run over the list without it. *)
Lemma run_without_unheld_company yf plt now base l1 company l2 :
  (forall bs, yf company = Ok bs -> df_empty bs = true) ->
  artifacts (trace (run yf plt now base (l1 ++ company :: l2))) =
  artifacts (trace (run yf plt now base (l1 ++ l2))).
Proof.
  intros Hempty.
  destruct (run_spec yf plt now base (l1 ++ company :: l2)) as (_ & -> & _).
  destruct (run_spec yf plt now base (l1 ++ l2)) as (_ & -> & _).
  assert (Hsheet : Dict.get company
            (balance_sheets (analysis_after yf base (l1 ++ company :: l2))) = None).
  { cbn [analysis_after with_ratios with_sheets balance_sheets].
    now apply fetched_sheets_skip. }
  assert (Hratio : Dict.get company
            (ratios (analysis_after yf base (l1 ++ company :: l2))) = None)
    by now rewrite analysis_after_ratio, Hsheet.
  set (A1 := analysis_after yf base (l1 ++ company :: l2)) in *.
  set (A2 := analysis_after yf base (l1 ++ l2)).
  assert (Hbs : balance_sheets A1 = balance_sheets A2).
  { cbn [A1 A2 analysis_after with_ratios with_sheets balance_sheets].
    now apply fetched_sheets_drop. }
  assert (Hr : ratios A1 = ratios A2).
  { cbn [A1 A2 analysis_after with_ratios with_sheets balance_sheets ratios].
    now rewrite (fetched_sheets_drop yf l1 company l2 _ Hempty). }
  assert (Hpd : plots_dir A1 = plots_dir A2) by reflexivity.
  assert (Hod : output_dir A1 = output_dir A2) by reflexivity.
  assert (Hmem : Dict.mem company (ratios A1) = false)
    by now apply dict_mem_false.
  assert (HL : plot_current_ratio_comparison plt A1 =
               plot_current_ratio_comparison plt A2).
  { rewrite !line_unfold. unfold get_plot_path. rewrite Hpd.
    change (companies A1) with (l1 ++ company :: l2).
    change (companies A2) with (l1 ++ l2).
    now rewrite (line_loop_skip plt A1 l1 company l2 Hratio),
      (line_loop_ext plt A1 A2 _ Hr). }
  assert (HR : plot_debt_ratio_radar plt A1 = plot_debt_ratio_radar plt A2).
  { apply radar_ext; [exact Hr | exact Hpd |].
    unfold available_companies.
    change (companies A1) with (l1 ++ company :: l2).
    change (companies A2) with (l1 ++ l2).
    rewrite filter_skip by exact Hmem. now rewrite Hr. }
  destruct (composition_loop_skip plt A1 l1 company l2 Hsheet) as [HCa HCo].
  rewrite (composition_loop_ext plt A1 A2 (l1 ++ l2) Hbs Hpd) in HCa, HCo.
  assert (HG : generate_analysis_report now A1 = generate_analysis_report now A2).
  { unfold generate_analysis_report.
    change (companies A1) with (l1 ++ company :: l2).
    change (companies A2) with (l1 ++ l2).
    now rewrite (report_sections_skip A1 l1 company l2 Hratio),
      (report_sections_ext A1 A2 _ Hr). }
  destruct (visualize_spec plt now A1 (l1 ++ company :: l2)) as [-> _].
  destruct (visualize_spec plt now A2 (l1 ++ l2)) as [-> _].
  unfold get_output_path. now rewrite HL, HR, HCa, HCo, HG, Hod.
Qed.

(** X2.  When the provider raises for a company, [fetch_data] reports
    'Error fetching data for ...' with the message of the exception and
    goes on: nothing is held for that company, and the run leaves the
    same backend calls, images and report as the run over the list
    without it. *)
Theorem failing_fetch_is_isolated
  (yf : Provider) (plt : Backend) (now base : string)
  (l1 l2 : list string) (company : string) (e : exn) :
  yf company = Raise e ->
  In (Print ("Error fetching data for " +++ company +++ ": " +++ str_exn e))
     (trace (run yf plt now base (l1 ++ company :: l2))) /\
  Dict.get company
    (balance_sheets (analysis_after yf base (l1 ++ company :: l2))) = None /\
  Dict.get company
    (ratios (analysis_after yf base (l1 ++ company :: l2))) = None /\
  artifacts (trace (run yf plt now base (l1 ++ company :: l2))) =
  artifacts (trace (run yf plt now base (l1 ++ l2))).
Proof.
  intros Hyf.
  assert (Hempty : forall bs, yf company = Ok bs -> df_empty bs = true)
    by (intros bs H; congruence).
  assert (Hsheet : Dict.get company
            (balance_sheets (analysis_after yf base (l1 ++ company :: l2))) = None).
  { cbn [analysis_after with_ratios with_sheets balance_sheets].
    now apply fetched_sheets_skip. }
  split; [|split; [exact Hsheet|split]].
  - apply (run_includes_fetch yf plt now base (l1 ++ company :: l2)).
    destruct (fetch_loop_visits yf (l1 ++ company :: l2) company
                (in_elt company l1 l2) (init (l1 ++ company :: l2) base))
      as [self0 Hincl].
    apply Hincl. rewrite (trace_fetch_one_failure yf self0 company e Hyf).
    now left.
  - now rewrite analysis_after_ratio, Hsheet.
  - now apply run_without_unheld_company.
Qed.

Lemma failing_fetch_is_isolated_witness :
  In (Print "Error fetching data for GONE: No data found, symbol may be delisted")
     (trace (run sample_provider plt_ok "2024-11-01 09:00:00" "/app"
                 (["ACME"] ++ "GONE" :: ["BORE"]))) /\
  artifacts (trace (run sample_provider plt_ok "2024-11-01 09:00:00" "/app"
                        (["ACME"] ++ "GONE" :: ["BORE"]))) =
  artifacts (trace (run sample_provider plt_ok "2024-11-01 09:00:00" "/app"
                        (["ACME"] ++ ["BORE"]))).
Proof.
  destruct (failing_fetch_is_isolated sample_provider plt_ok
              "2024-11-01 09:00:00" "/app" ["ACME"] ["BORE"] "GONE"
              (Exception "No data found, symbol may be delisted") eq_refl)
    as (H1 & _ & _ & H2).
  split; [exact H1 | exact H2].
Defined.

(** ** Ratio calculator *)

Lemma df_loc_missing bs label :
  index_contains bs label = false ->
  df_loc bs label = Raise (KeyError (repr_str label)).
Proof.
  intros H. unfold df_loc.
  destruct (Dict.get label (df_rows bs)) as [row|] eqn:E; [|reflexivity].
  assert (Hc : index_contains bs label = true).
  { apply index_contains_loc. exists row. unfold df_loc. now rewrite E. }
  congruence.
Qed.

Lemma df_loc_present bs label :
  index_contains bs label = true -> exists row, df_loc bs label = Ok row.
Proof. apply index_contains_loc. Qed.

(** The exception of [compute_ratios] names the first required line
    item, in reading order, that the sheet lacks. *)
Lemma compute_ratios_first_missing bs label :
  first_missing bs required_items = Some label ->
  compute_ratios bs = Raise (KeyError (repr_str label)).
Proof.
  unfold first_missing, required_items, compute_ratios. cbn [find].
  destruct (index_contains bs "Current Assets") eqn:E1; cbn [negb].
  2:{ intros [= <-]. now rewrite (df_loc_missing _ _ E1). }
  destruct (df_loc_present _ _ E1) as [ca ->]. cbn [rbind].
  destruct (index_contains bs "Current Liabilities") eqn:E2; cbn [negb].
  2:{ intros [= <-]. now rewrite (df_loc_missing _ _ E2). }
  destruct (df_loc_present _ _ E2) as [cl ->]. cbn [rbind].
  assert (Hinv : exists inv,
             (if index_contains bs "Inventory"
              then rbind (df_loc bs "Inventory") (fun row => Ok (Row row))
              else Ok (Scalar (of_Z 0))) = Ok inv).
  { destruct (index_contains bs "Inventory") eqn:Ei; [|eauto].
    destruct (df_loc_present _ _ Ei) as [row ->]. cbn [rbind]. eauto. }
  destruct Hinv as [inv ->]. cbn [rbind].
  destruct (index_contains bs "Total Assets") eqn:E3; cbn [negb].
  2:{ intros [= <-]. now rewrite (df_loc_missing _ _ E3). }
  destruct (df_loc_present _ _ E3) as [ta ->]. cbn [rbind].
  destruct (index_contains bs "Total Liabilities Net Minority Interest") eqn:E4;
    cbn [negb].
  2:{ intros [= <-]. now rewrite (df_loc_missing _ _ E4). }
  destruct (df_loc_present _ _ E4) as [tl ->]. cbn [rbind].
  destruct (index_contains bs "Stockholders Equity") eqn:E5; cbn [negb].
  2:{ intros [= <-]. now rewrite (df_loc_missing _ _ E5). }
  discriminate.
Qed.

(** X3.  When a fetched sheet lacks a required line item, the iteration
    of [calculate_financial_ratios] for that company raises nothing: it
    leaves the analysis object as it was and prints three messages, the
    first naming the first missing item in reading order (Current
    Assets, Current Liabilities, Total Assets, Total Liabilities Net
    Minority Interest, Stockholders Equity), the last listing the line
    items that are available. *)
Theorem missing_item_is_reported
  (self : FinancialAnalysis) (company : string) (bs : DataFrame)
  (label : string) :
  first_missing bs required_items = Some label ->
  calculate_one self company bs =
  ([ Print ("Error calculating ratios for " +++ company +++ ": '"
            +++ label +++ "'");
     Print "Available balance sheet items:";
     Print (str_list (df_index bs)) ],
   Ok self).
Proof.
  intros H. unfold calculate_one.
  now rewrite (compute_ratios_first_missing bs label H).
Qed.

Lemma missing_item_is_reported_witness :
  calculate_one (analysis_of ["PART"] [("PART", partial_sheet)] Dict.empty)
                "PART" partial_sheet =
  ([ Print ("Error calculating ratios for " +++ "PART" +++ ": '"
            +++ "Stockholders Equity" +++ "'");
     Print "Available balance sheet items:";
     Print (str_list (df_index partial_sheet)) ],
   Ok (analysis_of ["PART"] [("PART", partial_sheet)] Dict.empty)).
Proof.
  apply (missing_item_is_reported
           (analysis_of ["PART"] [("PART", partial_sheet)] Dict.empty)
           "PART" partial_sheet "Stockholders Equity").
  reflexivity.
Defined.

Lemma dict_set_same {V} (k : string) (v : V) (d : Dict.t V) :
  Dict.get k d = Some v -> Dict.set k v d = d.
Proof.
  induction d as [|[k' v'] d IH]; simpl; [discriminate|].
  destruct (String.eqb k k') eqn:E.
  - apply String.eqb_eq in E. subst k'. now intros [= ->].
  - intros H. now rewrite IH.
Qed.

Lemma computed_ratios_fixed items :
  forall r,
    (forall company bs rt,
        In (company, bs) items -> compute_ratios bs = Ok rt ->
        Dict.get company r = Some rt) ->
    computed_ratios items r = r.
Proof.
  induction items as [|[c bs] items IH]; intros r Hr; cbn [computed_ratios].
  - reflexivity.
  - assert (Hstep : match compute_ratios bs with
                    | Ok rt => Dict.set c rt r
                    | Raise _ => r
                    end = r).
    { destruct (compute_ratios bs) as [rt|] eqn:E; [|reflexivity].
      apply dict_set_same. apply (Hr c bs rt); [now left | exact E]. }
    rewrite Hstep. apply IH. intros company bs' rt Hin. apply Hr. now right.
Qed.

Lemma dict_in_get {V} (d : Dict.t V) k v :
  NoDup (Dict.keys d) -> In (k, v) d -> Dict.get k d = Some v.
Proof.
  induction d as [|[k' v'] d IH]; simpl; [intros _ []|].
  intros Hnd [H|H].
  - injection H as -> ->. now rewrite String.eqb_refl.
  - inversion Hnd as [|? ? Hk Hnd']; subst.
    destruct (String.eqb k k') eqn:E.
    + apply String.eqb_eq in E. subst k'. exfalso. apply Hk.
      unfold Dict.keys. apply in_map_iff. exists (k, v). auto.
    + now apply IH.
Qed.

(** X4.  Calculating twice is calculating once: on the object returned
    by [calculate_financial_ratios], a second call returns the same
    object (the tables are computed again from the same sheets and each
    key keeps its place). *)
Theorem calculate_twice
  (self : FinancialAnalysis) :
  NoDup (Dict.keys (balance_sheets self)) ->
  exists self',
    outcome (calculate_financial_ratios self) = Ok self' /\
    outcome (calculate_financial_ratios self') = Ok self'.
Proof.
  intros Hnd. eexists. split; [apply calculate_outcome|].
  rewrite calculate_outcome.
  unfold with_ratios.
  cbn [balance_sheets ratios companies output_dir plots_dir].
  f_equal. f_equal.
  apply computed_ratios_fixed. intros company bs rt Hin Hrt.
  rewrite computed_ratios_get by exact Hnd.
  rewrite (dict_in_get _ _ _ Hnd Hin). now rewrite Hrt.
Qed.

Lemma calculate_twice_witness :
  exists self',
    outcome (calculate_financial_ratios
               (analysis_of ["ACME"; "PART"]
                  [("ACME", acme); ("PART", partial_sheet)] Dict.empty)) = Ok self' /\
    outcome (calculate_financial_ratios self') = Ok self'.
Proof.
  apply (calculate_twice
           (analysis_of ["ACME"; "PART"]
              [("ACME", acme); ("PART", partial_sheet)] Dict.empty)).
  repeat constructor; simpl; intuition discriminate.
Defined.

(** X5.  Every ratio table held when the charts are drawn comes from the
    sheet the provider returned for that company: it has the periods of
    the sheet as rows, at least one period, and one value per period in
    each of the four columns. *)
Theorem ratio_tables_are_rectangular
  (yf : Provider) (base : string) (cs : list string)
  (company : string) (rt : RatioTable) :
  (forall c b, yf c = Ok b -> df_wf b) ->
  Dict.get company (ratios (analysis_after yf base cs)) = Some rt ->
  exists bs,
    In company cs /\
    yf company = Ok bs /\
    compute_ratios bs = Ok rt /\
    rt_index rt = df_columns bs /\
    rt_index rt <> [] /\
    rt_wf rt.
Proof.
  intros Hwf Hrt. rewrite analysis_after_ratio in Hrt.
  destruct (Dict.get company (balance_sheets (analysis_after yf base cs)))
    as [bs|] eqn:Ebs; [|discriminate].
  destruct (compute_ratios bs) as [rt'|] eqn:Ert; [|discriminate].
  injection Hrt as ->.
  cbn [analysis_after with_ratios with_sheets balance_sheets] in Ebs.
  apply fetched_sheets_origin in Ebs.
  destruct Ebs as [(Hin & Hyf & Hne)|Ebs]; [|discriminate].
  destruct (compute_ratios_wf bs rt (Hwf _ _ Hyf) Ert) as [Hrt Hidx].
  exists bs.
  split; [exact Hin|]. split; [exact Hyf|]. split; [exact Ert|].
  split; [exact Hidx|]. split; [|exact Hrt].
  rewrite Hidx. unfold df_empty in Hne.
  destruct (df_columns bs); [discriminate Hne | discriminate].
Qed.

Lemma sample_provider_wf c b : sample_provider c = Ok b -> df_wf b.
Proof.
  unfold sample_provider.
  destruct (String.eqb c "ACME"); [intros [= <-]; repeat constructor|].
  destruct (String.eqb c "BORE"); [intros [= <-]; repeat constructor|].
  destruct (String.eqb c "PART"); [intros [= <-]; repeat constructor|].
  destruct (String.eqb c "VOID"); [intros [= <-]; repeat constructor|].
  discriminate.
Qed.

Lemma ratio_tables_are_rectangular_witness :
  exists bs,
    In "ACME" ["ACME"; "PART"] /\
    sample_provider "ACME" = Ok bs /\
    compute_ratios bs = Ok (table_of acme) /\
    rt_index (table_of acme) = df_columns bs /\
    rt_index (table_of acme) <> [] /\
    rt_wf (table_of acme).
Proof.
  apply (ratio_tables_are_rectangular sample_provider "/app" ["ACME"; "PART"]).
  - exact sample_provider_wf.
  - reflexivity.
Defined.

(** X6.  In the table computed from a well-formed sheet, in every
    period, [Debt_to_Assets] is the quotient of Total Liabilities Net
    Minority Interest by Total Assets, [Equity_Multiplier] the quotient
    of Total Assets by Stockholders Equity and, when the sheet has an
    Inventory line, [Quick_Ratio] the quotient of Current Assets minus
    Inventory by Current Liabilities. *)
Theorem other_ratios_are_quotients
  (bs : DataFrame) (rt : RatioTable) (i : nat) (p : period) :
  df_wf bs ->
  compute_ratios bs = Ok rt ->
  nth_error (df_columns bs) i = Some p ->
  exists a l t b e,
    value_at bs "Current Assets" i = Some a /\
    value_at bs "Current Liabilities" i = Some l /\
    value_at bs "Total Assets" i = Some t /\
    value_at bs "Total Liabilities Net Minority Interest" i = Some b /\
    value_at bs "Stockholders Equity" i = Some e /\
    nth_error (Debt_to_Assets rt) i = Some (fdiv b t) /\
    nth_error (Equity_Multiplier rt) i = Some (fdiv t e) /\
    forall v,
      value_at bs "Inventory" i = Some v ->
      nth_error (Quick_Ratio rt) i = Some (fdiv (fsub a v) l).
Proof.
  intros Hwf Hrt Hp.
  apply compute_ratios_inv in Hrt.
  destruct Hrt as (ca & cl & inv & ta & tl & se & Hca & Hcl & Hinv & Hta & Htl
                   & Hse & ->).
  destruct (nth_error_same_length (df_columns bs) ca i p) as [a Ha];
    [now apply df_loc_wf with (label := "Current Assets") | exact Hp |].
  destruct (nth_error_same_length (df_columns bs) cl i p) as [l Hl];
    [now apply df_loc_wf with (label := "Current Liabilities") | exact Hp |].
  destruct (nth_error_same_length (df_columns bs) ta i p) as [t Ht];
    [now apply df_loc_wf with (label := "Total Assets") | exact Hp |].
  destruct (nth_error_same_length (df_columns bs) tl i p) as [b Hb];
    [now apply df_loc_wf
       with (label := "Total Liabilities Net Minority Interest")
    | exact Hp |].
  destruct (nth_error_same_length (df_columns bs) se i p) as [e He];
    [now apply df_loc_wf with (label := "Stockholders Equity") | exact Hp |].
  exists a, l, t, b, e. unfold value_at. rewrite Hca, Hcl, Hta, Htl, Hse.
  cbn [Debt_to_Assets Equity_Multiplier Quick_Ratio]. unfold series_div.
  repeat split; try assumption; try (now apply map2_nth_error).
  intros v Hv.
  destruct Hinv as [[Habsent _]|(row & Hrow & ->)].
  - rewrite (df_loc_missing _ _ Habsent) in Hv. discriminate.
  - rewrite Hrow in Hv. cbn [series_sub].
    apply map2_nth_error; [|exact Hl]. now apply map2_nth_error.
Qed.

Lemma other_ratios_are_quotients_witness :
  exists a l t b e,
    value_at acme "Current Assets" 1 = Some a /\
    value_at acme "Current Liabilities" 1 = Some l /\
    value_at acme "Total Assets" 1 = Some t /\
    value_at acme "Total Liabilities Net Minority Interest" 1 = Some b /\
    value_at acme "Stockholders Equity" 1 = Some e /\
    nth_error (Debt_to_Assets (table_of acme)) 1 = Some (fdiv b t) /\
    nth_error (Equity_Multiplier (table_of acme)) 1 = Some (fdiv t e) /\
    forall v,
      value_at acme "Inventory" 1 = Some v ->
      nth_error (Quick_Ratio (table_of acme)) 1 = Some (fdiv (fsub a v) l).
Proof.
  apply (other_ratios_are_quotients acme (table_of acme) 1 Q2).
  - exact acme_wf.
  - reflexivity.
  - reflexivity.
Defined.

(** ** Line chart *)

Lemma line_loop_working plt self cs :
  (forall c, plt c = None) ->
  line_loop plt self cs = (map Draw (chart_lines self cs), Ok (chart_lines self cs)).
Proof.
  intros Hplt. induction cs as [|c cs IH]; [reflexivity|].
  rewrite line_loop_step. cbn [chart_lines flat_map].
  destruct (Dict.get c (ratios self)) as [rt|]; [|exact IH].
  cbn zeta. rewrite Hplt, IH. reflexivity.
Qed.

Lemma chart_lines_nil self cs :
  (forall company, In company cs -> Dict.get company (ratios self) = None) ->
  chart_lines self cs = [].
Proof.
  induction cs as [|c cs IH]; intros Hnone; [reflexivity|].
  cbn [chart_lines flat_map]. rewrite (Hnone c (or_introl eq_refl)).
  apply IH. intros x Hx. apply Hnone. now right.
Qed.

(** X7.  With a backend that does not fail, the comparison chart is
    always written and its path returned: the figure holds one line per
    company of the list that has a ratio table, in list order, with the
    periods and the [Current_Ratio] column of the table.  When no
    company has a ratio table the chart is written all the same, without
    any line. *)
Theorem line_chart_is_written
  (plt : Backend) (self : FinancialAnalysis) :
  (forall c, plt c = None) ->
  plot_current_ratio_comparison plt self =
    (OpenFigure :: map Draw (chart_lines self (companies self))
       ++ [SaveFig (get_plot_path self "current_ratio_comparison.png")
                   (chart_lines self (companies self))],
     Ok (get_plot_path self "current_ratio_comparison.png")) /\
  ((forall company, In company (companies self) ->
                    Dict.get company (ratios self) = None) ->
   plot_current_ratio_comparison plt self =
     ([OpenFigure;
       SaveFig (get_plot_path self "current_ratio_comparison.png") []],
      Ok (get_plot_path self "current_ratio_comparison.png"))).
Proof.
  intros Hplt.
  assert (H : plot_current_ratio_comparison plt self =
    (OpenFigure :: map Draw (chart_lines self (companies self))
       ++ [SaveFig (get_plot_path self "current_ratio_comparison.png")
                   (chart_lines self (companies self))],
     Ok (get_plot_path self "current_ratio_comparison.png"))).
  { rewrite line_unfold, Hplt. cbn zeta.
    rewrite (line_loop_working plt self _ Hplt), Hplt. reflexivity. }
  split; [exact H|].
  intros Hnone. rewrite H.
  now rewrite (chart_lines_nil self _ Hnone).
Qed.

Lemma line_chart_is_written_witness :
  plot_current_ratio_comparison plt_ok
    (analysis_of ["PART"; "NONE"] [("PART", partial_sheet)] Dict.empty) =
  ([OpenFigure; SaveFig "/app/output/plots/current_ratio_comparison.png" []],
   Ok "/app/output/plots/current_ratio_comparison.png").
Proof.
  destruct (line_chart_is_written plt_ok
              (analysis_of ["PART"; "NONE"] [("PART", partial_sheet)] Dict.empty)
              (fun c => eq_refl)) as [_ H].
  apply H. intros company _. reflexivity.
Defined.

(** ** Radar chart *)

Lemma radar_values_shape rt p values :
  radar_values rt p = Ok values ->
  exists d c q e, values = [d; c; q; e; d].
Proof.
  unfold radar_values.
  destruct (series_at _ (Debt_to_Assets rt) p) as [d|]; [|discriminate].
  destruct (series_at _ (Current_Ratio rt) p) as [c|]; [|discriminate].
  destruct (series_at _ (Quick_Ratio rt) p) as [q|]; [|discriminate].
  destruct (series_at _ (Equity_Multiplier rt) p) as [e|]; [|discriminate].
  cbn [rbind app]. intros H. apply Ok_inj in H. subst values.
  exists d, c, q, e. reflexivity.
Qed.

(** The polygons of a finished loop: ranks, colours and shape. *)
Lemma radar_loop_polygons plt self p n cs :
  forall i fig,
    outcome (radar_loop plt self p n i cs) = Ok fig ->
    List.length fig = List.length cs /\
    forall k a,
      nth_error fig k = Some a ->
      exists company d c q e,
        nth_error cs k = Some company /\
        a = Polygon company (i + k, n) [d; c; q; e; d].
Proof.
  induction cs as [|company cs IH]; intros i fig.
  - simpl. intros [= <-]. split; [reflexivity|]. intros [|k] a; discriminate.
  - rewrite radar_loop_step.
    destruct (ratios_of self company) as [rt|]; [|discriminate].
    destruct (radar_values rt p) as [values|] eqn:Evals; [|discriminate].
    cbn zeta. destruct (plt _); [discriminate|].
    cbn [outcome snd].
    destruct (radar_loop plt self p n (S i) cs) as [t [fig'|e]] eqn:Eloop;
      [|discriminate].
    cbn [snd]. intros H. apply Ok_inj in H. subst fig.
    destruct (IH (S i) fig') as [Hlen Hnth]; [now rewrite Eloop|].
    split; [simpl; now rewrite Hlen|].
    intros [|k] a; cbn [nth_error].
    + intros [= <-].
      destruct (radar_values_shape _ _ _ Evals) as (d & c & q & e & ->).
      exists company, d, c, q, e. rewrite Nat.add_0_r. auto.
    + intros Hk. destruct (Hnth k a Hk) as (co & d & c & q & e & Hco & ->).
      exists co, d, c, q, e. split; [exact Hco|].
      now rewrite Nat.add_succ_r.
Qed.

(** X8.  Whatever the backend does, a radar image that is written holds
    one polygon per company of the list that has a ratio table, in list
    order; the polygon of rank [k] is labelled with that company, has
    the colour of rank [k] among as many colours as plotted companies,
    and has five values, the fifth repeating the first
    ([Debt_to_Assets]) so that the outline is closed. *)
Theorem radar_polygons_are_closed
  (plt : Backend) (self : FinancialAnalysis) (path : string) (fig : figure) :
  In (SaveFig path fig) (trace (plot_debt_ratio_radar plt self)) ->
  path = get_plot_path self "debt_ratio_radar.png" /\
  List.length fig = List.length (available_companies self) /\
  forall k a,
    nth_error fig k = Some a ->
    exists company d c q e,
      nth_error (available_companies self) k = Some company /\
      a = Polygon company (k, List.length (available_companies self))
                  [d; c; q; e; d].
Proof.
  destruct (available_companies self) as [|first rest] eqn:Hav.
  - unfold plot_debt_ratio_radar. rewrite Hav. cbn.
    intros [H|[]]. discriminate.
  - assert (Hfirst : In first (available_companies self))
      by (rewrite Hav; now left).
    apply available_companies_in in Hfirst. destruct Hfirst as [_ [rt0 Hrt0]].
    destruct (first_period (rt_index rt0)) as [p|e] eqn:Ep.
    + rewrite (radar_unfold plt self first rest rt0 p Hav Hrt0 Ep).
      pose proof (radar_loop_draws plt self p (List.length (first :: rest))
                    (first :: rest) 0) as Hdraws.
      destruct (plt CallFigure); [intros []|]. cbn zeta.
      destruct (outcome (radar_loop plt self p _ 0 (first :: rest)))
        as [fig'|e] eqn:Eloop.
      * destruct (radar_loop_polygons _ _ _ _ _ _ _ Eloop) as [Hlen Hnth].
        destruct (plt (CallSave _)); cbn [trace fst].
        -- intros [H|H]; [discriminate|]. now apply draws_no_savefig in H.
        -- intros [H|H]; [discriminate|]. apply in_app_iff in H.
           destruct H as [H|[H|[]]]; [now apply draws_no_savefig in H|].
           injection H as <- <-. auto.
      * cbn [trace fst].
        intros [H|H]; [discriminate|]. now apply draws_no_savefig in H.
    + unfold plot_debt_ratio_radar. rewrite Hav.
      unfold ratios_of. rewrite Hrt0, bind_lift_ok, Ep. intros [].
Qed.

Lemma radar_polygons_are_closed_witness :
  "/app/output/plots/debt_ratio_radar.png" =
    get_plot_path (analysis_of ["ACME"] [("ACME", acme)] [("ACME", table_of acme)])
                  "debt_ratio_radar.png" /\
  List.length [Polygon "ACME" (0, 1)
                 [fdiv (of_Z 750) (of_Z 1000); two; two; of_Z 4;
                  fdiv (of_Z 750) (of_Z 1000)]] =
    List.length (available_companies
                   (analysis_of ["ACME"] [("ACME", acme)] [("ACME", table_of acme)])) /\
  forall k a,
    nth_error [Polygon "ACME" (0, 1)
                 [fdiv (of_Z 750) (of_Z 1000); two; two; of_Z 4;
                  fdiv (of_Z 750) (of_Z 1000)]] k = Some a ->
    exists company d c q e,
      nth_error (available_companies
                   (analysis_of ["ACME"] [("ACME", acme)] [("ACME", table_of acme)]))
                k = Some company /\
      a = Polygon company
            (k, List.length
                  (available_companies
                     (analysis_of ["ACME"] [("ACME", acme)]
                                  [("ACME", table_of acme)])))
            [d; c; q; e; d].
Proof.
  apply (radar_polygons_are_closed plt_ok
           (analysis_of ["ACME"] [("ACME", acme)] [("ACME", table_of acme)])).
  vm_compute. right. right. left. reflexivity.
Defined.

(** ** Composition charts *)

(** The drawing block, stage by stage: what has been done when it
    stops. *)
Lemma composition_body_unfold plt self company bs d :
  composition_body plt self company bs d =
  match plt CallFigure with
  | Some msg => ([], Raise (Exception msg))
  | None =>
  match cell bs "Total Assets" d with
  | Raise e => ([OpenFigure], Raise e)
  | Ok _ =>
  match cell bs "Current Assets" d with
  | Raise e => ([OpenFigure], Raise e)
  | Ok ca =>
  match cell bs "Total Non Current Assets" d with
  | Raise e => ([OpenFigure], Raise e)
  | Ok nca =>
  let assets :=
    Pie (company +++ " Assets Composition")
        [("Current Assets", ca); ("Non-current Assets", nca)] in
  match plt (CallDraw assets) with
  | Some msg => ([OpenFigure], Raise (Exception msg))
  | None =>
  match cell bs "Total Liabilities Net Minority Interest" d with
  | Raise e => ([OpenFigure; Draw assets], Raise e)
  | Ok _ =>
  match cell bs "Current Liabilities" d with
  | Raise e => ([OpenFigure; Draw assets], Raise e)
  | Ok cl =>
  match cell bs "Total Non Current Liabilities Net Minority Interest" d with
  | Raise e => ([OpenFigure; Draw assets], Raise e)
  | Ok ncl =>
  match cell bs "Stockholders Equity" d with
  | Raise e => ([OpenFigure; Draw assets], Raise e)
  | Ok eq =>
  let liabilities :=
    Pie (company +++ " Liabilities and Equity Composition")
        [("Current Liabilities", cl); ("Non-current Liabilities", ncl);
         ("Shareholders' Equity", eq)] in
  match plt (CallDraw liabilities) with
  | Some msg => ([OpenFigure; Draw assets], Raise (Exception msg))
  | None =>
  let title :=
    Suptitle (company +++ " Balance Sheet Analysis (" +++ strftime_ymd d +++ ")") in
  match plt (CallDraw title) with
  | Some msg => ([OpenFigure; Draw assets; Draw liabilities], Raise (Exception msg))
  | None =>
  let path := get_plot_path self (company +++ "_balance_sheet_composition.png") in
  match plt (CallSave path) with
  | Some msg =>
      ([OpenFigure; Draw assets; Draw liabilities; Draw title],
       Raise (Exception msg))
  | None =>
      ([OpenFigure; Draw assets; Draw liabilities; Draw title;
        SaveFig path [assets; liabilities; title]],
       Ok (Some path))
  end end end end end end end end end end end end.
Proof.
  unfold composition_body, draw, savefig, backend_call.
  destruct (plt CallFigure); [reflexivity|].
  destruct (cell bs "Total Assets" d); [|reflexivity].
  destruct (cell bs "Current Assets" d) as [ca|]; [|reflexivity].
  destruct (cell bs "Total Non Current Assets" d) as [nca|]; [|reflexivity].
  cbn zeta. rewrite bind_effect, !bind_lift_ok.
  destruct (plt (CallDraw (Pie (company +++ " Assets Composition") _)));
    [reflexivity|].
  rewrite bind_effect.
  destruct (cell bs "Total Liabilities Net Minority Interest" d); [|reflexivity].
  destruct (cell bs "Current Liabilities" d) as [cl|]; [|reflexivity].
  destruct (cell bs "Total Non Current Liabilities Net Minority Interest" d)
    as [ncl|]; [|reflexivity].
  destruct (cell bs "Stockholders Equity" d) as [eq|]; [|reflexivity].
  rewrite !bind_lift_ok.
  destruct (plt (CallDraw (Pie (company +++ " Liabilities and Equity Composition") _)));
    [reflexivity|].
  rewrite bind_effect.
  destruct (plt (CallDraw (Suptitle _))); [reflexivity|].
  rewrite bind_effect.
  destruct (plt (CallSave _)); [reflexivity|].
  rewrite bind_effect. reflexivity.
Qed.

Lemma cell_needs_item bs label d v :
  cell bs label d = Ok v -> index_contains bs label = true.
Proof.
  unfold cell. destruct (df_loc bs label) as [row|] eqn:E; [|discriminate].
  intros _. apply index_contains_loc. eauto.
Qed.

(** The block returns only if the seven line items are there. *)
Lemma composition_body_ok_items plt self company bs d r :
  outcome (composition_body plt self company bs d) = Ok r ->
  forallb (index_contains bs) composition_items = true.
Proof.
  rewrite composition_body_unfold.
  destruct (plt CallFigure); [discriminate|].
  destruct (cell bs "Total Assets" d) eqn:E1; [|discriminate].
  destruct (cell bs "Current Assets" d) eqn:E2; [|discriminate].
  destruct (cell bs "Total Non Current Assets" d) eqn:E3; [|discriminate].
  cbn zeta. destruct (plt _); [discriminate|].
  destruct (cell bs "Total Liabilities Net Minority Interest" d) eqn:E4;
    [|discriminate].
  destruct (cell bs "Current Liabilities" d) eqn:E5; [|discriminate].
  destruct (cell bs "Total Non Current Liabilities Net Minority Interest" d)
    eqn:E6; [|discriminate].
  destruct (cell bs "Stockholders Equity" d) eqn:E7; [|discriminate].
  intros _. unfold composition_items. cbn [forallb].
  rewrite (cell_needs_item _ _ _ _ E1), (cell_needs_item _ _ _ _ E2),
    (cell_needs_item _ _ _ _ E3), (cell_needs_item _ _ _ _ E4),
    (cell_needs_item _ _ _ _ E5), (cell_needs_item _ _ _ _ E6),
    (cell_needs_item _ _ _ _ E7).
  reflexivity.
Qed.

(** A block that raises has saved nothing. *)
Lemma composition_body_raise_no_writes plt self company bs d e :
  outcome (composition_body plt self company bs d) = Raise e ->
  writes (trace (composition_body plt self company bs d)) = [].
Proof.
  rewrite composition_body_unfold.
  destruct (plt CallFigure); [reflexivity|].
  destruct (cell bs "Total Assets" d); [|reflexivity].
  destruct (cell bs "Current Assets" d); [|reflexivity].
  destruct (cell bs "Total Non Current Assets" d); [|reflexivity].
  cbn zeta. destruct (plt _); [reflexivity|].
  destruct (cell bs "Total Liabilities Net Minority Interest" d); [|reflexivity].
  destruct (cell bs "Current Liabilities" d); [|reflexivity].
  destruct (cell bs "Total Non Current Liabilities Net Minority Interest" d);
    [|reflexivity].
  destruct (cell bs "Stockholders Equity" d); [|reflexivity].
  destruct (plt _); [reflexivity|].
  destruct (plt _); [reflexivity|].
  destruct (plt _); [reflexivity | discriminate].
Qed.

(** A sheet that lacks a line item of the composition chart. *)
Lemma composition_missing_item
  (plt : Backend) (self : FinancialAnalysis) (company : string)
  (bs : DataFrame) (latest_date : period) :
  Dict.get company (balance_sheets self) = Some bs ->
  first_period (df_columns bs) = Ok latest_date ->
  forallb (index_contains bs) composition_items = false ->
  outcome (plot_balance_sheet_composition plt self company) = Ok None /\
  writes (trace (plot_balance_sheet_composition plt self company)) = [].
Proof.
  intros Hget Hd Hmissing.
  rewrite (composition_contained plt self company bs latest_date Hget Hd).
  destruct (outcome (composition_body plt self company bs latest_date))
    as [r|e] eqn:Ebody.
  - apply composition_body_ok_items in Ebody. congruence.
  - cbn [outcome trace fst snd]. split; [reflexivity|].
    rewrite writes_app,
      (composition_body_raise_no_writes _ _ _ _ _ _ Ebody).
    reflexivity.
Qed.

(** X10.  If the sheet held for a company lacks one of the seven line
    items the composition chart reads (Total Assets and Total
    Liabilities Net Minority Interest included, although no pie shows
    them), then, whatever the backend does, the chart returns [None] and
    saves no image. *)
Theorem composition_needs_every_item
  (plt : Backend) (self : FinancialAnalysis) (company : string)
  (bs : DataFrame) (latest_date : period) :
  Dict.get company (balance_sheets self) = Some bs ->
  first_period (df_columns bs) = Ok latest_date ->
  forallb (index_contains bs) composition_items = false ->
  outcome (plot_balance_sheet_composition plt self company) = Ok None /\
  writes (trace (plot_balance_sheet_composition plt self company)) = [].
Proof. apply composition_missing_item. Qed.

Lemma composition_needs_every_item_witness :
  outcome (plot_balance_sheet_composition plt_ok
             (analysis_of ["PART"] [("PART", partial_sheet)] Dict.empty) "PART")
    = Ok None /\
  writes (trace (plot_balance_sheet_composition plt_ok
                   (analysis_of ["PART"] [("PART", partial_sheet)] Dict.empty)
                   "PART")) = [].
Proof.
  apply (composition_needs_every_item plt_ok
           (analysis_of ["PART"] [("PART", partial_sheet)] Dict.empty)
           "PART" partial_sheet Q3); reflexivity.
Defined.

Lemma required_in_composition bs :
  forallb (index_contains bs) composition_items = true ->
  forallb (index_contains bs) required_items = true.
Proof.
  unfold composition_items, required_items. cbn [forallb].
  rewrite !andb_true_iff. tauto.
Qed.

(** X11.  In a run, a company whose sheet was fetched but whose ratio
    computation was skipped never gets a composition image: the chart
    reads every line item the ratios need, so it returns [None] and
    saves nothing, whatever the backend does. *)
Theorem skipped_company_gets_no_image
  (yf : Provider) (plt : Backend) (base : string) (cs : list string)
  (company : string) (bs : DataFrame) :
  Dict.get company (balance_sheets (analysis_after yf base cs)) = Some bs ->
  Dict.get company (ratios (analysis_after yf base cs)) = None ->
  outcome (plot_balance_sheet_composition plt (analysis_after yf base cs) company)
    = Ok None /\
  writes (trace (plot_balance_sheet_composition plt (analysis_after yf base cs)
                   company)) = [].
Proof.
  intros Hget Hnone.
  destruct (analysis_after_sheet_nonempty _ _ _ _ _ Hget) as (_ & d & Hd).
  apply (composition_missing_item plt _ company bs d Hget Hd).
  rewrite analysis_after_ratio, Hget in Hnone.
  destruct (forallb (index_contains bs) composition_items) eqn:E; [|reflexivity].
  apply required_in_composition, compute_ratios_ok_iff in E.
  destruct E as [rt Hrt]. rewrite Hrt in Hnone. discriminate.
Qed.

Lemma skipped_company_gets_no_image_witness :
  outcome (plot_balance_sheet_composition plt_ok
             (analysis_after sample_provider "/app" ["ACME"; "PART"]) "PART")
    = Ok None /\
  writes (trace (plot_balance_sheet_composition plt_ok
                   (analysis_after sample_provider "/app" ["ACME"; "PART"])
                   "PART")) = [].
Proof.
  apply (skipped_company_gets_no_image sample_provider plt_ok "/app"
           ["ACME"; "PART"] "PART" partial_sheet); reflexivity.
Defined.

Lemma cell_first bs label d ds :
  df_wf bs -> df_columns bs = d :: ds ->
  index_contains bs label = true ->
  exists v, cell bs label d = Ok v /\ value_at bs label 0 = Some v.
Proof.
  intros Hwf Hcols Hin.
  destruct (df_loc_present _ _ Hin) as [row Hrow].
  pose proof (df_loc_wf _ _ _ Hwf Hrow) as Hlen.
  unfold cell, value_at. rewrite Hrow, Hcols in *. cbn [rbind].
  destruct row as [|v row]; [discriminate|].
  exists v. cbn [series_at nth_error]. now rewrite String.eqb_refl.
Qed.

(** The composition chart on a complete sheet and a working backend. *)
Lemma composition_written
  (plt : Backend) (self : FinancialAnalysis) (company : string)
  (bs : DataFrame) (d : period) (ds : list period) :
  (forall c, plt c = None) ->
  Dict.get company (balance_sheets self) = Some bs ->
  df_wf bs ->
  df_columns bs = d :: ds ->
  forallb (index_contains bs) composition_items = true ->
  exists ca nca cl ncl eq,
    value_at bs "Current Assets" 0 = Some ca /\
    value_at bs "Total Non Current Assets" 0 = Some nca /\
    value_at bs "Current Liabilities" 0 = Some cl /\
    value_at bs "Total Non Current Liabilities Net Minority Interest" 0 = Some ncl /\
    value_at bs "Stockholders Equity" 0 = Some eq /\
    plot_balance_sheet_composition plt self company =
    ([ OpenFigure;
       Draw (Pie (company +++ " Assets Composition")
                 [("Current Assets", ca); ("Non-current Assets", nca)]);
       Draw (Pie (company +++ " Liabilities and Equity Composition")
                 [("Current Liabilities", cl); ("Non-current Liabilities", ncl);
                  ("Shareholders' Equity", eq)]);
       Draw (Suptitle (company +++ " Balance Sheet Analysis ("
                       +++ strftime_ymd d +++ ")"));
       SaveFig (get_plot_path self (company +++ "_balance_sheet_composition.png"))
               [ Pie (company +++ " Assets Composition")
                     [("Current Assets", ca); ("Non-current Assets", nca)];
                 Pie (company +++ " Liabilities and Equity Composition")
                     [("Current Liabilities", cl); ("Non-current Liabilities", ncl);
                      ("Shareholders' Equity", eq)];
                 Suptitle (company +++ " Balance Sheet Analysis ("
                           +++ strftime_ymd d +++ ")") ] ],
     Ok (Some (get_plot_path self (company +++ "_balance_sheet_composition.png")))).
Proof.
  intros Hplt Hget Hwf Hcols Hitems.
  unfold composition_items in Hitems. cbn [forallb] in Hitems.
  rewrite !andb_true_iff in Hitems.
  destruct Hitems as (H1 & H2 & H3 & H4 & H5 & H6 & H7 & _).
  destruct (cell_first bs _ d ds Hwf Hcols H1) as (ta & Hta & _).
  destruct (cell_first bs _ d ds Hwf Hcols H2) as (ca & Hca & Vca).
  destruct (cell_first bs _ d ds Hwf Hcols H3) as (nca & Hnca & Vnca).
  destruct (cell_first bs _ d ds Hwf Hcols H4) as (tl & Htl & _).
  destruct (cell_first bs _ d ds Hwf Hcols H5) as (cl & Hcl & Vcl).
  destruct (cell_first bs _ d ds Hwf Hcols H6) as (ncl & Hncl & Vncl).
  destruct (cell_first bs _ d ds Hwf Hcols H7) as (eq & Heq & Veq).
  exists ca, nca, cl, ncl, eq.
  repeat (split; [assumption|]).
  assert (Hd : first_period (df_columns bs) = Ok d) by now rewrite Hcols.
  rewrite (composition_contained plt self company bs d Hget Hd).
  rewrite composition_body_unfold, Hta, Hca, Hnca, Htl, Hcl, Hncl, Heq.
  cbn zeta. rewrite !Hplt. reflexivity.
Qed.

(** X9.  With a backend that does not fail, a well-formed sheet that has
    the seven line items gets its composition chart: a figure with the
    assets pie (current and non-current assets), the liabilities and
    equity pie (current liabilities, non-current liabilities, equity),
    all taken in the first (most recent) period, and a title carrying
    the date of that period; it is saved under the name of the company
    and the path is returned. *)
Theorem composition_chart_is_written
  (plt : Backend) (self : FinancialAnalysis) (company : string)
  (bs : DataFrame) (d : period) (ds : list period) :
  (forall c, plt c = None) ->
  Dict.get company (balance_sheets self) = Some bs ->
  df_wf bs ->
  df_columns bs = d :: ds ->
  forallb (index_contains bs) composition_items = true ->
  exists ca nca cl ncl eq,
    value_at bs "Current Assets" 0 = Some ca /\
    value_at bs "Total Non Current Assets" 0 = Some nca /\
    value_at bs "Current Liabilities" 0 = Some cl /\
    value_at bs "Total Non Current Liabilities Net Minority Interest" 0 = Some ncl /\
    value_at bs "Stockholders Equity" 0 = Some eq /\
    plot_balance_sheet_composition plt self company =
    ([ OpenFigure;
       Draw (Pie (company +++ " Assets Composition")
                 [("Current Assets", ca); ("Non-current Assets", nca)]);
       Draw (Pie (company +++ " Liabilities and Equity Composition")
                 [("Current Liabilities", cl); ("Non-current Liabilities", ncl);
                  ("Shareholders' Equity", eq)]);
       Draw (Suptitle (company +++ " Balance Sheet Analysis ("
                       +++ strftime_ymd d +++ ")"));
       SaveFig (get_plot_path self (company +++ "_balance_sheet_composition.png"))
               [ Pie (company +++ " Assets Composition")
                     [("Current Assets", ca); ("Non-current Assets", nca)];
                 Pie (company +++ " Liabilities and Equity Composition")
                     [("Current Liabilities", cl); ("Non-current Liabilities", ncl);
                      ("Shareholders' Equity", eq)];
                 Suptitle (company +++ " Balance Sheet Analysis ("
                           +++ strftime_ymd d +++ ")") ] ],
     Ok (Some (get_plot_path self (company +++ "_balance_sheet_composition.png")))).
Proof. apply composition_written. Qed.

Lemma composition_chart_is_written_witness :
  exists ca nca cl ncl eq,
    value_at acme "Current Assets" 0 = Some ca /\
    value_at acme "Total Non Current Assets" 0 = Some nca /\
    value_at acme "Current Liabilities" 0 = Some cl /\
    value_at acme "Total Non Current Liabilities Net Minority Interest" 0 = Some ncl /\
    value_at acme "Stockholders Equity" 0 = Some eq /\
    outcome (plot_balance_sheet_composition plt_ok
               (analysis_of ["ACME"] [("ACME", acme)] Dict.empty) "ACME") =
    Ok (Some "/app/output/plots/ACME_balance_sheet_composition.png").
Proof.
  destruct (composition_chart_is_written plt_ok
              (analysis_of ["ACME"] [("ACME", acme)] Dict.empty) "ACME" acme
              Q3 [Q2] (fun c => eq_refl) eq_refl acme_wf eq_refl eq_refl)
    as (ca & nca & cl & ncl & eq & H1 & H2 & H3 & H4 & H5 & H6).
  exists ca, nca, cl, ncl, eq.
  repeat (split; [assumption|]).
  rewrite H6. reflexivity.
Defined.

(** ** Report generator *)

Lemma report_sections_nil self cs :
  (forall company, In company cs -> Dict.get company (ratios self) = None) ->
  report_sections self cs = Ok [].
Proof.
  induction cs as [|c cs IH]; intros Hnone; [reflexivity|].
  cbn [report_sections]. rewrite (Hnone c (or_introl eq_refl)).
  apply IH. intros x Hx. apply Hnone. now right.
Qed.

(** X12.  When no company of the list has a ratio table, the report is
    produced all the same and consists of its three header strings
    only: the title, the rule of fifty '=' and the generation time. *)
Theorem report_without_data
  (now : string) (self : FinancialAnalysis) :
  (forall company, In company (companies self) ->
                   Dict.get company (ratios self) = None) ->
  generate_analysis_report now self =
  Ok ("Financial Analysis Report" +++ nl
      +++ repeat_string "=" 50 +++ nl +++ nl
      +++ "Report Generated: " +++ now +++ nl +++ nl).
Proof.
  intros Hnone. unfold generate_analysis_report.
  rewrite (report_sections_nil self _ Hnone). cbn [rbind flat_map].
  rewrite app_nil_r. unfold report_header. cbn [String.concat].
  reflexivity.
Qed.

Lemma report_without_data_witness :
  generate_analysis_report "2024-11-01 09:00:00"
    (analysis_of ["PART"; "NONE"] [("PART", partial_sheet)] Dict.empty) =
  Ok ("Financial Analysis Report" +++ nl
      +++ repeat_string "=" 50 +++ nl +++ nl
      +++ "Report Generated: " +++ "2024-11-01 09:00:00" +++ nl +++ nl).
Proof.
  apply (report_without_data "2024-11-01 09:00:00"
           (analysis_of ["PART"; "NONE"] [("PART", partial_sheet)] Dict.empty)).
  intros company _. reflexivity.
Defined.

Lemma fdiv_nan a l :
  is_nan a = true \/ is_nan l = true -> fdiv a l = nan.
Proof.
  intros [H|H].
  - destruct a; try discriminate. reflexivity.
  - destruct l; try discriminate. now destruct a.
Qed.

(** X13.  Missing values pass silently: when a numerator or denominator
    of the most recent period is NaN, the ratio is NaN, the report
    prints it as [nan] (or [nan%]) and neither warning line is appended,
    since every comparison with NaN is false. *)
Theorem missing_values_give_no_warning (a l b t : float) :
  is_nan a = true \/ is_nan l = true ->
  is_nan b = true \/ is_nan t = true ->
  recommendations (fdiv a l) (fdiv b t) = [] /\
  format_2f (fdiv a l) = "nan" /\
  format_2pct (fdiv b t) = "nan%".
Proof.
  intros H1 H2. rewrite (fdiv_nan a l H1), (fdiv_nan b t H2).
  repeat split; reflexivity.
Qed.

Lemma missing_values_give_no_warning_witness :
  recommendations (fdiv nan (of_Z 100)) (fdiv (of_Z 750) nan) = [] /\
  format_2f (fdiv nan (of_Z 100)) = "nan" /\
  format_2pct (fdiv (of_Z 750) nan) = "nan%".
Proof.
  apply (missing_values_give_no_warning nan (of_Z 100) (of_Z 750) nan).
  - now left.
  - now right.
Defined.

Lemma report_sections_raise self cs company rt :
  In company cs ->
  Dict.get company (ratios self) = Some rt ->
  rt_index rt = [] ->
  exists e, report_sections self cs = Raise e.
Proof.
  intros Hin Hget Hidx. induction cs as [|c cs IH]; [destruct Hin|].
  cbn [report_sections].
  destruct (String.eqb company c) eqn:Ec.
  - apply String.eqb_eq in Ec. subst c. rewrite Hget.
    unfold company_section. rewrite Hidx. eexists. reflexivity.
  - apply String.eqb_neq in Ec.
    destruct Hin as [->|Hin]; [congruence|].
    destruct (IH Hin) as [e He]. rewrite He.
    destruct (Dict.get c (ratios self)) as [rt'|]; [|eauto].
    destruct (company_section c rt') as [sec|e']; cbn [rbind]; eauto.
Qed.

(** X14.  Nothing is caught per company in [generate_analysis_report]:
    if a company of the list has a ratio table without any period, the
    lookup of its first period fails and the whole report raises,
    whatever the other companies are. *)
Theorem report_raises_on_empty_table
  (now : string) (self : FinancialAnalysis) (company : string) (rt : RatioTable) :
  In company (companies self) ->
  Dict.get company (ratios self) = Some rt ->
  rt_index rt = [] ->
  exists e, generate_analysis_report now self = Raise e.
Proof.
  intros Hin Hget Hidx.
  destruct (report_sections_raise self _ company rt Hin Hget Hidx) as [e He].
  unfold generate_analysis_report. rewrite He. eexists. reflexivity.
Qed.

Lemma report_raises_on_empty_table_witness :
  exists e,
    generate_analysis_report "2024-11-01 09:00:00"
      (analysis_of ["ACME"; "BARE"] []
         [("ACME", table_of acme); ("BARE", mkRatioTable [] [] [] [] [])])
    = Raise e.
Proof.
  apply (report_raises_on_empty_table "2024-11-01 09:00:00"
           (analysis_of ["ACME"; "BARE"] []
              [("ACME", table_of acme); ("BARE", mkRatioTable [] [] [] [] [])])
           "BARE" (mkRatioTable [] [] [] [] [])).
  - right. now left.
  - reflexivity.
  - reflexivity.
Defined.

(** ** Output paths *)

Lemma string_app_assoc (a b c : string) : (a +++ b) +++ c = a +++ b +++ c.
Proof. induction a as [|x a IH]; simpl; [reflexivity | now rewrite IH]. Qed.

Lemma no_slash_after_suffix (s t : string) (c : ascii) :
  String.get (String.length t - 1) t = Some c ->
  Ascii.eqb c "/" = false ->
  1 <= String.length t ->
  ends_with_slash (s +++ t) = false.
Proof.
  intros Hlast Hc Hlen. unfold ends_with_slash.
  pose proof (suffix_char s t (s +++ t) (String.length t - 1) eq_refl) as H.
  rewrite string_length_app in *.
  replace (String.length s + String.length t - String.length t
           + (String.length t - 1))
    with (String.length s + String.length t - 1) in H by lia.
  now rewrite H, Hlast, Hc.
Qed.

Lemma nonempty_after_suffix (s t : string) :
  1 <= String.length t -> String.eqb (s +++ t) "" = false.
Proof.
  intros Hlen. apply String.eqb_neq. intros H.
  apply (f_equal String.length) in H. rewrite string_length_app in H.
  simpl in H. lia.
Qed.

(** X15.  The output directory of a fresh analysis object is the base
    path followed by [/output] when the base path is not empty and does
    not end with a slash, and the base path followed by [output]
    otherwise; the plots directory is its [plots] subdirectory.  A file
    name that does not start with a slash is placed directly in the
    output directory by [get_output_path] and in the plots directory by
    [get_plot_path] (for a base path without final slash:
    base[/output/]name and base[/output/plots/]name); a name that starts
    with a slash is returned as it is, outside these directories. *)
Theorem output_paths (cs : list string) (base filename : string) :
  (String.eqb base "" || ends_with_slash base = false ->
   output_dir (init cs base) = base +++ "/output") /\
  (String.eqb base "" || ends_with_slash base = true ->
   output_dir (init cs base) = base +++ "output") /\
  plots_dir (init cs base) = output_dir (init cs base) +++ "/plots" /\
  (String.prefix "/" filename = false ->
   get_output_path (init cs base) filename =
     output_dir (init cs base) +++ "/" +++ filename /\
   get_plot_path (init cs base) filename =
     output_dir (init cs base) +++ "/plots/" +++ filename) /\
  (String.prefix "/" filename = false ->
   String.eqb base "" || ends_with_slash base = false ->
   get_output_path (init cs base) filename =
     base +++ "/output/" +++ filename /\
   get_plot_path (init cs base) filename =
     base +++ "/output/plots/" +++ filename) /\
  (String.prefix "/" filename = true ->
   get_output_path (init cs base) filename = filename /\
   get_plot_path (init cs base) filename = filename).
Proof.
  assert (Hdir : (String.eqb base "" || ends_with_slash base = false ->
                  output_dir (init cs base) = base +++ "/output") /\
                 (String.eqb base "" || ends_with_slash base = true ->
                  output_dir (init cs base) = base +++ "output")).
  { cbn [init output_dir]. unfold path_join. cbn [String.prefix].
    destruct (String.eqb base "" || ends_with_slash base);
      split; intros H; try discriminate H; reflexivity. }
  assert (Hout : exists s, output_dir (init cs base) = s +++ "output").
  { destruct (String.eqb base "" || ends_with_slash base) eqn:E.
    - exists base. now apply Hdir.
    - exists (base +++ "/"). rewrite string_app_assoc. now apply Hdir. }
  destruct Hout as [s Hs].
  assert (Hplots : plots_dir (init cs base) =
                   output_dir (init cs base) +++ "/plots").
  { cbn [init output_dir plots_dir] in *. unfold path_join at 1.
    cbn [String.prefix]. rewrite Hs.
    rewrite nonempty_after_suffix by (simpl; lia).
    rewrite (no_slash_after_suffix s "output" "t") by (simpl; auto; lia).
    reflexivity. }
  assert (Hrelative :
            String.prefix "/" filename = false ->
            get_output_path (init cs base) filename =
              output_dir (init cs base) +++ "/" +++ filename /\
            get_plot_path (init cs base) filename =
              output_dir (init cs base) +++ "/plots/" +++ filename).
  { intros Hrel. unfold get_output_path, get_plot_path.
    rewrite Hplots. split.
    + unfold path_join at 1. rewrite Hrel, Hs.
      rewrite nonempty_after_suffix by (simpl; lia).
      rewrite (no_slash_after_suffix s "output" "t") by (simpl; auto; lia).
      reflexivity.
    + unfold path_join at 1. rewrite Hrel, Hs.
      rewrite string_app_assoc.
      rewrite nonempty_after_suffix by (simpl; lia).
      rewrite (no_slash_after_suffix s ("output" +++ "/plots") "s")
        by (simpl; auto; lia).
      now rewrite !string_app_assoc. }
  split; [apply Hdir|]. split; [apply Hdir|]. split; [exact Hplots|].
  split; [exact Hrelative|]. split.
  - intros Hrel Hbase. destruct (Hrelative Hrel) as [-> ->].
    rewrite (proj1 Hdir Hbase), !string_app_assoc. split; reflexivity.
  - intros Habs. unfold get_output_path, get_plot_path, path_join.
    now rewrite Habs.
Qed.

Lemma output_paths_witness :
  output_dir (init ["ACME"] "/app") = "/app" +++ "/output" /\
  get_output_path (init ["ACME"] "/app") "financial_analysis_report.txt" =
    "/app" +++ "/output/" +++ "financial_analysis_report.txt" /\
  get_plot_path (init ["ACME"] "/app") "ACME_balance_sheet_composition.png" =
    "/app" +++ "/output/plots/" +++ "ACME_balance_sheet_composition.png".
Proof.
  destruct (output_paths ["ACME"] "/app" "financial_analysis_report.txt")
    as (H1 & _ & _ & _ & H2 & _).
  destruct (output_paths ["ACME"] "/app" "ACME_balance_sheet_composition.png")
    as (_ & _ & _ & _ & H3 & _).
  split; [apply H1; reflexivity|].
  split; [apply H2; reflexivity | apply H3; reflexivity].
Defined.

(** ** A run in which nothing fails *)

Lemma writes_draws fig : writes (map Draw fig) = [].
Proof. induction fig as [|a fig IH]; [reflexivity | exact IH]. Qed.

Lemma filter_all {A} (f : A -> bool) l :
  (forall x, In x l -> f x = true) -> filter f l = l.
Proof.
  induction l as [|x l IH]; intros H; [reflexivity|].
  cbn [filter]. rewrite (H x (or_introl eq_refl)). f_equal.
  apply IH. intros y Hy. apply H. now right.
Qed.

Lemma index_contains_rows bs label :
  index_contains bs label = true -> df_rows bs <> [].
Proof.
  unfold index_contains, df_index. destruct (df_rows bs); [discriminate|].
  discriminate.
Qed.

(** The loop over complete sheets saves one image per company, in list
    order. *)
Lemma composition_loop_writes plt self cs d :
  (forall c, plt c = None) ->
  (forall company,
      In company cs ->
      exists bs ds,
        Dict.get company (balance_sheets self) = Some bs /\
        df_wf bs /\ df_columns bs = d :: ds /\
        forallb (index_contains bs) composition_items = true) ->
  outcome (composition_loop plt self cs) = Ok tt /\
  map written_path (writes (trace (composition_loop plt self cs))) =
  map (fun company =>
         get_plot_path self (company +++ "_balance_sheet_composition.png")) cs.
Proof.
  intros Hplt. induction cs as [|c cs IH]; intros Hall.
  - split; reflexivity.
  - destruct (Hall c (or_introl eq_refl)) as (bs & ds & Hget & Hwf & Hcols & Hitems).
    destruct (composition_written plt self c bs d ds Hplt Hget Hwf Hcols Hitems)
      as (ca & nca & cl & ncl & eq & _ & _ & _ & _ & _ & Hc).
    destruct IH as [IHo IHw].
    { intros company Hin. apply Hall. now right. }
    cbn [composition_loop].
    rewrite outcome_bind, trace_bind, Hc. cbn [outcome trace fst snd].
    rewrite outcome_bind, trace_bind, print_saved_outcome.
    split; [exact IHo|].
    rewrite !writes_app, !map_app, IHw.
    rewrite (no_artifacts_no_writes _ (print_saved_artifacts _ _)).
    reflexivity.
Qed.

(** X16.  When nothing fails, the run writes every file: with a working
    backend and, for each company of a non-empty list, a well-formed
    sheet from the provider that has the seven line items and the same
    most recent period, the files written are, in this order, the
    comparison chart, the radar chart, one composition chart per company
    in list order, and the report. *)
Theorem run_writes_every_file
  (yf : Provider) (plt : Backend) (now base : string)
  (cs : list string) (d : period) :
  (forall c, plt c = None) ->
  cs <> [] ->
  (forall company,
      In company cs ->
      exists bs ds,
        yf company = Ok bs /\ df_wf bs /\ df_columns bs = d :: ds /\
        forallb (index_contains bs) composition_items = true) ->
  outcome (run yf plt now base cs) = Ok tt /\
  map written_path (writes (trace (run yf plt now base cs))) =
  get_plot_path (init cs base) "current_ratio_comparison.png"
  :: get_plot_path (init cs base) "debt_ratio_radar.png"
  :: map (fun company =>
            get_plot_path (init cs base)
                          (company +++ "_balance_sheet_composition.png")) cs
  ++ [get_output_path (init cs base) "financial_analysis_report.txt"].
Proof.
  intros Hplt Hne Hall.
  destruct (run_spec yf plt now base cs) as (Hout & _ & _).
  split; [exact Hout|].
  rewrite writes_run.
  set (A := analysis_after yf base cs).
  assert (Hheld : forall company,
             In company cs ->
             exists bs ds,
               Dict.get company (balance_sheets A) = Some bs /\
               df_wf bs /\ df_columns bs = d :: ds /\
               forallb (index_contains bs) composition_items = true).
  { intros company Hin.
    destruct (Hall company Hin) as (bs & ds & Hyf & Hwf & Hcols & Hitems).
    exists bs, ds.
    split; [|split; [exact Hwf|split; [exact Hcols | exact Hitems]]].
    cbn [A analysis_after with_ratios with_sheets balance_sheets].
    apply fetched_sheets_hold; [exact Hin | exact Hyf |].
    unfold df_empty. rewrite Hcols.
    assert (Hrows : df_rows bs <> []).
    { apply index_contains_rows with (label := "Total Assets").
      unfold composition_items in Hitems. cbn [forallb] in Hitems.
      now apply andb_true_iff in Hitems. }
    destruct (df_rows bs); [congruence | reflexivity]. }
  assert (Hratio : forall company,
             In company cs ->
             exists rt ds,
               Dict.get company (ratios A) = Some rt /\
               rt_wf rt /\ rt_index rt = d :: ds).
  { intros company Hin.
    destruct (Hheld company Hin) as (bs & ds & Hget & Hwf & Hcols & Hitems).
    apply required_in_composition, compute_ratios_ok_iff in Hitems.
    destruct Hitems as [rt Hrt].
    destruct (compute_ratios_wf bs rt Hwf Hrt) as [Hrtwf Hidx].
    exists rt, ds. unfold A. rewrite analysis_after_ratio. fold A.
    rewrite Hget, Hrt.
    split; [reflexivity|]. split; [exact Hrtwf | congruence]. }
  (* line chart *)
  assert (HL : plot_current_ratio_comparison plt A =
    (OpenFigure :: map Draw (chart_lines A (companies A))
       ++ [SaveFig (get_plot_path A "current_ratio_comparison.png")
                   (chart_lines A (companies A))],
     Ok (get_plot_path A "current_ratio_comparison.png"))).
  { rewrite line_unfold, Hplt. cbn zeta.
    rewrite (line_loop_working plt A _ Hplt), Hplt. reflexivity. }
  (* radar chart *)
  assert (Hav : available_companies A = cs).
  { unfold available_companies. change (companies A) with cs.
    apply filter_all. intros company Hin.
    destruct (Hratio company Hin) as (rt & ds & Hget & _).
    apply dict_mem_true. eauto. }
  assert (HR : exists fig,
    plot_debt_ratio_radar plt A =
    (OpenFigure :: map Draw fig
       ++ [SaveFig (get_plot_path A "debt_ratio_radar.png") fig],
     Ok (Some (get_plot_path A "debt_ratio_radar.png")))).
  { destruct cs as [|first rest]; [congruence|].
    destruct (Hratio first (or_introl eq_refl)) as (rt0 & ds0 & Hget0 & _ & Hidx0).
    assert (Hd : first_period (rt_index rt0) = Ok d) by now rewrite Hidx0.
    rewrite (radar_unfold plt A first rest rt0 d Hav Hget0 Hd), Hplt.
    cbn zeta.
    destruct (radar_loop_total plt A d (List.length (first :: rest))
                (first :: rest) Hplt) with (i := 0) as [fig Hfig].
    { intros company Hin.
      destruct (Hratio company Hin) as (rt & ds & Hget & Hwf & Hidx).
      exists rt. split; [exact Hget|]. split; [exact Hwf|].
      unfold has_period. rewrite Hidx. simpl. now rewrite String.eqb_refl. }
    rewrite Hfig, Hplt.
    destruct (radar_loop_ok _ _ _ _ _ _ _ Hfig) as [-> _].
    exists fig. reflexivity. }
  destruct HR as [fig HR].
  (* composition charts *)
  destruct (composition_loop_writes plt A cs d Hplt Hheld) as [HCo HCw].
  (* report *)
  assert (HG : exists report, generate_analysis_report now A = Ok report).
  { unfold generate_analysis_report.
    destruct (report_sections_total A (companies A)) as [sections ->].
    - intros company rt Hget.
      assert (Hin : In company cs).
      { unfold A in Hget. rewrite analysis_after_ratio in Hget.
        destruct (Dict.get company (balance_sheets (analysis_after yf base cs)))
          as [bs|] eqn:Ebs; [|discriminate].
        cbn [analysis_after with_ratios with_sheets balance_sheets] in Ebs.
        apply fetched_sheets_origin in Ebs.
        destruct Ebs as [(Hin & _)|Ebs]; [exact Hin | discriminate]. }
      destruct (Hratio company Hin) as (rt' & ds & Hget' & Hwf & Hidx).
      rewrite Hget in Hget'. injection Hget' as <-.
      split; [exact Hwf | eauto].
    - cbn [rbind]. eexists. reflexivity. }
  destruct HG as [report HG].
  destruct (visualize_spec plt now A cs) as [-> _].
  rewrite HL, HR, HCo, HG. cbn [outcome trace fst snd].
  rewrite !writes_app, !writes_of_artifacts, !map_app, HCw.
  cbn [writes filter is_write app map written_path].
  change (filter is_write) with writes.
  rewrite !writes_app, !writes_draws.
  reflexivity.
Qed.

Lemma run_writes_every_file_witness :
  outcome (run sample_provider plt_ok "2024-11-01 09:00:00" "/app" ["ACME"])
    = Ok tt /\
  map written_path
      (writes (trace (run sample_provider plt_ok "2024-11-01 09:00:00" "/app"
                          ["ACME"]))) =
  get_plot_path (init ["ACME"] "/app") "current_ratio_comparison.png"
  :: get_plot_path (init ["ACME"] "/app") "debt_ratio_radar.png"
  :: map (fun company =>
            get_plot_path (init ["ACME"] "/app")
                          (company +++ "_balance_sheet_composition.png")) ["ACME"]
  ++ [get_output_path (init ["ACME"] "/app") "financial_analysis_report.txt"].
Proof.
  apply (run_writes_every_file sample_provider plt_ok "2024-11-01 09:00:00"
           "/app" ["ACME"] Q3).
  - reflexivity.
  - discriminate.
  - intros company [<-|[]]. exists acme, [Q2].
    repeat split; try reflexivity. exact acme_wf.
Defined.

(** ** A run without any data *)

Lemma fetched_sheets_none yf cs :
  (forall company bs, In company cs -> yf company = Ok bs -> df_empty bs = true) ->
  forall d, fetched_sheets yf cs d = d.
Proof.
  induction cs as [|c cs IH]; intros Hnone d; [reflexivity|].
  cbn [fetched_sheets].
  assert (Hstep : match yf c with
                  | Ok bs => if df_empty bs then d else Dict.set c bs d
                  | Raise _ => d
                  end = d).
  { destruct (yf c) as [bs|] eqn:E; [|reflexivity].
    now rewrite (Hnone c bs (or_introl eq_refl) E). }
  rewrite Hstep. apply IH. intros company bs Hin. apply Hnone. now right.
Qed.

Lemma filter_none {A} (f : A -> bool) l :
  (forall x, In x l -> f x = false) -> filter f l = [].
Proof.
  induction l as [|x l IH]; intros H; [reflexivity|].
  cbn [filter]. rewrite (H x (or_introl eq_refl)).
  apply IH. intros y Hy. apply H. now right.
Qed.

Lemma composition_loop_nodata plt self cs :
  (forall company, In company cs ->
                   Dict.get company (balance_sheets self) = None) ->
  outcome (composition_loop plt self cs) = Ok tt /\
  artifacts (trace (composition_loop plt self cs)) = [].
Proof.
  induction cs as [|c cs IH]; intros Hnone; [split; reflexivity|].
  destruct IH as [IHo IHa]; [intros x Hx; apply Hnone; now right|].
  cbn [composition_loop].
  assert (Hc : plot_balance_sheet_composition plt self c =
               ([Print ("No data available for " +++ c)], Ok None)).
  { unfold plot_balance_sheet_composition.
    now rewrite (Hnone c (or_introl eq_refl)). }
  rewrite Hc, bind_effect. cbn [print_saved]. rewrite bind_ret.
  cbn [outcome trace fst snd]. split; [exact IHo | exact IHa].
Qed.

(** X17.  When no company of the list yields data (every fetch fails or
    returns an empty table) and the backend works, the run still ends
    normally and writes exactly two files: a comparison chart without
    any line and a report reduced to its header; the radar chart is
    replaced by the message 'No data available for radar chart'. *)
Theorem run_without_any_data
  (yf : Provider) (plt : Backend) (now base : string) (cs : list string) :
  (forall c, plt c = None) ->
  (forall company bs, In company cs -> yf company = Ok bs -> df_empty bs = true) ->
  outcome (run yf plt now base cs) = Ok tt /\
  plot_debt_ratio_radar plt (analysis_after yf base cs) =
    ([Print "No data available for radar chart"], Ok None) /\
  writes (trace (run yf plt now base cs)) =
  [ SaveFig (get_plot_path (init cs base) "current_ratio_comparison.png") [];
    WriteText (get_output_path (init cs base) "financial_analysis_report.txt")
              ("Financial Analysis Report" +++ nl
               +++ repeat_string "=" 50 +++ nl +++ nl
               +++ "Report Generated: " +++ now +++ nl +++ nl) ].
Proof.
  intros Hplt Hnone.
  destruct (run_spec yf plt now base cs) as (Hout & _ & _).
  split; [exact Hout|].
  assert (Hsheets : balance_sheets (analysis_after yf base cs) = Dict.empty).
  { cbn [analysis_after with_ratios with_sheets balance_sheets].
    now apply fetched_sheets_none. }
  assert (Hratios : ratios (analysis_after yf base cs) = Dict.empty).
  { cbn [analysis_after with_ratios with_sheets balance_sheets ratios].
    now rewrite (fetched_sheets_none yf cs Hnone). }
  set (A := analysis_after yf base cs) in *.
  assert (Hr : forall company, In company (companies A) ->
                               Dict.get company (ratios A) = None)
    by (intros company _; now rewrite Hratios).
  assert (HR : plot_debt_ratio_radar plt A =
               ([Print "No data available for radar chart"], Ok None)).
  { unfold plot_debt_ratio_radar, available_companies.
    rewrite filter_none; [reflexivity|].
    intros company Hin. apply dict_mem_false. now apply Hr. }
  split; [exact HR|].
  assert (HL : plot_current_ratio_comparison plt A =
    ([OpenFigure; SaveFig (get_plot_path A "current_ratio_comparison.png") []],
     Ok (get_plot_path A "current_ratio_comparison.png"))).
  { rewrite line_unfold, Hplt. cbn zeta.
    rewrite (line_loop_working plt A _ Hplt), Hplt.
    now rewrite (chart_lines_nil A _ Hr). }
  destruct (composition_loop_nodata plt A cs) as [HCo HCa].
  { intros company _. now rewrite Hsheets. }
  assert (HG : generate_analysis_report now A =
               Ok ("Financial Analysis Report" +++ nl
                   +++ repeat_string "=" 50 +++ nl +++ nl
                   +++ "Report Generated: " +++ now +++ nl +++ nl)).
  { unfold generate_analysis_report.
    rewrite (report_sections_nil A _ Hr). cbn [rbind flat_map].
    rewrite app_nil_r. reflexivity. }
  rewrite writes_run. fold A.
  destruct (visualize_spec plt now A cs) as [-> _].
  rewrite HL, HR, HCo, HCa, HG. reflexivity.
Qed.

Lemma run_without_any_data_witness :
  outcome (run sample_provider plt_ok "2024-11-01 09:00:00" "/app"
               ["VOID"; "GONE"]) = Ok tt /\
  plot_debt_ratio_radar plt_ok
    (analysis_after sample_provider "/app" ["VOID"; "GONE"]) =
    ([Print "No data available for radar chart"], Ok None) /\
  writes (trace (run sample_provider plt_ok "2024-11-01 09:00:00" "/app"
                     ["VOID"; "GONE"])) =
  [ SaveFig (get_plot_path (init ["VOID"; "GONE"] "/app")
                           "current_ratio_comparison.png") [];
    WriteText (get_output_path (init ["VOID"; "GONE"] "/app")
                               "financial_analysis_report.txt")
              ("Financial Analysis Report" +++ nl
               +++ repeat_string "=" 50 +++ nl +++ nl
               +++ "Report Generated: " +++ "2024-11-01 09:00:00" +++ nl +++ nl) ].
Proof.
  apply (run_without_any_data sample_provider plt_ok "2024-11-01 09:00:00"
           "/app" ["VOID"; "GONE"]).
  - reflexivity.
  - intros company bs [<-|[<-|[]]]; [intros [= <-]; reflexivity | discriminate].
Defined.
